(** * Reservations and reviews backend: data access and validation layer

    A shallow embedding of the FastAPI service described in
    [api-endpoints.md] ([backend/app/database.py], [backend/app/models.py],
    [backend/app/routers/reservations.py], [backend/app/routers/reviews.py])
    together with the client-side types of [types/review.ts].

    The SQLite file is a value of type [DB]; a cursor is a computation that
    threads the database and may raise; [get_db] is the context manager that
    commits on success and rolls back on an exception.  The dynamically
    assembled SELECT statements are kept as text plus a list of bound
    parameters, and are run by a small interpreter of the SQL fragment the
    routers emit.

    A request is followed from the validation of its input to the value the
    handler returns; how the framework then serialises that value is left
    out, except for the member names of the reviews response.  Integers are
    unbounded: row ids stay far below the 64 bits SQLite gives them.  Text
    is a [string] of 8-bit characters, compared byte by byte as SQLite's
    BINARY collation does. *)

From Stdlib Require Import ZArith List String Ascii Bool Lia.
From Stdlib Require Import Sorted Permutation QArith OrderedTypeEx.
From Stdlib Require Import Qround Lqa DecimalString.
Import ListNotations.

#[local] Set Warnings "-register-all".
Local Open Scope string_scope.
Local Open Scope Z_scope.
Local Open Scope list_scope.

(* ------------------------------------------------------------------ *)
(** ** Python values and exceptions *)

(** [if s:] on an [Optional[str]]: [None] and the empty string are falsy. *)
Definition truthy_str (s : option string) : bool :=
  match s with
  | Some (String _ _) => true
  | Some EmptyString => false
  | None => false
  end.

(** [if n:] on an [Optional[int]]: [None] and [0] are falsy. *)
Definition truthy_int (n : option Z) : bool :=
  match n with
  | Some v => negb (v =? 0)
  | None => false
  end.

(** What a request can raise.  [HTTPException] is raised by the routers,
    [RequestValidationError] by the framework when the pydantic model or a
    [Query] constraint rejects the request, [IntegrityError] and
    [ProgrammingError] (a wrong number of bindings) by [sqlite3], and
    [TypeError] by [dict(None)].  [Unsupported] is no exception of the
    service: it marks a statement outside the SQL fragment read here. *)
Inductive exn : Type :=
| HTTPException (status_code : Z) (detail : string)
| RequestValidationError
| IntegrityError (detail : string)
| ProgrammingError
| TypeError
| Unsupported.

(** An exception the handler does not catch is answered 500. *)
Definition status_code_of (e : exn) : Z :=
  match e with
  | HTTPException c _ => c
  | RequestValidationError => 422
  | IntegrityError _ => 500
  | ProgrammingError => 500
  | TypeError => 500
  | Unsupported => 500
  end.

(** The error taxonomy of the design: validation errors surface as 400 or
    422, a missing id as 404, a storage fault as 500. *)
Definition is_ValidationError (e : exn) : bool :=
  (status_code_of e =? 400) || (status_code_of e =? 422).

Definition is_NotFound (e : exn) : bool := status_code_of e =? 404.

Definition is_StorageError (e : exn) : bool := status_code_of e =? 500.

(** Binary floating point is kept abstract: the routers only convert
    integers, divide (inside SQLite's [AVG]), test truthiness and call
    Python's [round]. *)
Class Float64 : Type := {
  float : Type;
  float_of_int : Z -> float;
  float_div : float -> float -> float;
  py_round : float -> Z -> float;
  float_truthy : float -> bool
}.

(** The one fact about binary64 the routers rely on: a quotient of two
    integers [0 < n <= s] is at least one, hence not [0.0]. *)
Definition Float64_quotient_nonzero (F : Float64) : Prop :=
  forall s n : Z, 0 < n -> n <= s ->
    float_truthy (float_div (float_of_int s) (float_of_int n)) = true.

(* ------------------------------------------------------------------ *)
(** ** Strings *)

(** Remove a literal prefix, if it is there. *)
Fixpoint strip_prefix (p s : string) : option string :=
  match p with
  | EmptyString => Some s
  | String a p' =>
      match s with
      | String b s' => if Ascii.eqb a b then strip_prefix p' s' else None
      | EmptyString => None
      end
  end.

(** [str.upper] on 8-bit characters. *)
Definition upper_ascii (c : ascii) : ascii :=
  let n := N_of_ascii c in
  if ((97 <=? n) && (n <=? 122))%N then ascii_of_N (n - 32) else c.

Fixpoint upper (s : string) : string :=
  match s with
  | EmptyString => EmptyString
  | String c s' => String (upper_ascii c) (upper s')
  end.

(* ------------------------------------------------------------------ *)
(** ** SQLite: values, comparison, ORDER BY *)

Inductive sqlval : Type :=
| SqlNull
| SqlInt (n : Z)
| SqlText (s : string).

(** [CURRENT_TIMESTAMP] is the text [YYYY-MM-DD HH:MM:SS], to the second;
    the columns keep it as text and compare it as text. *)
Definition timestamp : Type := string.

Section OrderBy.
Context {A : Type}.
Variable leb : A -> A -> bool.

  (** The sorter keeps rows with equal keys in the order of the scan. *)
Fixpoint sorter_insert (x : A) (l : list A) : list A :=
    match l with
    | [] => [x]
    | y :: l' => if leb x y then x :: y :: l' else y :: sorter_insert x l'
    end.

Definition order_by (rows : list A) : list A :=
    fold_right sorter_insert [] rows.
End OrderBy.

(** Lexicographic order of text under the BINARY collation. *)
Definition text_leb (a b : string) : bool := String.leb a b.
Definition text_ltb (a b : string) : bool := String.ltb a b.

(* ------------------------------------------------------------------ *)
(** ** [backend/app/models.py] *)

Inductive ReservationStatus : Type := pending | confirmed | cancelled.

(** The enumeration mixes in [str]; SQLite stores the member's value. *)
Definition ReservationStatus_value (s : ReservationStatus) : string :=
  match s with
  | pending => "pending"
  | confirmed => "confirmed"
  | cancelled => "cancelled"
  end.

Module ReservationCreate.
Record t : Type := {
    restaurant_id : string;
    customer_name : string;
    customer_email : string;
    customer_phone : option string;
    party_size : Z;
    reservation_date : string;
    reservation_time : string;
    notes : option string
  }.
End ReservationCreate.

(** A field of a patch model: left out of the request body, or present
    (with [None] for a JSON [null]).  [model_dump(exclude_unset=True)]
    keeps exactly the present ones. *)
Inductive patch_field (A : Type) : Type :=
| unset
| given (v : option A).
Arguments unset {A}.
Arguments given {A} v.

Module ReservationUpdate.
Record t : Type := {
    customer_name : patch_field string;
    customer_email : patch_field string;
    customer_phone : patch_field string;
    party_size : patch_field Z;
    reservation_date : patch_field string;
    reservation_time : patch_field string;
    status : patch_field ReservationStatus;
    notes : patch_field string
  }.
End ReservationUpdate.

(** A row of [reservations]; also the [dict(row)] the routers return and
    the [Reservation] interface of the client.  Columns declared NOT NULL
    hold a value, the others may hold NULL. *)
Module Reservation.
Record t : Type := {
    id : Z;
    restaurant_id : string;
    customer_name : string;
    customer_email : string;
    customer_phone : option string;
    party_size : Z;
    reservation_date : string;
    reservation_time : string;
    status : option string;
    notes : option string;
    created_at : timestamp;
    updated_at : timestamp
  }.

Definition with_customer_name (v : string) (r : t) : t :=
    {| id := id r; restaurant_id := restaurant_id r; customer_name := v;
       customer_email := customer_email r; customer_phone := customer_phone r;
       party_size := party_size r; reservation_date := reservation_date r;
       reservation_time := reservation_time r; status := status r;
       notes := notes r; created_at := created_at r;
       updated_at := updated_at r |}.

Definition with_customer_email (v : string) (r : t) : t :=
    {| id := id r; restaurant_id := restaurant_id r;
       customer_name := customer_name r;
       customer_email := v; customer_phone := customer_phone r;
       party_size := party_size r; reservation_date := reservation_date r;
       reservation_time := reservation_time r; status := status r;
       notes := notes r; created_at := created_at r;
       updated_at := updated_at r |}.

Definition with_customer_phone (v : option string) (r : t) : t :=
    {| id := id r; restaurant_id := restaurant_id r;
       customer_name := customer_name r;
       customer_email := customer_email r; customer_phone := v;
       party_size := party_size r; reservation_date := reservation_date r;
       reservation_time := reservation_time r; status := status r;
       notes := notes r; created_at := created_at r;
       updated_at := updated_at r |}.

Definition with_party_size (v : Z) (r : t) : t :=
    {| id := id r; restaurant_id := restaurant_id r;
       customer_name := customer_name r;
       customer_email := customer_email r; customer_phone := customer_phone r;
       party_size := v; reservation_date := reservation_date r;
       reservation_time := reservation_time r; status := status r;
       notes := notes r; created_at := created_at r;
       updated_at := updated_at r |}.

Definition with_reservation_date (v : string) (r : t) : t :=
    {| id := id r; restaurant_id := restaurant_id r;
       customer_name := customer_name r;
       customer_email := customer_email r; customer_phone := customer_phone r;
       party_size := party_size r; reservation_date := v;
       reservation_time := reservation_time r; status := status r;
       notes := notes r; created_at := created_at r;
       updated_at := updated_at r |}.

Definition with_reservation_time (v : string) (r : t) : t :=
    {| id := id r; restaurant_id := restaurant_id r;
       customer_name := customer_name r;
       customer_email := customer_email r; customer_phone := customer_phone r;
       party_size := party_size r; reservation_date := reservation_date r;
       reservation_time := v; status := status r;
       notes := notes r; created_at := created_at r;
       updated_at := updated_at r |}.

Definition with_status (v : option string) (r : t) : t :=
    {| id := id r; restaurant_id := restaurant_id r;
       customer_name := customer_name r;
       customer_email := customer_email r; customer_phone := customer_phone r;
       party_size := party_size r; reservation_date := reservation_date r;
       reservation_time := reservation_time r; status := v;
       notes := notes r; created_at := created_at r;
       updated_at := updated_at r |}.

Definition with_notes (v : option string) (r : t) : t :=
    {| id := id r; restaurant_id := restaurant_id r;
       customer_name := customer_name r;
       customer_email := customer_email r; customer_phone := customer_phone r;
       party_size := party_size r; reservation_date := reservation_date r;
       reservation_time := reservation_time r; status := status r;
       notes := v; created_at := created_at r;
       updated_at := updated_at r |}.

Definition with_updated_at (v : timestamp) (r : t) : t :=
    {| id := id r; restaurant_id := restaurant_id r;
       customer_name := customer_name r;
       customer_email := customer_email r; customer_phone := customer_phone r;
       party_size := party_size r; reservation_date := reservation_date r;
       reservation_time := reservation_time r; status := status r;
       notes := notes r; created_at := created_at r;
       updated_at := v |}.
End Reservation.

Module ReviewCreate.
Record t : Type := {
    restaurant_id : string;
    reviewer_name : string;
    reviewer_email : option string;
    rating : Z;
    title : option string;
    comment : option string;
    visit_date : option string
  }.
End ReviewCreate.

(** A row of [reviews], the [ReviewResponse] model and the client's
    [Review] interface. *)
Module Review.
Record t : Type := {
    id : Z;
    restaurant_id : string;
    reviewer_name : string;
    reviewer_email : option string;
    rating : Z;
    title : option string;
    comment : option string;
    visit_date : option string;
    created_at : timestamp
  }.
End Review.

Module ReviewStats.
Record t {F : Float64} : Type := {
    avg_rating : option float;
    total_reviews : Z
  }.
Arguments t : clear implicits.
End ReviewStats.

Module ReviewsWithStats.
Record t {F : Float64} : Type := {
    reviews : list Review.t;
    stats : ReviewStats.t F
  }.
Arguments t : clear implicits.
End ReviewsWithStats.

(* ------------------------------------------------------------------ *)
(** ** [backend/app/database.py] *)

(** The database file: the two tables in rowid order, and for each the
    largest rowid ever handed out (AUTOINCREMENT keeps it in
    [sqlite_sequence]). *)
Module DB.
Record t : Type := {
    reservations : list Reservation.t;
    reservations_seq : Z;
    reviews : list Review.t;
    reviews_seq : Z
  }.
End DB.

(** [init_database] on a fresh file: both tables exist and are empty. *)
Definition init_database : DB.t :=
  {| DB.reservations := []; DB.reservations_seq := 0;
     DB.reviews := []; DB.reviews_seq := 0 |}.

(** Work done on a cursor: it reads and writes the connection's view of
    the database and may raise. *)
Definition cursor (A : Type) : Type := DB.t -> exn + (A * DB.t).

Definition ret {A : Type} (a : A) : cursor A := fun db => inr (a, db).

Definition bind {A B : Type} (c : cursor A) (k : A -> cursor B) : cursor B :=
  fun db =>
    match c db with
    | inl e => inl e
    | inr (a, db') => k a db'
    end.

Definition raise {A : Type} (e : exn) : cursor A := fun _ => inl e.

Definition lift {A : Type} (r : exn + A) : cursor A :=
  fun db => match r with inl e => inl e | inr a => inr (a, db) end.

Notation "x <- c ;; k" := (bind c (fun x => k))
  (at level 61, c at next level, right associativity).
Notation "c ;;; k" := (bind c (fun _ => k))
  (at level 61, right associativity).

(** What a request yields: the handler's return value or the exception,
    and the database file afterwards. *)
Definition request (A : Type) : Type := DB.t -> (exn + A) * DB.t.

(** [with get_db() as conn]: commit when the body returns, roll back and
    re-raise when it raises. *)
Definition get_db {A : Type} (body : cursor A) : request A :=
  fun db =>
    match body db with
    | inr (a, db') => (inr a, db')
    | inl e => (inl e, db)
    end.

(** The framework validates the request before the handler runs. *)
Definition validated {A : Type} (ok : bool) (handler : request A) : request A :=
  fun db => if ok then handler db else (inl RequestValidationError, db).


(* ------------------------------------------------------------------ *)
(** ** The SQL fragment the routers emit *)

(** Find the first known clause the text starts with. *)
Fixpoint first_clause {C : Type} (clauses : list (string * C)) (q : string)
  : option (C * string) :=
  match clauses with
  | [] => None
  | (text, c) :: rest =>
      match strip_prefix text q with
      | Some q' => Some (c, q')
      | None => first_clause rest q
      end
  end.

(** Read conjuncts off the front of the text for as long as there are any. *)
Fixpoint parse_where {C : Type} (clauses : list (string * C)) (fuel : nat)
  (q : string) : list C * string :=
  match fuel with
  | O => ([], q)
  | S fuel' =>
      match first_clause clauses q with
      | Some (c, q') =>
          let '(cs, rest) := parse_where clauses fuel' q' in (c :: cs, rest)
      | None => ([], q)
      end
  end.

(** Positional binding: the n-th [?] takes the n-th parameter, and the
    counts must agree. *)
Fixpoint bind_params {C : Type} (conds : list C) (params : list sqlval)
  : option (list (C * sqlval)) :=
  match conds, params with
  | [], [] => Some []
  | c :: conds', v :: params' =>
      match bind_params conds' params' with
      | Some bound => Some ((c, v) :: bound)
      | None => None
      end
  | _, _ => None
  end.

(** A parameter is a value, never text of the statement: binding a string
    passes it as a TEXT value; [None] is NULL. *)
Definition str_param (s : option string) : sqlval :=
  match s with
  | Some v => SqlText v
  | None => SqlNull
  end.

Definition int_param (n : option Z) : sqlval :=
  match n with
  | Some v => SqlInt v
  | None => SqlNull
  end.

(** [text = ?] on a TEXT column.  A comparison with NULL is never true.
    The routers bind text here; an integer would first be converted by the
    column's affinity, which the fragment leaves out ([None]). *)
Definition text_eq (column : option string) (v : sqlval) : option bool :=
  match v with
  | SqlText s =>
      Some match column with
           | Some c => String.eqb c s
           | None => false
           end
  | SqlNull => Some false
  | SqlInt _ => None
  end.

(** [int >= ?] on an INTEGER column. *)
Definition int_ge (column : Z) (v : sqlval) : option bool :=
  match v with
  | SqlInt n => Some (n <=? column)
  | SqlNull => Some false
  | SqlText _ => None
  end.

(** A row passes the WHERE clause when every conjunct holds. *)
Fixpoint where_all {R C : Type} (holds : R -> C * sqlval -> option bool)
  (bound : list (C * sqlval)) (r : R) : option bool :=
  match bound with
  | [] => Some true
  | b :: bound' =>
      match holds r b, where_all holds bound' r with
      | Some x, Some y => Some (x && y)
      | _, _ => None
      end
  end.

(** Scan the table and keep the rows that pass. *)
Fixpoint scan {R : Type} (test : R -> option bool) (rows : list R)
  : option (list R) :=
  match rows with
  | [] => Some []
  | r :: rows' =>
      match test r, scan test rows' with
      | Some keep, Some kept => Some (if keep then r :: kept else kept)
      | _, _ => None
      end
  end.

(** *** Statements on [reservations] *)

Inductive reservations_cond : Type :=
| restaurant_id_eq
| status_eq.

Definition reservations_clauses : list (string * reservations_cond) :=
  [ (" AND restaurant_id = ?", restaurant_id_eq);
    (" AND status = ?", status_eq) ].

Definition reservations_holds (r : Reservation.t)
  (b : reservations_cond * sqlval) : option bool :=
  match fst b with
  | restaurant_id_eq => text_eq (Some (Reservation.restaurant_id r)) (snd b)
  | status_eq => text_eq (Reservation.status r) (snd b)
  end.

(** [ORDER BY reservation_date, reservation_time]: both ascending. *)
Definition by_date_time (a b : Reservation.t) : bool :=
  text_ltb (Reservation.reservation_date a) (Reservation.reservation_date b)
  || (String.eqb (Reservation.reservation_date a) (Reservation.reservation_date b)
      && text_leb (Reservation.reservation_time a) (Reservation.reservation_time b)).

(** [cursor.execute(query, params); cursor.fetchall()] for the statements
    [SELECT * FROM reservations WHERE 1=1 { AND column = ?}
     ORDER BY reservation_date, reservation_time]. *)
Definition select_reservations (query : string) (params : list sqlval)
  : cursor (list Reservation.t) :=
  fun db =>
    match strip_prefix "SELECT * FROM reservations WHERE 1=1" query with
    | None => inl Unsupported
    | Some q =>
        let '(conds, rest) :=
          parse_where reservations_clauses (String.length q) q in
        if String.eqb rest " ORDER BY reservation_date, reservation_time" then
          match bind_params conds params with
          | None => inl ProgrammingError
          | Some bound =>
              match scan (where_all reservations_holds bound)
                         (DB.reservations db) with
              | None => inl Unsupported
              | Some rows => inr (order_by by_date_time rows, db)
              end
          end
        else inl Unsupported
    end.

(** [SELECT * FROM reservations WHERE id = ?] and [fetchone()]. *)
Definition select_reservation_by_id (reservation_id : Z)
  : cursor (option Reservation.t) :=
  fun db =>
    inr (find (fun r => Reservation.id r =? reservation_id)
              (DB.reservations db), db).

(** [INSERT INTO reservations (restaurant_id, ..., notes) VALUES (?, ..., ?)]
    at time [now]: the id is one more than the largest ever used, [status],
    [created_at] and [updated_at] take their column defaults.  Yields
    [cursor.lastrowid]. *)
Definition insert_reservation (v : ReservationCreate.t) (now : timestamp)
  : cursor Z :=
  fun db =>
    let rowid := DB.reservations_seq db + 1 in
    let row :=
      {| Reservation.id := rowid;
         Reservation.restaurant_id := ReservationCreate.restaurant_id v;
         Reservation.customer_name := ReservationCreate.customer_name v;
         Reservation.customer_email := ReservationCreate.customer_email v;
         Reservation.customer_phone := ReservationCreate.customer_phone v;
         Reservation.party_size := ReservationCreate.party_size v;
         Reservation.reservation_date := ReservationCreate.reservation_date v;
         Reservation.reservation_time := ReservationCreate.reservation_time v;
         Reservation.status := Some "pending";
         Reservation.notes := ReservationCreate.notes v;
         Reservation.created_at := now;
         Reservation.updated_at := now |} in
    inr (rowid,
         {| DB.reservations := DB.reservations db ++ [row];
            DB.reservations_seq := rowid;
            DB.reviews := DB.reviews db;
            DB.reviews_seq := DB.reviews_seq db |}).

(** One [key = ?] of the SET clause with the value bound to it. *)
Inductive assignment : Type :=
| set_customer_name (v : option string)
| set_customer_email (v : option string)
| set_customer_phone (v : option string)
| set_party_size (v : option Z)
| set_reservation_date (v : option string)
| set_reservation_time (v : option string)
| set_status (v : option ReservationStatus)
| set_notes (v : option string).

Definition assignment_key (a : assignment) : string :=
  match a with
  | set_customer_name _ => "customer_name"
  | set_customer_email _ => "customer_email"
  | set_customer_phone _ => "customer_phone"
  | set_party_size _ => "party_size"
  | set_reservation_date _ => "reservation_date"
  | set_reservation_time _ => "reservation_time"
  | set_status _ => "status"
  | set_notes _ => "notes"
  end.

Definition not_null {A : Type} (column : string) (v : option A) : exn + A :=
  match v with
  | Some x => inr x
  | None =>
      inl (IntegrityError
             ("NOT NULL constraint failed: reservations." ++ column))
  end.

Definition on_value {A : Type} (r : exn + A) (f : A -> Reservation.t)
  : exn + Reservation.t :=
  match r with
  | inl e => inl e
  | inr x => inr (f x)
  end.

(** Store one assigned value, subject to the column's NOT NULL. *)
Definition assign (a : assignment) (r : Reservation.t) : exn + Reservation.t :=
  let key := assignment_key a in
  match a with
  | set_customer_name v =>
      on_value (not_null key v) (fun x => Reservation.with_customer_name x r)
  | set_customer_email v =>
      on_value (not_null key v) (fun x => Reservation.with_customer_email x r)
  | set_customer_phone v => inr (Reservation.with_customer_phone v r)
  | set_party_size v =>
      on_value (not_null key v) (fun x => Reservation.with_party_size x r)
  | set_reservation_date v =>
      on_value (not_null key v) (fun x => Reservation.with_reservation_date x r)
  | set_reservation_time v =>
      on_value (not_null key v) (fun x => Reservation.with_reservation_time x r)
  | set_status v =>
      inr (Reservation.with_status (option_map ReservationStatus_value v) r)
  | set_notes v => inr (Reservation.with_notes v r)
  end.

Fixpoint assign_all (sets : list assignment) (r : Reservation.t)
  : exn + Reservation.t :=
  match sets with
  | [] => inr r
  | a :: sets' =>
      match assign a r with
      | inl e => inl e
      | inr r' => assign_all sets' r'
      end
  end.

Fixpoint update_rows (sets : list assignment) (now : timestamp)
  (reservation_id : Z) (rows : list Reservation.t)
  : exn + list Reservation.t :=
  match rows with
  | [] => inr []
  | r :: rows' =>
      match (if Reservation.id r =? reservation_id
             then on_value (assign_all sets r) (Reservation.with_updated_at now)
             else inr r),
            update_rows sets now reservation_id rows' with
      | inr r', inr rows'' => inr (r' :: rows'')
      | inl e, _ => inl e
      | _, inl e => inl e
      end
  end.

(** [UPDATE reservations SET {set_clause}, updated_at = CURRENT_TIMESTAMP
    WHERE id = ?] at time [now]. *)
Definition update_reservations (sets : list assignment) (now : timestamp)
  (reservation_id : Z) : cursor unit :=
  fun db =>
    match update_rows sets now reservation_id (DB.reservations db) with
    | inl e => inl e
    | inr rows =>
        inr (tt, {| DB.reservations := rows;
                    DB.reservations_seq := DB.reservations_seq db;
                    DB.reviews := DB.reviews db;
                    DB.reviews_seq := DB.reviews_seq db |})
    end.

(** [DELETE FROM reservations WHERE id = ?]. *)
Definition delete_reservations (reservation_id : Z) : cursor unit :=
  fun db =>
    inr (tt, {| DB.reservations :=
                  filter (fun r => negb (Reservation.id r =? reservation_id))
                         (DB.reservations db);
                DB.reservations_seq := DB.reservations_seq db;
                DB.reviews := DB.reviews db;
                DB.reviews_seq := DB.reviews_seq db |}).

(** *** Statements on [reviews] *)

Inductive reviews_cond : Type :=
| review_restaurant_id_eq
| rating_ge.

Definition reviews_clauses : list (string * reviews_cond) :=
  [ (" AND restaurant_id = ?", review_restaurant_id_eq);
    (" AND rating >= ?", rating_ge) ].

Definition reviews_holds (r : Review.t) (b : reviews_cond * sqlval)
  : option bool :=
  match fst b with
  | review_restaurant_id_eq => text_eq (Some (Review.restaurant_id r)) (snd b)
  | rating_ge => int_ge (Review.rating r) (snd b)
  end.

Inductive sort_column : Type := by_created_at | by_rating.
Inductive sort_direction : Type := ASC | DESC.

Definition sort_columns : list (string * sort_column) :=
  [ ("created_at", by_created_at); ("rating", by_rating) ].

Definition sort_directions : list (string * sort_direction) :=
  [ ("ASC", ASC); ("DESC", DESC) ].

(** [a] is not after [b] on the column. *)
Definition column_leb (c : sort_column) (a b : Review.t) : bool :=
  match c with
  | by_created_at => text_leb (Review.created_at a) (Review.created_at b)
  | by_rating => Review.rating a <=? Review.rating b
  end.

(** A single sort term: rows are compared on that column alone. *)
Definition by_term (c : sort_column) (d : sort_direction) (a b : Review.t)
  : bool :=
  match d with
  | ASC => column_leb c a b
  | DESC => column_leb c b a
  end.

(** [ ORDER BY <column> <direction>] and nothing after it. *)
Definition parse_order_by (q : string) : option (sort_column * sort_direction) :=
  match strip_prefix " ORDER BY " q with
  | None => None
  | Some q1 =>
      match first_clause sort_columns q1 with
      | None => None
      | Some (c, q2) =>
          match strip_prefix " " q2 with
          | None => None
          | Some q3 =>
              match first_clause sort_directions q3 with
              | Some (d, EmptyString) => Some (c, d)
              | _ => None
              end
          end
      end
  end.

(** [cursor.execute(query, params); cursor.fetchall()] for the statements
    [SELECT * FROM reviews WHERE 1=1 { AND column op ?}
     ORDER BY column direction]. *)
Definition select_reviews (query : string) (params : list sqlval)
  : cursor (list Review.t) :=
  fun db =>
    match strip_prefix "SELECT * FROM reviews WHERE 1=1" query with
    | None => inl Unsupported
    | Some q =>
        let '(conds, rest) := parse_where reviews_clauses (String.length q) q in
        match parse_order_by rest, bind_params conds params with
        | Some (c, d), Some bound =>
            match scan (where_all reviews_holds bound) (DB.reviews db) with
            | None => inl Unsupported
            | Some rows => inr (order_by (by_term c d) rows, db)
            end
        | Some _, None => inl ProgrammingError
        | None, _ => inl Unsupported
        end
    end.

Section Aggregates.
Context {F : Float64}.

(** [AVG(rating)]: NULL over no rows, otherwise the sum divided by the
    count, as a REAL. *)
Definition sql_avg (values : list Z) : option float :=
  match values with
  | [] => None
  | _ :: _ =>
      Some (float_div (float_of_int (fold_right Z.add 0 values))
                      (float_of_int (Z.of_nat (List.length values))))
  end.

(** [COUNT( * )]. *)
Definition sql_count {R : Type} (rows : list R) : Z :=
  Z.of_nat (List.length rows).

(** The one row of
    [SELECT AVG(rating) as avg_rating, COUNT( * ) as total_reviews
     FROM reviews { WHERE restaurant_id = ?}]. *)
Definition select_review_stats (query : string) (params : list sqlval)
  : cursor (option float * Z) :=
  fun db =>
    match strip_prefix
            "SELECT AVG(rating) as avg_rating, COUNT(*) as total_reviews FROM reviews"
            query with
    | None => inl Unsupported
    | Some q =>
        let conds :=
          match strip_prefix " WHERE restaurant_id = ?" q with
          | Some EmptyString => Some [review_restaurant_id_eq]
          | Some (String _ _) => None
          | None => if String.eqb q "" then Some [] else None
          end in
        match conds with
        | None => inl Unsupported
        | Some conds =>
            match bind_params conds params with
            | None => inl ProgrammingError
            | Some bound =>
                match scan (where_all reviews_holds bound) (DB.reviews db) with
                | None => inl Unsupported
                | Some rows =>
                    inr ((sql_avg (map Review.rating rows), sql_count rows), db)
                end
            end
        end
    end.
End Aggregates.

(** [SELECT * FROM reviews WHERE id = ?] and [fetchone()]. *)
Definition select_review_by_id (review_id : Z) : cursor (option Review.t) :=
  fun db =>
    inr (find (fun r => Review.id r =? review_id) (DB.reviews db), db).

(** [INSERT INTO reviews (restaurant_id, ..., visit_date) VALUES (?, ..., ?)]
    at time [now], under [CHECK (rating >= 1 AND rating <= 5)]. *)
Definition insert_review (v : ReviewCreate.t) (now : timestamp) : cursor Z :=
  fun db =>
    if (1 <=? ReviewCreate.rating v) && (ReviewCreate.rating v <=? 5) then
      let rowid := DB.reviews_seq db + 1 in
      let row :=
        {| Review.id := rowid;
           Review.restaurant_id := ReviewCreate.restaurant_id v;
           Review.reviewer_name := ReviewCreate.reviewer_name v;
           Review.reviewer_email := ReviewCreate.reviewer_email v;
           Review.rating := ReviewCreate.rating v;
           Review.title := ReviewCreate.title v;
           Review.comment := ReviewCreate.comment v;
           Review.visit_date := ReviewCreate.visit_date v;
           Review.created_at := now |} in
      inr (rowid,
           {| DB.reservations := DB.reservations db;
              DB.reservations_seq := DB.reservations_seq db;
              DB.reviews := DB.reviews db ++ [row];
              DB.reviews_seq := rowid |})
    else inl (IntegrityError "CHECK constraint failed: reviews").

(** [DELETE FROM reviews WHERE id = ?]. *)
Definition delete_reviews (review_id : Z) : cursor unit :=
  fun db =>
    inr (tt, {| DB.reservations := DB.reservations db;
                DB.reservations_seq := DB.reservations_seq db;
                DB.reviews :=
                  filter (fun r => negb (Review.id r =? review_id))
                         (DB.reviews db);
                DB.reviews_seq := DB.reviews_seq db |}).

(* ------------------------------------------------------------------ *)
(** ** The routers *)

Section Routers.
(** pydantic's [EmailStr] check, supplied by the [email-validator] package. *)
Variable EmailStr : string -> bool.
Context {F : Float64}.

Definition optional {A : Type} (ok : A -> bool) (v : option A) : bool :=
  match v with
  | Some x => ok x
  | None => true
  end.

Definition length_between (lo hi : nat) (s : string) : bool :=
  (lo <=? String.length s)%nat && (String.length s <=? hi)%nat.

Definition in_range (lo hi : Z) (n : Z) : bool := (lo <=? n) && (n <=? hi).

(** The field constraints of [ReservationCreate]. *)
Definition ReservationCreate_valid (m : ReservationCreate.t) : bool :=
  length_between 1 100 (ReservationCreate.customer_name m)
  && EmailStr (ReservationCreate.customer_email m)
  && in_range 1 20 (ReservationCreate.party_size m).

Definition present {A : Type} (ok : A -> bool) (f : patch_field A) : bool :=
  match f with
  | unset => true
  | given v => optional ok v
  end.

(** The field constraints of [ReservationUpdate]. *)
Definition ReservationUpdate_valid (m : ReservationUpdate.t) : bool :=
  present EmailStr (ReservationUpdate.customer_email m)
  && present (in_range 1 20) (ReservationUpdate.party_size m).

(** The field constraints of [ReviewCreate]. *)
Definition ReviewCreate_valid (m : ReviewCreate.t) : bool :=
  length_between 1 100 (ReviewCreate.reviewer_name m)
  && optional EmailStr (ReviewCreate.reviewer_email m)
  && in_range 1 5 (ReviewCreate.rating m)
  && optional (length_between 0 200) (ReviewCreate.title m).

Definition dump {A : Type} (key : option A -> assignment) (f : patch_field A)
  : list assignment :=
  match f with
  | unset => []
  | given v => [key v]
  end.

(** [update.model_dump(exclude_unset=True)]: the fields that were sent, in
    the order the model declares them. *)
Definition model_dump_exclude_unset (m : ReservationUpdate.t) : list assignment :=
  dump set_customer_name (ReservationUpdate.customer_name m)
  ++ dump set_customer_email (ReservationUpdate.customer_email m)
  ++ dump set_customer_phone (ReservationUpdate.customer_phone m)
  ++ dump set_party_size (ReservationUpdate.party_size m)
  ++ dump set_reservation_date (ReservationUpdate.reservation_date m)
  ++ dump set_reservation_time (ReservationUpdate.reservation_time m)
  ++ dump set_status (ReservationUpdate.status m)
  ++ dump set_notes (ReservationUpdate.notes m).

(** [dict(cursor.fetchone())]. *)
Definition fetched {A : Type} (row : option A) : cursor A :=
  match row with
  | Some r => ret r
  | None => raise TypeError
  end.

(** *** [backend/app/routers/reservations.py] *)

(** The text and the parameters [get_reservations] assembles. *)
Definition reservations_statement (restaurant_id status : option string)
  : string * list sqlval :=
  let query := "SELECT * FROM reservations WHERE 1=1" in
  let params := @nil sqlval in
  let '(query, params) :=
    if truthy_str restaurant_id
    then ((query ++ " AND restaurant_id = ?")%string,
          params ++ [str_param restaurant_id])
    else (query, params) in
  let '(query, params) :=
    if truthy_str status
    then ((query ++ " AND status = ?")%string, params ++ [str_param status])
    else (query, params) in
  let query :=
    (query ++ " ORDER BY reservation_date, reservation_time")%string in
  (query, params).

Definition get_reservations (restaurant_id status : option string)
  : request (list Reservation.t) :=
  get_db (
    let '(query, params) := reservations_statement restaurant_id status in
    select_reservations query params).

Definition get_reservation (reservation_id : Z) : request Reservation.t :=
  get_db (
    row <- select_reservation_by_id reservation_id ;;
    match row with
    | None => raise (HTTPException 404 "Reservation not found")
    | Some r => ret r
    end).

Definition create_reservation (reservation : ReservationCreate.t)
  (now : timestamp) : request Reservation.t :=
  validated (ReservationCreate_valid reservation) (get_db (
    reservation_id <- insert_reservation reservation now ;;
    row <- select_reservation_by_id reservation_id ;;
    fetched row)).

Definition update_reservation (reservation_id : Z) (update : ReservationUpdate.t)
  (now : timestamp) : request Reservation.t :=
  validated (ReservationUpdate_valid update) (get_db (
    existing <- select_reservation_by_id reservation_id ;;
    match existing with
    | None => raise (HTTPException 404 "Reservation not found")
    | Some _ =>
        let update_data := model_dump_exclude_unset update in
        match update_data with
        | [] => raise (HTTPException 400 "No fields to update")
        | _ :: _ =>
            update_reservations update_data now reservation_id ;;;
            row <- select_reservation_by_id reservation_id ;;
            fetched row
        end
    end)).

Definition delete_reservation (reservation_id : Z) : request unit :=
  get_db (
    existing <- select_reservation_by_id reservation_id ;;
    match existing with
    | None => raise (HTTPException 404 "Reservation not found")
    | Some _ => delete_reservations reservation_id
    end).

(** *** [backend/app/routers/reviews.py] *)

(** A query parameter that was not sent takes its declared default. *)
Definition query_default (default : string) (v : option string) : string :=
  match v with
  | Some s => s
  | None => default
  end.

(** [regex="^(created_at|rating)$"]. *)
Definition sort_by_regex (s : string) : bool :=
  String.eqb s "created_at" || String.eqb s "rating".

(** [regex="^(asc|desc)$"]. *)
Definition order_regex (s : string) : bool :=
  String.eqb s "asc" || String.eqb s "desc".

(** The text and the parameters of the list query of [get_reviews]. *)
Definition reviews_statement (restaurant_id : option string)
  (min_rating : option Z) (sort_by order : string) : string * list sqlval :=
  let query := "SELECT * FROM reviews WHERE 1=1" in
  let params := @nil sqlval in
  let '(query, params) :=
    if truthy_str restaurant_id
    then ((query ++ " AND restaurant_id = ?")%string,
          params ++ [str_param restaurant_id])
    else (query, params) in
  let '(query, params) :=
    if truthy_int min_rating
    then ((query ++ " AND rating >= ?")%string,
          params ++ [int_param min_rating])
    else (query, params) in
  let query := (query ++ " ORDER BY " ++ sort_by ++ " " ++ upper order)%string in
  (query, params).

(** The text and the parameters of its stats query. *)
Definition review_stats_statement (restaurant_id : option string)
  : string * list sqlval :=
  let stats_query :=
    "SELECT AVG(rating) as avg_rating, COUNT(*) as total_reviews FROM reviews" in
  let stats_params := @nil sqlval in
  let '(stats_query, stats_params) :=
    if truthy_str restaurant_id
    then ((stats_query ++ " WHERE restaurant_id = ?")%string,
          stats_params ++ [str_param restaurant_id])
    else (stats_query, stats_params) in
  (stats_query, stats_params).

(** [round(avg, 2) if avg else None]. *)
Definition rounded_average (avg : option float) : option float :=
  match avg with
  | Some x => if float_truthy x then Some (py_round x 2) else None
  | None => None
  end.

Definition get_reviews (restaurant_id : option string) (min_rating : option Z)
  (sort_by order : option string) : request (ReviewsWithStats.t F) :=
  let sort_by := query_default "created_at" sort_by in
  let order := query_default "desc" order in
  validated (optional (in_range 1 5) min_rating
             && sort_by_regex sort_by && order_regex order) (get_db (
    let '(query, params) :=
      reviews_statement restaurant_id min_rating sort_by order in
    reviews <- select_reviews query params ;;
    let '(stats_query, stats_params) := review_stats_statement restaurant_id in
    stats_row <- select_review_stats stats_query stats_params ;;
    let stats :=
      {| ReviewStats.avg_rating := rounded_average (fst stats_row);
         ReviewStats.total_reviews := snd stats_row |} in
    ret {| ReviewsWithStats.reviews := reviews;
           ReviewsWithStats.stats := stats |})).

Definition get_review (review_id : Z) : request Review.t :=
  get_db (
    row <- select_review_by_id review_id ;;
    match row with
    | None => raise (HTTPException 404 "Review not found")
    | Some r => ret r
    end).

Definition create_review (review : ReviewCreate.t) (now : timestamp)
  : request Review.t :=
  validated (ReviewCreate_valid review) (get_db (
    review_id <- insert_review review now ;;
    row <- select_review_by_id review_id ;;
    fetched row)).

Definition delete_review (review_id : Z) : request unit :=
  get_db (
    existing <- select_review_by_id review_id ;;
    match existing with
    | None => raise (HTTPException 404 "Review not found")
    | Some _ => delete_reviews review_id
    end).

End Routers.

(* ------------------------------------------------------------------ *)
(** ** The JSON the service answers with *)

Section Json.
Context {F : Float64}.

Inductive json : Type :=
| JNull
| JInt (n : Z)
| JFloat (x : float)
| JString (s : string)
| JArray (items : list json)
| JObject (fields : list (string * json)).

Definition json_optional {A : Type} (f : A -> json) (v : option A) : json :=
  match v with
  | Some x => f x
  | None => JNull
  end.

(** [ReviewResponse]. *)
Definition ReviewResponse_json (r : Review.t) : json :=
  JObject
    [ ("id", JInt (Review.id r));
      ("restaurant_id", JString (Review.restaurant_id r));
      ("reviewer_name", JString (Review.reviewer_name r));
      ("reviewer_email", json_optional JString (Review.reviewer_email r));
      ("rating", JInt (Review.rating r));
      ("title", json_optional JString (Review.title r));
      ("comment", json_optional JString (Review.comment r));
      ("visit_date", json_optional JString (Review.visit_date r));
      ("created_at", JString (Review.created_at r)) ].

(** [ReviewStats]: the model's field names are the keys. *)
Definition ReviewStats_json (s : ReviewStats.t F) : json :=
  JObject
    [ ("avg_rating", json_optional JFloat (ReviewStats.avg_rating s));
      ("total_reviews", JInt (ReviewStats.total_reviews s)) ].

(** [ReviewsWithStats], the response model of [get_reviews]. *)
Definition ReviewsWithStats_json (r : ReviewsWithStats.t F) : json :=
  JObject
    [ ("reviews", JArray (map ReviewResponse_json (ReviewsWithStats.reviews r)));
      ("stats", ReviewStats_json (ReviewsWithStats.stats r)) ].

(** The types an interface gives its members. *)
Inductive member_type : Type :=
| number
| integer
| null
| union (a b : member_type).

Fixpoint has_type (j : json) (t : member_type) : bool :=
  match t with
  | number => match j with JInt _ | JFloat _ => true | _ => false end
  | integer => match j with JInt _ => true | _ => false end
  | null => match j with JNull => true | _ => false end
  | union a b => has_type j a || has_type j b
  end.

Fixpoint members_match (fields : list (string * json))
  (shape : list (string * member_type)) : bool :=
  match fields, shape with
  | [], [] => true
  | (k, v) :: fields', (k', t) :: shape' =>
      String.eqb k k' && has_type v t && members_match fields' shape'
  | _, _ => false
  end.

(** An object has exactly the members of the shape, each of its type. *)
Definition has_shape (j : json) (shape : list (string * member_type)) : bool :=
  match j with
  | JObject fields => members_match fields shape
  | _ => false
  end.

Definition json_member (key : string) (j : json) : option json :=
  match j with
  | JObject fields =>
      option_map snd (find (fun kv => String.eqb (fst kv) key) fields)
  | _ => None
  end.

End Json.

(** [types/review.ts], [interface ReviewStats]. *)
Definition ReviewStats_interface : list (string * member_type) :=
  [ ("avg_rating", union number null); ("total_reviews", number) ].

(** The shape the specification gives the stats object:
    [{ avgRating: number|null, totalReviews: integer }]. *)
Definition spec_stats_shape : list (string * member_type) :=
  [ ("avgRating", union number null); ("totalReviews", integer) ].

(** [app/api/reviews/route.ts], the Next.js variant of the route: the
    stats row goes out under the aliases of its statement,
    [AVG(rating) as avgRating, COUNT( * ) as totalReviews]. *)
Definition nextjs_stats_json {F : Float64} (avgRating : option float)
  (totalReviews : Z) : json :=
  JObject
    [ ("avgRating", json_optional JFloat avgRating);
      ("totalReviews", JInt totalReviews) ].

(** The same types under the names the service uses. *)
Definition service_stats_shape : list (string * member_type) :=
  [ ("avg_rating", union number null); ("total_reviews", integer) ].

(* ------------------------------------------------------------------ *)
(** ** An exact arithmetic to run the service on

    Rationals stand in for binary64 where a run needs concrete numbers:
    division is exact and [round] goes to the nearest multiple of
    [10^-ndigits], ties to even. *)

Definition Q_round (x : Q) (ndigits : Z) : Q :=
  let scale := 10 ^ ndigits in
  let n := Qnum x * scale in
  let d := Z.pos (Qden x) in
  let q := n / d in
  let r := n mod d in
  let k :=
    match 2 * r ?= d with
    | Lt => q
    | Gt => q + 1
    | Eq => if Z.even q then q else q + 1
    end in
  Qred (Qmake k (Z.to_pos scale)).

Definition Q_truthy (x : Q) : bool := negb (Qnum x =? 0).

Definition ExactFloat : Float64 :=
  {| float := Q;
     float_of_int := inject_Z;
     float_div := fun a b => Qred (Qdiv a b);
     py_round := Q_round;
     float_truthy := Q_truthy |}.

(** An [EmailStr] check to run the service on: there is an [@]. *)
Definition has_at_sign (s : string) : bool :=
  existsb (Ascii.eqb "@"%char) (list_ascii_of_string s).

(* ================================================================== *)
(** * Properties *)

(** ** Text order *)

Lemma text_leb_total (a b : string) : text_leb a b = true \/ text_leb b a = true.
Proof. apply String.leb_total. Qed.


Lemma text_leb_trans (a b c : string) :
  text_leb a b = true -> text_leb b c = true -> text_leb a c = true.
Proof.
  unfold text_leb, String.leb.
  destruct (String.compare a b) eqn:Eab; try discriminate; intros _;
    destruct (String.compare b c) eqn:Ebc; try discriminate; intros _.
  - apply String.compare_eq_iff in Eab. subst. now rewrite Ebc.
  - apply String.compare_eq_iff in Eab. subst. now rewrite Ebc.
  - apply String.compare_eq_iff in Ebc. subst. now rewrite Eab.
  - apply String_as_OT.cmp_lt in Eab, Ebc.
    pose proof (String_as_OT.lt_trans _ _ _ Eab Ebc) as H.
    apply String_as_OT.cmp_lt in H.
    unfold String_as_OT.cmp in H. now rewrite H.
Qed.


(** ** The sorter *)

Section OrderByFacts.
Context {A : Type}.
Variable leb : A -> A -> bool.

Definition ordered (a b : A) : Prop := leb a b = true.

Lemma sorter_insert_perm (x : A) (l : list A) :
  Permutation (x :: l) (sorter_insert leb x l).
Proof.
  induction l as [|y l IH]; simpl.
  - apply Permutation_refl.
  - destruct (leb x y).
    + apply Permutation_refl.
    + eapply perm_trans; [apply perm_swap | apply perm_skip, IH].
Qed.

Lemma order_by_perm (l : list A) : Permutation l (order_by leb l).
Proof.
  induction l as [|x l IH]; simpl.
  - constructor.
  - eapply perm_trans; [apply perm_skip, IH | apply sorter_insert_perm].
Qed.

Lemma order_by_In (l : list A) (x : A) : In x (order_by leb l) <-> In x l.
Proof.
  split; intros H.
  - eapply Permutation_in; [apply Permutation_sym, order_by_perm | exact H].
  - eapply Permutation_in; [apply order_by_perm | exact H].
Qed.

Lemma order_by_length (l : list A) :
  List.length (order_by leb l) = List.length l.
Proof. symmetry. apply Permutation_length, order_by_perm. Qed.

Hypothesis leb_total : forall a b, leb a b = true \/ leb b a = true.

Lemma sorter_insert_hd (x y : A) (l : list A) :
  ordered y x -> HdRel ordered y l -> HdRel ordered y (sorter_insert leb x l).
Proof.
  intros Hyx Hl. destruct l as [|z l]; simpl.
  - now constructor.
  - destruct (leb x z); constructor; auto. now inversion Hl.
Qed.

Lemma sorter_insert_sorted (x : A) (l : list A) :
  Sorted ordered l -> Sorted ordered (sorter_insert leb x l).
Proof.
  induction 1 as [|y l Hs IH Hhd]; simpl.
  - repeat constructor.
  - destruct (leb x y) eqn:E.
    + constructor; [constructor; assumption | constructor; exact E].
    + constructor; [exact IH |].
      apply sorter_insert_hd; [| exact Hhd].
      destruct (leb_total x y) as [H|H]; [congruence | exact H].
Qed.

Lemma order_by_sorted (l : list A) : Sorted ordered (order_by leb l).
Proof.
  induction l as [|x l IH]; simpl.
  - constructor.
  - now apply sorter_insert_sorted.
Qed.

Hypothesis leb_trans :
  forall a b c, leb a b = true -> leb b c = true -> leb a c = true.

(** With a transitive comparison every row is in order with every later
    one, not only with its neighbour. *)
Lemma order_by_strongly_sorted (l : list A) :
  StronglySorted ordered (order_by leb l).
Proof.
  apply Sorted_StronglySorted.
  - intros a b c. apply leb_trans.
  - apply order_by_sorted.
Qed.

End OrderByFacts.

Lemma StronglySorted_weaken {A : Type} (R R' : A -> A -> Prop) (l : list A) :
  (forall a b, R a b -> R' a b) -> StronglySorted R l -> StronglySorted R' l.
Proof.
  intros HR. induction 1 as [|x l Hs IH Hall]; constructor.
  - exact IH.
  - eapply Forall_impl; [apply HR | exact Hall].
Qed.

(** ** Scanning a table *)

Lemma scan_filter {R : Type} (test : R -> option bool) (f : R -> bool)
  (rows : list R) :
  (forall r, test r = Some (f r)) -> scan test rows = Some (filter f rows).
Proof.
  intros H. induction rows as [|r rows IH]; simpl.
  - reflexivity.
  - rewrite H, IH. reflexivity.
Qed.

(** ** Listing reservations *)

(** What a filter of the list operations asks of a column: nothing when
    it is absent (not sent, or empty), equality with it when present. *)
Definition filter_passes (f : option string) (column : option string) : bool :=
  match f with
  | Some (String _ _ as v) =>
      match column with
      | Some c => String.eqb c v
      | None => false
      end
  | _ => true
  end.

Definition reservation_passes (restaurant_id status : option string)
  (r : Reservation.t) : bool :=
  filter_passes restaurant_id (Some (Reservation.restaurant_id r))
  && filter_passes status (Reservation.status r).


Lemma text_ltb_irrefl (a : string) : text_ltb a a = false.
Proof.
  unfold text_ltb, String.ltb.
  assert (H : String.compare a a = Eq) by (apply String_as_OT.cmp_eq; reflexivity).
  now rewrite H.
Qed.



Lemma get_reservations_eval (restaurant_id status : option string) (db : DB.t) :
  get_reservations restaurant_id status db =
  (inr (order_by by_date_time
          (filter (reservation_passes restaurant_id status)
                  (DB.reservations db))), db).
Proof.
  unfold get_reservations, reservations_statement, get_db, select_reservations.
  set (f := reservation_passes restaurant_id status).
  destruct restaurant_id as [[|a s]|], status as [[|b t]|]; cbn -[order_by scan].
  all: rewrite (scan_filter _ f);
    [reflexivity | intros r; subst f; unfold reservation_passes; cbn;
                   now rewrite ?andb_true_r].
Qed.


(** ** Listing reviews *)

Section ReviewList.
Context {F : Float64}.

(** The sort term the query parameters select. *)
Definition sort_column_of (sort_by : option string) : sort_column :=
  if String.eqb (query_default "created_at" sort_by) "rating"
  then by_rating else by_created_at.

Definition sort_direction_of (order : option string) : sort_direction :=
  if String.eqb (query_default "desc" order) "asc" then ASC else DESC.

Definition review_passes (restaurant_id : option string) (min_rating : option Z)
  (r : Review.t) : bool :=
  filter_passes restaurant_id (Some (Review.restaurant_id r))
  && match min_rating with
     | Some m => m <=? Review.rating r
     | None => true
     end.

(** The aggregate over the rows of a restaurant, the rating filter left
    out. *)
Definition review_stats (restaurant_id : option string) (db : DB.t)
  : ReviewStats.t F :=
  let rows := filter (review_passes restaurant_id None) (DB.reviews db) in
  {| ReviewStats.avg_rating := rounded_average (sql_avg (map Review.rating rows));
     ReviewStats.total_reviews := sql_count rows |}.

(** The [Query] constraints of [get_reviews] hold. *)
Definition query_ok (min_rating : option Z) (sort_by order : option string)
  : bool :=
  optional (in_range 1 5) min_rating
  && sort_by_regex (query_default "created_at" sort_by)
  && order_regex (query_default "desc" order).

Lemma regex_cases (s a b : string) :
  String.eqb s a || String.eqb s b = true -> s = a \/ s = b.
Proof. rewrite orb_true_iff, !String.eqb_eq. auto. Qed.

Lemma get_reviews_eval (restaurant_id : option string) (min_rating : option Z)
  (sort_by order : option string) (db : DB.t) :
  query_ok min_rating sort_by order = true ->
  get_reviews restaurant_id min_rating sort_by order db =
  (inr {| ReviewsWithStats.reviews :=
            order_by (by_term (sort_column_of sort_by) (sort_direction_of order))
                     (filter (review_passes restaurant_id min_rating)
                             (DB.reviews db));
          ReviewsWithStats.stats := review_stats restaurant_id db |}, db).
Proof.
  unfold query_ok, get_reviews, sort_column_of, sort_direction_of, review_stats.
  intros H. rewrite H. unfold validated.
  apply andb_true_iff in H. destruct H as [H Ho].
  apply andb_true_iff in H. destruct H as [Hm Hs].
  apply regex_cases in Hs, Ho.
  set (f := review_passes restaurant_id min_rating).
  set (g := review_passes restaurant_id None).
  assert (Ht : truthy_int min_rating
               = match min_rating with Some _ => true | None => false end).
  { destruct min_rating as [m|]; [| reflexivity]. simpl in *.
    unfold in_range in Hm.
    destruct (Z.eqb_spec m 0); [subst; discriminate | reflexivity]. }
  unfold reviews_statement, review_stats_statement. rewrite Ht. clear Ht Hm.
  unfold get_db, bind, select_reviews, select_review_stats.
  destruct Hs as [-> | ->], Ho as [-> | ->];
    destruct restaurant_id as [[|a s]|], min_rating as [m|];
    cbn -[order_by scan sql_avg sql_count filter].
  all: rewrite (scan_filter _ f);
    [| intros r; subst f; unfold review_passes; cbn; now rewrite ?andb_true_r].
  all: rewrite (scan_filter _ g);
    [| intros r; subst g; unfold review_passes; cbn; now rewrite ?andb_true_r].
  all: reflexivity.
Qed.

(** A request the [Query] constraints reject is answered 422 and reads
    nothing. *)
Lemma get_reviews_rejected (restaurant_id : option string)
  (min_rating : option Z) (sort_by order : option string) (db : DB.t) :
  query_ok min_rating sort_by order = false ->
  get_reviews restaurant_id min_rating sort_by order db
  = (inl RequestValidationError, db).
Proof.
  unfold query_ok, get_reviews, validated. intros H. now rewrite H.
Qed.

Lemma column_leb_total (c : sort_column) (a b : Review.t) :
  column_leb c a b = true \/ column_leb c b a = true.
Proof.
  destruct c; simpl.
  - apply text_leb_total.
  - rewrite !Z.leb_le. lia.
Qed.

Lemma column_leb_trans (c : sort_column) (x y z : Review.t) :
  column_leb c x y = true -> column_leb c y z = true -> column_leb c x z = true.
Proof.
  destruct c; simpl.
  - apply text_leb_trans.
  - rewrite !Z.leb_le. lia.
Qed.

Lemma by_term_total (c : sort_column) (d : sort_direction) (a b : Review.t) :
  by_term c d a b = true \/ by_term c d b a = true.
Proof. destruct d; simpl; apply column_leb_total. Qed.

Lemma by_term_trans (c : sort_column) (d : sort_direction) (x y z : Review.t) :
  by_term c d x y = true -> by_term c d y z = true -> by_term c d x z = true.
Proof.
  destruct d; simpl; intros H1 H2.
  - eapply column_leb_trans; eassumption.
  - eapply column_leb_trans; eassumption.
Qed.

(** Newest first: no row is older than a row after it. *)
Definition created_descending (a b : Review.t) : Prop :=
  text_leb (Review.created_at b) (Review.created_at a) = true.

(** Lowest rating first. *)
Definition rating_ascending (a b : Review.t) : Prop :=
  Review.rating a <= Review.rating b.

(** Newest first and, among rows of one timestamp, highest id first. *)
Definition created_then_id_descending (a b : Review.t) : Prop :=
  text_ltb (Review.created_at b) (Review.created_at a) = true
  \/ (Review.created_at a = Review.created_at b /\ Review.id b <= Review.id a).

(** C5, as the service has it.  With no sort options the review list is the
    rows that pass the filters, newest first; with [sort_by=rating] and
    [order=asc] it is the same rows, lowest rating first. *)
Theorem get_reviews_ordering (restaurant_id : option string)
  (min_rating : option Z) (db : DB.t) :
  optional (in_range 1 5) min_rating = true ->
  (exists resp,
      get_reviews restaurant_id min_rating None None db = (inr resp, db)
      /\ StronglySorted created_descending (ReviewsWithStats.reviews resp)
      /\ Permutation (ReviewsWithStats.reviews resp)
           (filter (review_passes restaurant_id min_rating) (DB.reviews db)))
  /\ (exists resp,
         get_reviews restaurant_id min_rating (Some "rating") (Some "asc") db
         = (inr resp, db)
         /\ StronglySorted rating_ascending (ReviewsWithStats.reviews resp)
         /\ Permutation (ReviewsWithStats.reviews resp)
              (filter (review_passes restaurant_id min_rating) (DB.reviews db))).
Proof.
  intros Hm. split.
  - eexists. split.
    + apply get_reviews_eval. unfold query_ok. now rewrite Hm.
    + simpl. split; [| apply Permutation_sym, order_by_perm].
      apply (order_by_strongly_sorted (by_term by_created_at DESC)).
      * apply by_term_total.
      * apply by_term_trans.
  - eexists. split.
    + apply get_reviews_eval. unfold query_ok. now rewrite Hm.
    + simpl. split; [| apply Permutation_sym, order_by_perm].
      eapply StronglySorted_weaken;
        [| apply (order_by_strongly_sorted (by_term by_rating ASC));
           [apply by_term_total | apply by_term_trans]].
      intros a b H. unfold rating_ascending. now apply Z.leb_le.
Qed.

End ReviewList.

(** ** What every database the service has written satisfies *)

(** No row carries an id above its table's sequence, and every stored
    rating passed the CHECK constraint. *)
Definition DB_ok (db : DB.t) : Prop :=
  Forall (fun r => Reservation.id r <= DB.reservations_seq db) (DB.reservations db)
  /\ Forall (fun r => Review.id r <= DB.reviews_seq db) (DB.reviews db)
  /\ Forall (fun r => 1 <= Review.rating r <= 5) (DB.reviews db).

Lemma init_database_ok : DB_ok init_database.
Proof. repeat split; constructor. Qed.

Lemma Forall_filter_keep {A : Type} (P : A -> Prop) (f : A -> bool) (l : list A) :
  Forall P l -> Forall P (filter f l).
Proof.
  induction 1 as [|x l Hx Hl IH]; simpl; [constructor |].
  destruct (f x); [constructor |]; assumption.
Qed.

Lemma update_rows_ids (sets : list assignment) (now : timestamp) (i : Z)
  (rows rows' : list Reservation.t) :
  update_rows sets now i rows = inr rows' ->
  map Reservation.id rows' = map Reservation.id rows.
Proof.
  revert rows'. induction rows as [|r rows IH]; simpl; intros rows' H.
  - now inversion H.
  - destruct (Reservation.id r =? i).
    + destruct (assign_all sets r) as [e|r1] eqn:Ea; simpl in H; [discriminate |].
      destruct (update_rows sets now i rows) as [e|rows1]; [discriminate |].
      inversion H; subst. simpl. f_equal.
      * clear -Ea. revert r Ea. induction sets as [|a sets IHs]; simpl; intros r Ea.
        -- now inversion Ea.
        -- destruct (assign a r) as [e|r2] eqn:E1; [discriminate |].
           rewrite (IHs _ Ea).
           destruct a as [[v|]|[v|]|v|[v|]|[v|]|[v|]|v|v];
             simpl in E1; inversion E1; reflexivity.
      * now apply IH.
    + destruct (update_rows sets now i rows) as [e|rows1]; [discriminate |].
      inversion H; subst. simpl. f_equal. now apply IH.
Qed.

Section Invariant.
Variable EmailStr : string -> bool.
Context {F : Float64}.

Lemma create_reservation_ok (v : ReservationCreate.t) (now : timestamp)
  (db : DB.t) :
  DB_ok db -> DB_ok (snd (create_reservation EmailStr v now db)).
Proof.
  intros (H1 & H2 & H3). unfold create_reservation, validated.
  destruct (ReservationCreate_valid EmailStr v); [| now repeat split].
  unfold get_db, bind, insert_reservation, select_reservation_by_id, fetched.
  cbn -[find].
  match goal with |- context [find ?f ?l] => destruct (find f l) end;
    cbn; [| now repeat split].
  repeat split; cbn; try assumption.
  apply Forall_app. split.
  - eapply Forall_impl; [| exact H1]. cbn. intros; lia.
  - repeat constructor. cbn. lia.
Qed.

Lemma update_reservation_ok (i : Z) (u : ReservationUpdate.t) (now : timestamp)
  (db : DB.t) :
  DB_ok db -> DB_ok (snd (update_reservation EmailStr i u now db)).
Proof.
  intros (H1 & H2 & H3). unfold update_reservation, validated.
  destruct (ReservationUpdate_valid EmailStr u); [| now repeat split].
  unfold get_db, bind, select_reservation_by_id, update_reservations, fetched.
  cbn -[find update_rows].
  destruct (find _ (DB.reservations db)); [| now repeat split].
  destruct (model_dump_exclude_unset u) as [|a sets]; [now repeat split |].
  destruct (update_rows (a :: sets) now i (DB.reservations db)) as [e|rows] eqn:E;
    [now repeat split |].
  cbn -[find].
  match goal with |- context [find ?f ?l] => destruct (find f l) end;
    cbn; [| now repeat split].
  repeat split; cbn; try assumption.
  apply update_rows_ids in E.
  rewrite Forall_forall in *. intros r Hr.
  assert (Hin : In (Reservation.id r) (map Reservation.id (DB.reservations db))).
  { rewrite <- E. now apply in_map. }
  apply in_map_iff in Hin. destruct Hin as (r0 & Hid & Hr0).
  rewrite <- Hid. now apply H1.
Qed.

Lemma delete_reservation_ok (i : Z) (db : DB.t) :
  DB_ok db -> DB_ok (snd (delete_reservation i db)).
Proof.
  intros (H1 & H2 & H3).
  unfold delete_reservation, get_db, bind, select_reservation_by_id,
    delete_reservations.
  cbn -[find filter].
  destruct (find _ (DB.reservations db)); cbn -[filter]; [| now repeat split].
  repeat split; cbn -[filter]; try assumption.
  now apply Forall_filter_keep.
Qed.

Lemma create_review_ok (v : ReviewCreate.t) (now : timestamp) (db : DB.t) :
  DB_ok db -> DB_ok (snd (create_review EmailStr v now db)).
Proof.
  intros (H1 & H2 & H3). unfold create_review, validated.
  destruct (ReviewCreate_valid EmailStr v); [| now repeat split].
  unfold get_db, bind, insert_review, select_review_by_id, fetched.
  destruct ((1 <=? ReviewCreate.rating v) && (ReviewCreate.rating v <=? 5))
    eqn:Hr; cbn -[find]; [| now repeat split].
  match goal with |- context [find ?f ?l] => destruct (find f l) end;
    cbn; [| now repeat split].
  apply andb_true_iff in Hr. rewrite !Z.leb_le in Hr.
  repeat split; cbn; try assumption.
  - apply Forall_app. split.
    + eapply Forall_impl; [| exact H2]. cbn. intros; lia.
    + repeat constructor. cbn. lia.
  - apply Forall_app. split; [assumption |].
    repeat constructor; cbn; lia.
Qed.

Lemma delete_review_ok (i : Z) (db : DB.t) :
  DB_ok db -> DB_ok (snd (delete_review i db)).
Proof.
  intros (H1 & H2 & H3).
  unfold delete_review, get_db, bind, select_review_by_id, delete_reviews.
  cbn -[find filter].
  destruct (find _ (DB.reviews db)); cbn -[filter]; [| now repeat split].
  repeat split; cbn -[filter]; try assumption; now apply Forall_filter_keep.
Qed.

End Invariant.

(** ** The aggregate over reviews *)

Lemma filter_length_le {A : Type} (f g : A -> bool) (l : list A) :
  (forall x, f x = true -> g x = true) ->
  (List.length (filter f l) <= List.length (filter g l))%nat.
Proof.
  intros H. induction l as [|x l IH]; simpl; [lia |].
  destruct (f x) eqn:E.
  - rewrite (H _ E). simpl. lia.
  - destruct (g x); simpl; lia.
Qed.

Lemma sum_at_least_count (l : list Z) :
  Forall (fun x => 1 <= x) l ->
  Z.of_nat (List.length l) <= fold_right Z.add 0 l.
Proof.
  induction 1 as [|x l Hx Hl IH]; simpl List.length; simpl fold_right; lia.
Qed.

Section ReviewAggregate.
Context {F : Float64}.

(** The mean of the ratings, as the specification names it: their sum
    over their number. *)
Definition mean (ratings : list Z) : float :=
  float_div (float_of_int (fold_right Z.add 0 ratings))
            (float_of_int (Z.of_nat (List.length ratings))).

(** The reviews stored for a restaurant. *)
Definition reviews_of (restaurant_id : string) (db : DB.t) : list Review.t :=
  filter (fun r => String.eqb (Review.restaurant_id r) restaurant_id)
         (DB.reviews db).

Lemma review_passes_restaurant (a : ascii) (s : string) (db : DB.t) :
  filter (review_passes (Some (String a s)) None) (DB.reviews db)
  = reviews_of (String a s) db.
Proof.
  unfold reviews_of. apply filter_ext. intros r.
  unfold review_passes, filter_passes. apply andb_true_r.
Qed.

Lemma rounded_average_ratings (ratings : list Z) :
  Float64_quotient_nonzero F ->
  Forall (fun x => 1 <= x <= 5) ratings ->
  rounded_average (sql_avg ratings)
  = match ratings with
    | [] => None
    | _ :: _ => Some (py_round (mean ratings) 2)
    end.
Proof.
  intros law Hr. destruct ratings as [|x l]; [reflexivity |].
  unfold sql_avg, rounded_average, mean.
  rewrite law; [reflexivity | simpl List.length; lia |].
  apply sum_at_least_count.
  eapply Forall_impl; [| exact Hr]. simpl. intros; lia.
Qed.

(** C1, as the service has it.  For a restaurant whose id is not empty,
    over the [n] reviews stored for it, the stats of the response count
    [n] and carry the mean of their ratings rounded to two places, or no
    average at all when [n] is zero. *)
Theorem review_stats_count_and_rounded_mean (restaurant_id : string)
  (min_rating : option Z) (sort_by order : option string) (db : DB.t) :
  Float64_quotient_nonzero F ->
  DB_ok db ->
  restaurant_id <> "" ->
  query_ok min_rating sort_by order = true ->
  exists resp,
    get_reviews (Some restaurant_id) min_rating sort_by order db = (inr resp, db)
    /\ ReviewStats.total_reviews (ReviewsWithStats.stats resp)
       = Z.of_nat (List.length (reviews_of restaurant_id db))
    /\ ReviewStats.avg_rating (ReviewsWithStats.stats resp)
       = match map Review.rating (reviews_of restaurant_id db) with
         | [] => None
         | _ :: _ =>
             Some (py_round
                     (mean (map Review.rating (reviews_of restaurant_id db))) 2)
         end.
Proof.
  intros law (_ & _ & Hchk) Hne Hq.
  destruct restaurant_id as [|a s]; [congruence |].
  eexists. split; [apply get_reviews_eval, Hq |].
  unfold review_stats. cbn [ReviewsWithStats.stats ReviewStats.total_reviews
                            ReviewStats.avg_rating].
  rewrite review_passes_restaurant. split; [reflexivity |].
  apply rounded_average_ratings; [exact law |].
  apply Forall_map. now apply Forall_filter_keep.
Qed.

(** C9.  The stats of a response are the aggregate over all reviews of the
    restaurant: they are the same whatever rating filter the request
    carries, they count at least the reviews listed beside them, and for
    some stored reviews they count strictly more. *)
Theorem stats_ignore_min_rating :
  (forall (restaurant_id : option string) (min_rating min_rating' : option Z)
          (sort_by order : option string) (db db1 db2 : DB.t) resp resp',
      get_reviews restaurant_id min_rating sort_by order db = (inr resp, db1) ->
      get_reviews restaurant_id min_rating' sort_by order db = (inr resp', db2) ->
      ReviewsWithStats.stats resp = ReviewsWithStats.stats resp'
      /\ ReviewsWithStats.stats resp = review_stats restaurant_id db
      /\ Z.of_nat (List.length (ReviewsWithStats.reviews resp))
         <= ReviewStats.total_reviews (ReviewsWithStats.stats resp))
  /\ (exists (db : DB.t) resp,
         DB_ok db
         /\ get_reviews (Some "r1") (Some 4) None None db = (inr resp, db)
         /\ Z.of_nat (List.length (ReviewsWithStats.reviews resp))
            < ReviewStats.total_reviews (ReviewsWithStats.stats resp)).
Proof.
  split.
  - intros rid mr mr' sb ord db db1 db2 resp resp' H1 H2.
    destruct (query_ok mr sb ord) eqn:Q1;
      [| rewrite get_reviews_rejected in H1 by exact Q1; discriminate].
    destruct (query_ok mr' sb ord) eqn:Q2;
      [| rewrite get_reviews_rejected in H2 by exact Q2; discriminate].
    rewrite get_reviews_eval in H1 by exact Q1.
    rewrite get_reviews_eval in H2 by exact Q2.
    inversion H1; inversion H2; subst. cbn. repeat split.
    unfold sql_count. rewrite order_by_length. apply inj_le.
    apply filter_length_le. intros r. unfold review_passes.
    rewrite andb_true_iff. intros [Hr _]. now rewrite Hr.
  - exists {| DB.reservations := []; DB.reservations_seq := 0;
              DB.reviews :=
                [ {| Review.id := 1; Review.restaurant_id := "r1";
                     Review.reviewer_name := "A"; Review.reviewer_email := None;
                     Review.rating := 5; Review.title := None;
                     Review.comment := None; Review.visit_date := None;
                     Review.created_at := "2024-12-25 19:00:00" |};
                  {| Review.id := 2; Review.restaurant_id := "r1";
                     Review.reviewer_name := "B"; Review.reviewer_email := None;
                     Review.rating := 3; Review.title := None;
                     Review.comment := None; Review.visit_date := None;
                     Review.created_at := "2024-12-25 19:00:01" |} ];
              DB.reviews_seq := 2 |}.
    eexists. split; [| split].
    + repeat split; repeat constructor; cbn; lia.
    + now apply get_reviews_eval.
    + cbn. lia.
Qed.

End ReviewAggregate.

(** ** Restaurant ids are bound, never spliced *)

Section Binding.
Context {F : Float64}.

Lemma statements_text_fixed (a b : ascii) (s t : string) :
  (forall status,
      fst (reservations_statement (Some (String a s)) status)
      = fst (reservations_statement (Some (String b t)) status))
  /\ (forall min_rating sort_by order,
         fst (reviews_statement (Some (String a s)) min_rating sort_by order)
         = fst (reviews_statement (Some (String b t)) min_rating sort_by order))
  /\ fst (review_stats_statement (Some (String a s)))
     = fst (review_stats_statement (Some (String b t))).
Proof.
  split; [| split].
  - intros status. unfold reservations_statement. simpl truthy_str.
    destruct (truthy_str status); reflexivity.
  - intros mr sb ord. unfold reviews_statement. simpl truthy_str.
    destruct (truthy_int mr); reflexivity.
  - reflexivity.
Qed.

(** C8, as the service has it.  A restaurant id that is not empty, whatever
    characters it is made of, reaches SQLite as a bound TEXT value: the
    text of the three statements is the same for every such id, the id is
    the first parameter, and the two lists and the stats range over exactly
    the rows whose [restaurant_id] equals it (and that pass the other
    filter of the request). *)
Theorem restaurant_id_bound_as_value (restaurant_id : string)
  (status : option string) (min_rating : option Z)
  (sort_by order : option string) (db : DB.t) :
  restaurant_id <> "" ->
  query_ok min_rating sort_by order = true ->
  (forall other : string, other <> "" ->
      fst (reservations_statement (Some restaurant_id) status)
      = fst (reservations_statement (Some other) status)
      /\ fst (reviews_statement (Some restaurant_id) min_rating
                (query_default "created_at" sort_by) (query_default "desc" order))
         = fst (reviews_statement (Some other) min_rating
                  (query_default "created_at" sort_by) (query_default "desc" order))
      /\ fst (review_stats_statement (Some restaurant_id))
         = fst (review_stats_statement (Some other)))
  /\ hd_error (snd (reservations_statement (Some restaurant_id) status))
     = Some (SqlText restaurant_id)
  /\ hd_error (snd (reviews_statement (Some restaurant_id) min_rating
                      (query_default "created_at" sort_by)
                      (query_default "desc" order)))
     = Some (SqlText restaurant_id)
  /\ snd (review_stats_statement (Some restaurant_id)) = [SqlText restaurant_id]
  /\ (exists rows,
         get_reservations (Some restaurant_id) status db = (inr rows, db)
         /\ Permutation rows
              (filter (fun r =>
                         String.eqb (Reservation.restaurant_id r) restaurant_id
                         && filter_passes status (Reservation.status r))
                      (DB.reservations db)))
  /\ (exists resp,
         get_reviews (Some restaurant_id) min_rating sort_by order db
         = (inr resp, db)
         /\ Permutation (ReviewsWithStats.reviews resp)
              (filter (fun r =>
                         String.eqb (Review.restaurant_id r) restaurant_id
                         && match min_rating with
                            | Some m => m <=? Review.rating r
                            | None => true
                            end)
                      (DB.reviews db))
         /\ ReviewStats.total_reviews (ReviewsWithStats.stats resp)
            = sql_count (reviews_of restaurant_id db)
         /\ ReviewStats.avg_rating (ReviewsWithStats.stats resp)
            = rounded_average
                (sql_avg (map Review.rating (reviews_of restaurant_id db)))).
Proof.
  intros Hne Hq. destruct restaurant_id as [|a s]; [congruence |].
  split; [| split; [| split; [| split; [| split]]]].
  - intros [|b t] Ho; [congruence |].
    destruct (statements_text_fixed a b s t) as (H1 & H2 & H3).
    split; [apply H1 | split; [apply H2 | apply H3]].
  - unfold reservations_statement. simpl truthy_str.
    destruct (truthy_str status); reflexivity.
  - unfold reviews_statement. simpl truthy_str.
    destruct (truthy_int min_rating); reflexivity.
  - reflexivity.
  - eexists. split; [apply get_reservations_eval |].
    apply Permutation_sym, order_by_perm.
  - eexists. split; [apply get_reviews_eval, Hq |].
    cbn [ReviewsWithStats.reviews ReviewsWithStats.stats review_stats
         ReviewStats.total_reviews ReviewStats.avg_rating].
    rewrite review_passes_restaurant.
    split; [apply Permutation_sym, order_by_perm | split; reflexivity].
Qed.

End Binding.

(** ** The shape of the reviews response *)

Lemma nextjs_stats_shape {F : Float64} (avgRating : option float)
  (totalReviews : Z) :
  has_shape (nextjs_stats_json avgRating totalReviews) spec_stats_shape = true.
Proof. destruct avgRating; reflexivity. Qed.

(** C7, as the service has it.  The response is an object with the reviews
    array and, beside it, a stats object whose members are exactly
    [avg_rating] (a number or null) and [total_reviews] (an integer), as
    the client's [ReviewStats] interface declares them. *)
Theorem reviews_response_shape {F : Float64} (resp : ReviewsWithStats.t F) :
  exists items stats,
    ReviewsWithStats_json resp
    = JObject [ ("reviews", JArray items); ("stats", stats) ]
    /\ has_shape stats service_stats_shape = true
    /\ has_shape stats ReviewStats_interface = true.
Proof.
  do 2 eexists. split; [reflexivity |].
  unfold ReviewStats_json.
  destruct (ReviewStats.avg_rating (ReviewsWithStats.stats resp)); split;
    reflexivity.
Qed.

(** ** Writing reservations *)

(** The columns of [reservations] and what a row holds in each. *)
Inductive column : Type :=
| c_id | c_restaurant_id | c_customer_name | c_customer_email
| c_customer_phone | c_party_size | c_reservation_date | c_reservation_time
| c_status | c_notes | c_created_at | c_updated_at.

Definition column_value (c : column) (r : Reservation.t) : sqlval :=
  match c with
  | c_id => SqlInt (Reservation.id r)
  | c_restaurant_id => SqlText (Reservation.restaurant_id r)
  | c_customer_name => SqlText (Reservation.customer_name r)
  | c_customer_email => SqlText (Reservation.customer_email r)
  | c_customer_phone => str_param (Reservation.customer_phone r)
  | c_party_size => SqlInt (Reservation.party_size r)
  | c_reservation_date => SqlText (Reservation.reservation_date r)
  | c_reservation_time => SqlText (Reservation.reservation_time r)
  | c_status => str_param (Reservation.status r)
  | c_notes => str_param (Reservation.notes r)
  | c_created_at => SqlText (Reservation.created_at r)
  | c_updated_at => SqlText (Reservation.updated_at r)
  end.

(** The column an assignment names ... *)
Definition assignment_column (a : assignment) : column :=
  match a with
  | set_customer_name _ => c_customer_name
  | set_customer_email _ => c_customer_email
  | set_customer_phone _ => c_customer_phone
  | set_party_size _ => c_party_size
  | set_reservation_date _ => c_reservation_date
  | set_reservation_time _ => c_reservation_time
  | set_status _ => c_status
  | set_notes _ => c_notes
  end.

(** ... and the value bound to its [?]. *)
Definition assignment_value (a : assignment) : sqlval :=
  match a with
  | set_customer_name v => str_param v
  | set_customer_email v => str_param v
  | set_customer_phone v => str_param v
  | set_party_size v => int_param v
  | set_reservation_date v => str_param v
  | set_reservation_time v => str_param v
  | set_status v => str_param (option_map ReservationStatus_value v)
  | set_notes v => str_param v
  end.

(** The column takes the value: it is not a NULL for a NOT NULL column. *)
Definition accepted (a : assignment) : bool :=
  match a with
  | set_customer_name None
  | set_customer_email None
  | set_party_size None
  | set_reservation_date None
  | set_reservation_time None => false
  | _ => true
  end.

Definition has_id (i : Z) (r : Reservation.t) : bool := Reservation.id r =? i.

Lemma assign_accepted (a : assignment) (r : Reservation.t) :
  accepted a = true ->
  exists r1,
    assign a r = inr r1
    /\ Reservation.id r1 = Reservation.id r
    /\ column_value (assignment_column a) r1 = assignment_value a
    /\ forall c, c <> assignment_column a -> column_value c r1 = column_value c r.
Proof.
  destruct a as [[v|]|[v|]|v|[v|]|[v|]|[v|]|v|v]; simpl; intros H;
    try discriminate; eexists; (split; [reflexivity |]);
    (split; [reflexivity |]); (split; [reflexivity |]);
    intros c Hc; destruct c; try reflexivity; congruence.
Qed.

Lemma assign_rejected (a : assignment) (r : Reservation.t) :
  accepted a = false ->
  exists detail, assign a r = inl (IntegrityError detail).
Proof.
  destruct a as [[v|]|[v|]|v|[v|]|[v|]|[v|]|v|v]; simpl; intros H;
    try discriminate; eexists; reflexivity.
Qed.

Lemma update_rows_accepted (a : assignment) (now : timestamp) (i : Z)
  (rows : list Reservation.t) :
  accepted a = true -> exists rows', update_rows [a] now i rows = inr rows'.
Proof.
  intros Ha. induction rows as [|r rows (rows' & IH)]; simpl.
  - now eexists.
  - rewrite IH. destruct (Reservation.id r =? i); [| now eexists].
    destruct (assign_accepted a r Ha) as (r1 & E & _). rewrite E. simpl.
    now eexists.
Qed.

Lemma update_rows_found (a : assignment) (now : timestamp) (i : Z)
  (rows rows' : list Reservation.t) (r r1 : Reservation.t) :
  update_rows [a] now i rows = inr rows' ->
  find (has_id i) rows = Some r ->
  assign a r = inr r1 ->
  Reservation.id r1 = Reservation.id r ->
  find (has_id i) rows' = Some (Reservation.with_updated_at now r1).
Proof.
  revert rows'. induction rows as [|x rows IH]; simpl; intros rows' Hu Hf Ha Hid.
  - discriminate.
  - unfold has_id at 1 in Hf. destruct (Reservation.id x =? i) eqn:Ex.
    + inversion Hf; subst x. rewrite Ha in Hu. simpl in Hu.
      destruct (update_rows [a] now i rows); [discriminate |].
      inversion Hu; subst. simpl. unfold has_id at 1. simpl.
      rewrite Hid, Ex. reflexivity.
    + destruct (update_rows [a] now i rows) as [e|rows1]; [discriminate |].
      inversion Hu; subst. simpl. unfold has_id at 1. rewrite Ex.
      now apply IH.
Qed.

Lemma update_rows_refused (a : assignment) (now : timestamp) (i : Z)
  (rows : list Reservation.t) (r : Reservation.t) (e : exn) :
  find (has_id i) rows = Some r ->
  assign a r = inl e ->
  update_rows [a] now i rows = inl e.
Proof.
  induction rows as [|x rows IH]; simpl; intros Hf Ha.
  - discriminate.
  - unfold has_id at 1 in Hf. destruct (Reservation.id x =? i).
    + inversion Hf; subst x. rewrite Ha. reflexivity.
    + rewrite (IH Hf Ha). reflexivity.
Qed.

(** Rows with another id are left as they were. *)
Lemma update_rows_others (sets : list assignment) (now : timestamp) (i j : Z)
  (rows rows' : list Reservation.t) :
  update_rows sets now i rows = inr rows' ->
  j <> i ->
  find (has_id j) rows' = find (has_id j) rows.
Proof.
  revert rows'. induction rows as [|x rows IH]; simpl; intros rows' Hu Hj.
  - now inversion Hu.
  - destruct (Reservation.id x =? i) eqn:Ex.
    + destruct (assign_all sets x) as [e|x1] eqn:Ea; simpl in Hu; [discriminate |].
      destruct (update_rows sets now i rows) as [e|rows1] eqn:Er; [discriminate |].
      inversion Hu; subst. simpl. unfold has_id at 1 3.
      assert (Hid : map Reservation.id [Reservation.with_updated_at now x1]
                    = map Reservation.id [x]).
      { apply (update_rows_ids sets now i [x]). simpl. rewrite Ex, Ea. reflexivity. }
      inversion Hid as [Hid']. simpl in Hid'. simpl. rewrite Hid'.
      apply Z.eqb_eq in Ex. rewrite Ex.
      destruct (Z.eqb_spec i j); [congruence |]. now apply IH.
    + destruct (update_rows sets now i rows) as [e|rows1] eqn:Er; [discriminate |].
      inversion Hu; subst. simpl. unfold has_id at 1 3.
      destruct (Reservation.id x =? j); [reflexivity |]. now apply IH.
Qed.

Lemma find_fresh (rows : list Reservation.t) (row : Reservation.t) (seq : Z) :
  Forall (fun r => Reservation.id r <= seq) rows ->
  Reservation.id row = seq + 1 ->
  find (has_id (seq + 1)) (rows ++ [row]) = Some row.
Proof.
  intros Hall Hid. induction Hall as [|x rows Hx Hall IH]; simpl.
  - unfold has_id. rewrite Hid, Z.eqb_refl. reflexivity.
  - unfold has_id at 1. destruct (Z.eqb_spec (Reservation.id x) (seq + 1)); [lia |].
    exact IH.
Qed.

Lemma find_deleted (i : Z) (rows : list Reservation.t) :
  find (has_id i) (filter (fun r => negb (Reservation.id r =? i)) rows) = None.
Proof.
  induction rows as [|x rows IH]; simpl; [reflexivity |].
  destruct (Reservation.id x =? i) eqn:E; simpl; [exact IH |].
  unfold has_id at 1. now rewrite E.
Qed.

(** Deleting a stored reservation succeeds, and a get of its id is then
    answered with not found. *)
Lemma delete_then_get (i : Z) (db : DB.t) (r : Reservation.t) :
  find (has_id i) (DB.reservations db) = Some r ->
  exists db' e,
    delete_reservation i db = (inr tt, db')
    /\ get_reservation i db' = (inl e, db')
    /\ is_NotFound e = true.
Proof.
  intros Hf. do 2 eexists.
  unfold delete_reservation, get_reservation, get_db, bind,
    select_reservation_by_id, delete_reservations.
  cbn -[find filter]. fold (has_id i). rewrite Hf.
  split; [reflexivity |]. cbn -[find filter]. fold (has_id i).
  rewrite find_deleted. split; reflexivity.
Qed.

Section ReservationWrites.
Variable EmailStr : string -> bool.

(** The row as [create] is asked to store it: the fields of the input. *)
Definition stores_input (v : ReservationCreate.t) (row : Reservation.t) : Prop :=
  Reservation.restaurant_id row = ReservationCreate.restaurant_id v
  /\ Reservation.customer_name row = ReservationCreate.customer_name v
  /\ Reservation.customer_email row = ReservationCreate.customer_email v
  /\ Reservation.customer_phone row = ReservationCreate.customer_phone v
  /\ Reservation.party_size row = ReservationCreate.party_size v
  /\ Reservation.reservation_date row = ReservationCreate.reservation_date v
  /\ Reservation.reservation_time row = ReservationCreate.reservation_time v
  /\ Reservation.notes row = ReservationCreate.notes v.

(** C2.  Creating a reservation from a valid input answers with a row that
    a following get of its id returns again; the row holds the fields of
    the input, the status [pending], the next id of the table's sequence
    (an id no stored row has), and one timestamp in both [created_at] and
    [updated_at]. *)
Theorem create_then_get (v : ReservationCreate.t) (now : timestamp) (db : DB.t) :
  DB_ok db ->
  ReservationCreate_valid EmailStr v = true ->
  exists row db',
    create_reservation EmailStr v now db = (inr row, db')
    /\ get_reservation (Reservation.id row) db' = (inr row, db')
    /\ stores_input v row
    /\ Reservation.status row = Some "pending"
    /\ Reservation.id row = DB.reservations_seq db + 1
    /\ ~ In (Reservation.id row) (map Reservation.id (DB.reservations db))
    /\ Reservation.created_at row = Reservation.updated_at row
    /\ DB.reservations db' = DB.reservations db ++ [row].
Proof.
  intros (Hids & _ & _) Hv.
  unfold create_reservation, validated. rewrite Hv.
  unfold get_reservation, get_db, bind, insert_reservation,
    select_reservation_by_id, fetched.
  cbn -[find].
  set (row := {| Reservation.id := DB.reservations_seq db + 1;
                 Reservation.status := Some "pending" |}).
  assert (Hf : find (fun r => Reservation.id r =? DB.reservations_seq db + 1)
                    (DB.reservations db ++ [row]) = Some row).
  { apply (find_fresh _ row _ Hids). reflexivity. }
  exists row. eexists. rewrite Hf. cbn -[find].
  split; [reflexivity |]. cbn -[find]. rewrite Hf.
  split; [reflexivity |].
  split; [now repeat split |]. split; [reflexivity |]. split; [reflexivity |].
  split; [| split; reflexivity].
  intros Hin. apply in_map_iff in Hin. destruct Hin as (r & Hr & Hin).
  rewrite Forall_forall in Hids. specialize (Hids r Hin). cbn in Hr. lia.
Qed.

(** C3.  A party size outside 1..20 makes create fail with a validation
    error, and the database is what it was: no row is persisted. *)
Theorem create_rejects_party_size (v : ReservationCreate.t) (now : timestamp)
  (db : DB.t) :
  ~ (1 <= ReservationCreate.party_size v <= 20) ->
  exists e,
    create_reservation EmailStr v now db = (inl e, db)
    /\ is_ValidationError e = true.
Proof.
  intros Hp. exists RequestValidationError.
  unfold create_reservation, validated, ReservationCreate_valid, in_range.
  assert (E : (1 <=? ReservationCreate.party_size v)
              && (ReservationCreate.party_size v <=? 20) = false).
  { apply andb_false_iff.
    destruct (Z.leb_spec 1 (ReservationCreate.party_size v)); [| now left].
    destruct (Z.leb_spec (ReservationCreate.party_size v) 20); [lia | now right]. }
  rewrite E, andb_false_r. split; reflexivity.
Qed.

(** The patch with no field in it. *)
Definition empty_patch : ReservationUpdate.t :=
  {| ReservationUpdate.customer_name := unset;
     ReservationUpdate.customer_email := unset;
     ReservationUpdate.customer_phone := unset;
     ReservationUpdate.party_size := unset;
     ReservationUpdate.reservation_date := unset;
     ReservationUpdate.reservation_time := unset;
     ReservationUpdate.status := unset;
     ReservationUpdate.notes := unset |}.

(** The patch with the status alone. *)
Definition status_patch (s : ReservationStatus) : ReservationUpdate.t :=
  {| ReservationUpdate.customer_name := unset;
     ReservationUpdate.customer_email := unset;
     ReservationUpdate.customer_phone := unset;
     ReservationUpdate.party_size := unset;
     ReservationUpdate.reservation_date := unset;
     ReservationUpdate.reservation_time := unset;
     ReservationUpdate.status := given (Some s);
     ReservationUpdate.notes := unset |}.

Lemma update_one_field (i : Z) (u : ReservationUpdate.t) (a : assignment)
  (now : timestamp) (db : DB.t) (r : Reservation.t) :
  find (has_id i) (DB.reservations db) = Some r ->
  ReservationUpdate_valid EmailStr u = true ->
  model_dump_exclude_unset u = [a] ->
  accepted a = true ->
  exists r1 db',
    assign a r = inr r1
    /\ update_reservation EmailStr i u now db
       = (inr (Reservation.with_updated_at now r1), db')
    /\ find (has_id i) (DB.reservations db')
       = Some (Reservation.with_updated_at now r1)
    /\ (forall j, j <> i ->
           find (has_id j) (DB.reservations db')
           = find (has_id j) (DB.reservations db))
    /\ DB.reviews db' = DB.reviews db.
Proof.
  intros Hf Hv Hd Ha.
  destruct (assign_accepted a r Ha) as (r1 & E & Hid & _).
  destruct (update_rows_accepted a now i (DB.reservations db) Ha) as (rows' & Hu).
  pose proof (update_rows_found a now i _ _ r r1 Hu Hf E Hid) as Hf'.
  exists r1. eexists. split; [exact E |].
  unfold update_reservation, validated. rewrite Hv.
  unfold get_db, bind, select_reservation_by_id, update_reservations, fetched.
  cbn -[find update_rows]. fold (has_id i). rewrite Hf, Hd, Hu.
  cbn -[find update_rows]. fold (has_id i). rewrite Hf'. cbn -[find].
  split; [reflexivity |]. split; [exact Hf' |]. split; [| reflexivity].
  intros j Hj. now apply (update_rows_others [a] now i j).
Qed.

(** C4, as the service has it.  On a stored reservation, a patch with no
    field fails with a validation error and writes nothing.  A patch with
    one field, whose value the column takes, yields the stored row with that
    column set to the value sent and [updated_at] set to the time of the
    write; every other column of the row is what it was, and so is every
    other row. *)
Theorem update_is_partial (i : Z) (now : timestamp) (db : DB.t)
  (r : Reservation.t) :
  find (has_id i) (DB.reservations db) = Some r ->
  (exists e,
      update_reservation EmailStr i empty_patch now db = (inl e, db)
      /\ is_ValidationError e = true)
  /\ (forall (u : ReservationUpdate.t) (a : assignment),
         ReservationUpdate_valid EmailStr u = true ->
         model_dump_exclude_unset u = [a] ->
         accepted a = true ->
         exists row db',
           update_reservation EmailStr i u now db = (inr row, db')
           /\ get_reservation i db' = (inr row, db')
           /\ column_value (assignment_column a) row = assignment_value a
           /\ column_value c_updated_at row = SqlText now
           /\ (forall c, c <> assignment_column a -> c <> c_updated_at ->
                  column_value c row = column_value c r)
           /\ (forall j, j <> i ->
                  find (has_id j) (DB.reservations db')
                  = find (has_id j) (DB.reservations db))).
Proof.
  intros Hf. split.
  - exists (HTTPException 400 "No fields to update").
    unfold update_reservation, validated, get_db, bind, select_reservation_by_id.
    cbn -[find]. fold (has_id i). rewrite Hf. split; reflexivity.
  - intros u a Hv Hd Ha.
    destruct (update_one_field i u a now db r Hf Hv Hd Ha)
      as (r1 & db' & E & Hu & Hf' & Ho & _).
    destruct (assign_accepted a r Ha) as (r1' & E' & _ & Hval & Hframe).
    rewrite E in E'. inversion E'; subst r1'.
    exists (Reservation.with_updated_at now r1), db'.
    split; [exact Hu |]. split.
    { unfold get_reservation, get_db, bind, select_reservation_by_id.
      fold (has_id i). rewrite Hf'. reflexivity. }
    split.
    { rewrite <- Hval. destruct a; reflexivity. }
    split; [reflexivity |]. split; [| exact Ho].
    intros c Hc Hc'. rewrite <- (Hframe c Hc). destruct c; try reflexivity.
    congruence.
Qed.

(** C10.  On a stored reservation, whatever its status, a patch naming any
    status of the enumeration succeeds: the row answered, and stored,
    carries that status. *)
Theorem any_status_transition (i : Z) (target : ReservationStatus)
  (now : timestamp) (db : DB.t) (r : Reservation.t) :
  find (has_id i) (DB.reservations db) = Some r ->
  exists row db',
    update_reservation EmailStr i (status_patch target) now db = (inr row, db')
    /\ get_reservation i db' = (inr row, db')
    /\ Reservation.status row = Some (ReservationStatus_value target)
    /\ row = Reservation.with_updated_at now
               (Reservation.with_status
                  (Some (ReservationStatus_value target)) r).
Proof.
  intros Hf.
  destruct (update_one_field i (status_patch target) (set_status (Some target))
              now db r Hf eq_refl eq_refl eq_refl)
    as (r1 & db' & E & Hu & Hf' & _).
  simpl in E. inversion E; subst r1.
  do 2 eexists. split; [exact Hu |]. split.
  { unfold get_reservation, get_db, bind, select_reservation_by_id.
    fold (has_id i). rewrite Hf'. reflexivity. }
  split; reflexivity.
Qed.

End ReservationWrites.

(* ================================================================== *)
(** * Runs of the service *)

Lemma ExactFloat_quotient_nonzero : Float64_quotient_nonzero ExactFloat.
Proof.
  intros s n Hn Hs.
  change (Q_truthy (Qred (inject_Z s / inject_Z n)) = true).
  assert (H : (0 < Qred (inject_Z s / inject_Z n))%Q).
  { rewrite Qred_correct. apply Qlt_shift_div_l.
    - change 0%Q with (inject_Z 0). rewrite <- Zlt_Qlt. exact Hn.
    - rewrite Qmult_0_l. change 0%Q with (inject_Z 0). rewrite <- Zlt_Qlt. lia. }
  unfold Q_truthy.
  remember (Qred (inject_Z s / inject_Z n)) as q eqn:Eq. clear Eq.
  unfold Qlt in H. simpl in H.
  destruct (Z.eqb_spec (Qnum q) 0); [lia | reflexivity].
Qed.

(** The database after a request. *)
Definition after {A : Type} (req : request A) (db : DB.t) : DB.t := snd (req db).

Definition review_for (restaurant_id reviewer_name : string) (rating : Z)
  : ReviewCreate.t :=
  {| ReviewCreate.restaurant_id := restaurant_id;
     ReviewCreate.reviewer_name := reviewer_name;
     ReviewCreate.reviewer_email := None;
     ReviewCreate.rating := rating;
     ReviewCreate.title := None;
     ReviewCreate.comment := None;
     ReviewCreate.visit_date := None |}.

Definition reservation_for (restaurant_id : string) (party_size : Z)
  : ReservationCreate.t :=
  {| ReservationCreate.restaurant_id := restaurant_id;
     ReservationCreate.customer_name := "A";
     ReservationCreate.customer_email := "a@x.com";
     ReservationCreate.customer_phone := None;
     ReservationCreate.party_size := party_size;
     ReservationCreate.reservation_date := "2024-12-25";
     ReservationCreate.reservation_time := "19:00";
     ReservationCreate.notes := None |}.

(** Ratings 5, 3 and 4 for restaurant [r1]. *)
Definition three_reviews_db : DB.t :=
  after (create_review has_at_sign (review_for "r1" "C" 4) "2024-12-25 19:00:02")
    (after (create_review has_at_sign (review_for "r1" "B" 3) "2024-12-25 19:00:01")
       (after (create_review has_at_sign (review_for "r1" "A" 5) "2024-12-25 19:00:00")
          init_database)).

(** Two reviews written within one second. *)
Definition same_second_db : DB.t :=
  after (create_review has_at_sign (review_for "r1" "B" 3) "2024-12-25 19:00:00")
    (after (create_review has_at_sign (review_for "r1" "A" 5) "2024-12-25 19:00:00")
       init_database).

(** One review for the restaurant whose id is the empty string, one for
    [r1]. *)
Definition two_restaurants_db : DB.t :=
  after (create_review has_at_sign (review_for "r1" "B" 3) "2024-12-25 19:00:01")
    (after (create_review has_at_sign (review_for "" "A" 5) "2024-12-25 19:00:00")
       init_database).

(** One reservation for the restaurant whose id is the empty string, one
    for [r1]. *)
Definition two_bookings_db : DB.t :=
  after (create_reservation has_at_sign (reservation_for "r1" 2) "2024-12-01 10:00:01")
    (after (create_reservation has_at_sign (reservation_for "" 4) "2024-12-01 10:00:00")
       init_database).

Lemma three_reviews_db_ok : DB_ok three_reviews_db.
Proof.
  unfold three_reviews_db, after.
  repeat apply create_review_ok. apply init_database_ok.
Qed.

Lemma two_bookings_db_ok : DB_ok two_bookings_db.
Proof.
  unfold two_bookings_db, after.
  repeat apply create_reservation_ok. apply init_database_ok.
Qed.

(** The scenario of the specification: ratings 5, 3, 4 give three reviews
    and an average of 4. *)
Lemma review_stats_count_and_rounded_mean_witness :
  "r1" <> ""
  /\ @query_ok None None None = true
  /\ exists resp,
      @get_reviews ExactFloat (Some "r1") None None None three_reviews_db
      = (inr resp, three_reviews_db)
      /\ ReviewStats.total_reviews (ReviewsWithStats.stats resp) = 3
      /\ ReviewStats.avg_rating (ReviewsWithStats.stats resp) = Some (4 # 1)%Q.
Proof.
  split; [discriminate |]. split; [reflexivity |].
  destruct (@review_stats_count_and_rounded_mean ExactFloat "r1" None None None
              three_reviews_db ExactFloat_quotient_nonzero three_reviews_db_ok
              ltac:(discriminate) eq_refl) as (resp & H & Ht & Ha).
  exists resp. split; [exact H |]. split.
  - rewrite Ht. reflexivity.
  - rewrite Ha. reflexivity.
Defined.

(** C1 at the empty restaurant id: one review is stored for that
    restaurant, and the stats asked for it count two. *)
Lemma stats_for_empty_restaurant_id_count_all :
  exists resp,
    @get_reviews ExactFloat (Some "") None None None two_restaurants_db
    = (inr resp, two_restaurants_db)
    /\ List.length (reviews_of "" two_restaurants_db) = 1%nat
    /\ ReviewStats.total_reviews (ReviewsWithStats.stats resp) = 2
    /\ ReviewStats.total_reviews (ReviewsWithStats.stats resp)
       <> Z.of_nat (List.length (reviews_of "" two_restaurants_db)).
Proof.
  eexists. split; [vm_compute; reflexivity |].
  split; [reflexivity |]. split; [reflexivity |]. discriminate.
Qed.

(** C5 on two reviews of one second: both orders are newest first, and the
    list has the lower id first. *)
Lemma default_order_has_no_id_tie_break :
  exists resp,
    @get_reviews ExactFloat None None None None same_second_db
    = (inr resp, same_second_db)
    /\ map Review.id (ReviewsWithStats.reviews resp) = [1; 2]
    /\ map Review.created_at (ReviewsWithStats.reviews resp)
       = ["2024-12-25 19:00:00"; "2024-12-25 19:00:00"]
    /\ ~ StronglySorted created_then_id_descending
           (ReviewsWithStats.reviews resp).
Proof.
  eexists. split; [vm_compute; reflexivity |].
  split; [reflexivity |]. split; [reflexivity |].
  intros H. inversion H as [|x l Hs Hall]; subst.
  inversion Hall as [|y l' Hy _]; subst.
  destruct Hy as [Hy | [_ Hy]]; [discriminate Hy | cbn in Hy; lia].
Qed.

Lemma get_reviews_ordering_witness :
  optional (in_range 1 5) (Some 4) = true
  /\ exists resp,
      @get_reviews ExactFloat (Some "r1") (Some 4) (Some "rating") (Some "asc")
        three_reviews_db = (inr resp, three_reviews_db)
      /\ StronglySorted rating_ascending (ReviewsWithStats.reviews resp).
Proof.
  split; [reflexivity |].
  destruct (@get_reviews_ordering ExactFloat (Some "r1") (Some 4)
              three_reviews_db eq_refl) as (_ & resp & H & Hs & _).
  exists resp. split; [exact H | exact Hs].
Defined.

(** C7 on the empty database: the stats object has no member [avgRating]
    or [totalReviews]; its members are [avg_rating] and [total_reviews]. *)
Lemma stats_members_are_not_camel_case :
  exists resp stats,
    @get_reviews ExactFloat None None None None init_database
    = (inr resp, init_database)
    /\ json_member "stats" (ReviewsWithStats_json resp) = Some stats
    /\ has_shape stats spec_stats_shape = false
    /\ json_member "avgRating" stats = None
    /\ json_member "totalReviews" stats = None
    /\ json_member "avg_rating" stats = Some JNull
    /\ json_member "total_reviews" stats = Some (JInt 0).
Proof.
  do 2 eexists. split; [vm_compute; reflexivity |].
  split; [vm_compute; reflexivity |]. repeat split; reflexivity.
Qed.

(** C8 at the empty restaurant id: the list asked for it holds both
    reservations, the one of restaurant [r1] among them. *)
Lemma empty_restaurant_id_lists_every_reservation :
  exists rows,
    get_reservations (Some "") None two_bookings_db = (inr rows, two_bookings_db)
    /\ map Reservation.restaurant_id rows = [""; "r1"]
    /\ ~ (forall r, In r rows ->
            Reservation.restaurant_id r = "").
Proof.
  eexists. split; [vm_compute; reflexivity |]. split; [reflexivity |].
  intros H.
  match goal with
  | H : forall r, In r (_ :: ?x :: _) -> _ |- _ =>
      specialize (H x (or_intror (or_introl eq_refl))); discriminate H
  end.
Qed.

(** An id made of SQL is looked up as the text it is. *)
Lemma restaurant_id_bound_as_value_witness :
  "x' OR '1'='1" <> ""
  /\ @query_ok None None None = true
  /\ exists rows resp,
      get_reservations (Some "x' OR '1'='1") None two_bookings_db
      = (inr rows, two_bookings_db)
      /\ rows = []
      /\ @get_reviews ExactFloat (Some "x' OR '1'='1") None None None
           two_restaurants_db = (inr resp, two_restaurants_db)
      /\ ReviewsWithStats.reviews resp = []
      /\ ReviewStats.total_reviews (ReviewsWithStats.stats resp) = 0.
Proof.
  split; [discriminate |]. split; [reflexivity |].
  destruct (@restaurant_id_bound_as_value ExactFloat "x' OR '1'='1" None None
              None None two_bookings_db ltac:(discriminate) eq_refl)
    as (_ & _ & _ & _ & (rows & Hr & Pr) & _).
  destruct (@restaurant_id_bound_as_value ExactFloat "x' OR '1'='1" None None
              None None two_restaurants_db ltac:(discriminate) eq_refl)
    as (_ & _ & _ & _ & _ & (resp & Hv & Pv & Ht & _)).
  exists rows, resp. split; [exact Hr |]. split.
  { apply Permutation_nil. apply Permutation_sym. exact Pr. }
  split; [exact Hv |]. split.
  { apply Permutation_nil. apply Permutation_sym. exact Pv. }
  rewrite Ht. reflexivity.
Defined.

(** The scenario of the specification: the first reservation gets the
    integer id 1 and the status [pending]. *)
Lemma create_then_get_witness :
  DB_ok init_database
  /\ ReservationCreate_valid has_at_sign (reservation_for "r1" 4) = true
  /\ exists row db',
      create_reservation has_at_sign (reservation_for "r1" 4)
        "2024-12-01 10:00:00" init_database = (inr row, db')
      /\ get_reservation (Reservation.id row) db' = (inr row, db')
      /\ Reservation.id row = 1
      /\ Reservation.status row = Some "pending".
Proof.
  split; [apply init_database_ok |]. split; [reflexivity |].
  destruct (create_then_get has_at_sign (reservation_for "r1" 4)
              "2024-12-01 10:00:00" init_database init_database_ok eq_refl)
    as (row & db' & Hc & Hg & _ & Hs & Hi & _).
  exists row, db'. repeat split; assumption.
Defined.

Lemma create_rejects_party_size_witness :
  ~ (1 <= 21 <= 20)
  /\ exists e,
      create_reservation has_at_sign (reservation_for "r1" 21)
        "2024-12-01 10:00:02" two_bookings_db = (inl e, two_bookings_db)
      /\ is_ValidationError e = true.
Proof.
  split; [lia |].
  apply (create_rejects_party_size has_at_sign (reservation_for "r1" 21)).
  simpl. lia.
Defined.

(** The patch with the party size alone. *)
Definition party_size_patch (n : Z) : ReservationUpdate.t :=
  {| ReservationUpdate.customer_name := unset;
     ReservationUpdate.customer_email := unset;
     ReservationUpdate.customer_phone := unset;
     ReservationUpdate.party_size := given (Some n);
     ReservationUpdate.reservation_date := unset;
     ReservationUpdate.reservation_time := unset;
     ReservationUpdate.status := unset;
     ReservationUpdate.notes := unset |}.

(** The patch [{"customer_name": null}]. *)
Definition null_name_patch : ReservationUpdate.t :=
  {| ReservationUpdate.customer_name := given None;
     ReservationUpdate.customer_email := unset;
     ReservationUpdate.customer_phone := unset;
     ReservationUpdate.party_size := unset;
     ReservationUpdate.reservation_date := unset;
     ReservationUpdate.reservation_time := unset;
     ReservationUpdate.status := unset;
     ReservationUpdate.notes := unset |}.

Lemma update_is_partial_witness :
  exists r row db',
    find (has_id 2) (DB.reservations two_bookings_db) = Some r
    /\ update_reservation has_at_sign 2 (party_size_patch 6)
         "2024-12-02 08:00:00" two_bookings_db = (inr row, db')
    /\ column_value c_party_size row = SqlInt 6
    /\ column_value c_updated_at row = SqlText "2024-12-02 08:00:00"
    /\ column_value c_created_at row = column_value c_created_at r
    /\ column_value c_customer_name row = column_value c_customer_name r.
Proof.
  destruct (update_is_partial has_at_sign 2 "2024-12-02 08:00:00"
              two_bookings_db _ eq_refl) as [_ H].
  destruct (H (party_size_patch 6) (set_party_size (Some 6))
              eq_refl eq_refl eq_refl)
    as (row & db' & Hu & _ & Hv & Ht & Hframe & _).
  eexists. exists row, db'. split; [reflexivity |]. split; [exact Hu |].
  split; [exact Hv |]. split; [exact Ht |].
  split; apply Hframe; discriminate.
Defined.

(** C4 on a patch that sends a null for [customer_name], the one field in
    it: the write is refused by the NOT NULL constraint, the request fails
    with a storage error, and the row keeps its old [updated_at]. *)
Lemma null_for_required_column_is_refused :
  exists r detail,
    find (has_id 1) (DB.reservations two_bookings_db) = Some r
    /\ ReservationUpdate_valid has_at_sign null_name_patch = true
    /\ model_dump_exclude_unset null_name_patch = [set_customer_name None]
    /\ update_reservation has_at_sign 1 null_name_patch "2024-12-02 08:00:00"
         two_bookings_db = (inl (IntegrityError detail), two_bookings_db)
    /\ is_ValidationError (IntegrityError detail) = false
    /\ is_StorageError (IntegrityError detail) = true
    /\ Reservation.updated_at r = "2024-12-01 10:00:00".
Proof.
  do 2 eexists. split; [reflexivity |]. split; [reflexivity |].
  split; [reflexivity |]. split; [vm_compute; reflexivity |].
  repeat split; reflexivity.
Qed.

(** A cancelled reservation ... *)
Definition cancelled_db : DB.t :=
  after (update_reservation has_at_sign 2 (status_patch cancelled)
           "2024-12-02 08:00:00") two_bookings_db.

(** ... is confirmed again. *)
Lemma any_status_transition_witness :
  exists r row db',
    find (has_id 2) (DB.reservations cancelled_db) = Some r
    /\ Reservation.status r = Some "cancelled"
    /\ update_reservation has_at_sign 2 (status_patch confirmed)
         "2024-12-03 08:00:00" cancelled_db = (inr row, db')
    /\ Reservation.status row = Some "confirmed".
Proof.
  destruct (any_status_transition has_at_sign 2 confirmed "2024-12-03 08:00:00"
              cancelled_db _ eq_refl) as (row & db' & Hu & _ & Hs & _).
  eexists. exists row, db'. split; [reflexivity |]. split; [reflexivity |].
  split; [exact Hu | exact Hs].
Defined.

(* ================================================================== *)
(** * Further properties of the service *)

(** ** Operations by id *)


Lemma find_has_id_some (i : Z) (rows : list Reservation.t) (r : Reservation.t) :
  find (has_id i) rows = Some r -> In r rows /\ Reservation.id r = i.
Proof.
  intros H. apply find_some in H. destruct H as [H1 H2]. split; [exact H1 |].
  unfold has_id in H2. now apply Z.eqb_eq.
Qed.

Section ByIdMissing.
Variable EmailStr : string -> bool.


End ByIdMissing.


Lemma find_has_id_filter_other (i j : Z) (rows : list Reservation.t) :
  j <> i ->
  find (has_id j) (filter (fun r => negb (Reservation.id r =? i)) rows)
  = find (has_id j) rows.
Proof.
  intros Hj. induction rows as [|x rows IH]; simpl; [reflexivity |].
  destruct (Z.eqb_spec (Reservation.id x) i) as [E|E]; simpl.
  - unfold has_id at 2. destruct (Z.eqb_spec (Reservation.id x) j); [lia | exact IH].
  - unfold has_id at 1 3. destruct (Reservation.id x =? j); [reflexivity | exact IH].
Qed.

(** X2.  Deleting a stored reservation succeeds; afterwards its id is answered
    404, the table holds exactly the rows of other ids, in their order,
    and the reviews and both sequences are what they were. *)
Theorem delete_reservation_removes (i : Z) (db : DB.t) (r : Reservation.t) :
  find (has_id i) (DB.reservations db) = Some r ->
  exists db',
    delete_reservation i db = (inr tt, db')
    /\ get_reservation i db'
       = (inl (HTTPException 404 "Reservation not found"), db')
    /\ (forall x, In x (DB.reservations db') <->
                  (In x (DB.reservations db) /\ Reservation.id x <> i))
    /\ (forall j, j <> i ->
           find (has_id j) (DB.reservations db')
           = find (has_id j) (DB.reservations db))
    /\ DB.reservations_seq db' = DB.reservations_seq db
    /\ DB.reviews db' = DB.reviews db
    /\ DB.reviews_seq db' = DB.reviews_seq db.
Proof.
  intros Hf. eexists.
  unfold delete_reservation, get_reservation, get_db, bind,
    select_reservation_by_id, delete_reservations.
  cbn -[find filter]. fold (has_id i). rewrite Hf.
  split; [reflexivity |]. cbn -[find filter]. fold (has_id i).
  rewrite find_deleted. split; [reflexivity |]. split.
  { intros x. rewrite filter_In, negb_true_iff, Z.eqb_neq. reflexivity. }
  split; [| repeat split].
  intros j Hj. now apply find_has_id_filter_other.
Qed.

Lemma delete_reservation_removes_witness :
  exists r db',
    find (has_id 1) (DB.reservations two_bookings_db) = Some r
    /\ delete_reservation 1 two_bookings_db = (inr tt, db')
    /\ map Reservation.id (DB.reservations db') = [2].
Proof.
  destruct (delete_reservation_removes 1 two_bookings_db _ eq_refl)
    as (db' & Hd & _).
  eexists. exists db'. split; [reflexivity |]. split; [exact Hd |].
  vm_compute in Hd. inversion Hd. reflexivity.
Defined.

(** ** Writing reviews *)

Definition review_has_id (i : Z) (r : Review.t) : bool := Review.id r =? i.

Lemma find_fresh_review (rows : list Review.t) (row : Review.t) (seq : Z) :
  Forall (fun r => Review.id r <= seq) rows ->
  Review.id row = seq + 1 ->
  find (review_has_id (seq + 1)) (rows ++ [row]) = Some row.
Proof.
  intros Hall Hid. induction Hall as [|x rows Hx Hall IH]; simpl.
  - unfold review_has_id. rewrite Hid, Z.eqb_refl. reflexivity.
  - unfold review_has_id at 1.
    destruct (Z.eqb_spec (Review.id x) (seq + 1)); [lia | exact IH].
Qed.


Section ReviewWrites.
Variable EmailStr : string -> bool.

(** The row as [create_review] is asked to store it. *)
Definition stores_review (v : ReviewCreate.t) (row : Review.t) : Prop :=
  Review.restaurant_id row = ReviewCreate.restaurant_id v
  /\ Review.reviewer_name row = ReviewCreate.reviewer_name v
  /\ Review.reviewer_email row = ReviewCreate.reviewer_email v
  /\ Review.rating row = ReviewCreate.rating v
  /\ Review.title row = ReviewCreate.title v
  /\ Review.comment row = ReviewCreate.comment v
  /\ Review.visit_date row = ReviewCreate.visit_date v.

(** X3.  Creating a review from a valid input answers with the stored row: it
    holds the fields of the input, the next id of the sequence, which no
    stored review has, and the time of the insert; a get of that id answers
    with the same row; the row is appended and nothing else is written. *)
Theorem create_review_then_get (v : ReviewCreate.t) (now : timestamp)
  (db : DB.t) :
  DB_ok db ->
  ReviewCreate_valid EmailStr v = true ->
  exists row db',
    create_review EmailStr v now db = (inr row, db')
    /\ get_review (Review.id row) db' = (inr row, db')
    /\ stores_review v row
    /\ Review.id row = DB.reviews_seq db + 1
    /\ ~ In (Review.id row) (map Review.id (DB.reviews db))
    /\ Review.created_at row = now
    /\ DB.reviews db' = DB.reviews db ++ [row]
    /\ DB.reservations db' = DB.reservations db.
Proof.
  intros (_ & Hids & _) Hv.
  unfold create_review, validated. rewrite Hv.
  assert (Hr : (1 <=? ReviewCreate.rating v) && (ReviewCreate.rating v <=? 5)
               = true).
  { unfold ReviewCreate_valid, in_range in Hv.
    apply andb_true_iff in Hv. destruct Hv as [Hv _].
    apply andb_true_iff in Hv. destruct Hv as [_ Hv]. exact Hv. }
  unfold get_review, get_db, bind, insert_review, select_review_by_id, fetched.
  rewrite Hr. cbn -[find].
  set (row := {| Review.id := DB.reviews_seq db + 1;
                 Review.created_at := now |}).
  assert (Hf : find (fun r => Review.id r =? DB.reviews_seq db + 1)
                    (DB.reviews db ++ [row]) = Some row).
  { apply (find_fresh_review _ row _ Hids). reflexivity. }
  exists row. eexists. rewrite Hf. cbn -[find].
  split; [reflexivity |]. cbn -[find]. rewrite Hf.
  split; [reflexivity |]. split; [now repeat split |].
  split; [reflexivity |]. split; [| repeat split].
  intros Hin. apply in_map_iff in Hin. destruct Hin as (r & Hr' & Hin).
  rewrite Forall_forall in Hids. specialize (Hids r Hin). cbn in Hr'. lia.
Qed.

(** X4.  A rating outside 1..5 never reaches the table: the model rejects the
    request with a validation error and nothing is written, and the INSERT
    itself would be refused by the CHECK constraint. *)
Theorem create_review_rejects_rating (v : ReviewCreate.t) (now : timestamp)
  (db : DB.t) :
  ~ (1 <= ReviewCreate.rating v <= 5) ->
  create_review EmailStr v now db = (inl RequestValidationError, db)
  /\ is_ValidationError RequestValidationError = true
  /\ exists detail, insert_review v now db = inl (IntegrityError detail).
Proof.
  intros Hp.
  assert (E : (1 <=? ReviewCreate.rating v) && (ReviewCreate.rating v <=? 5)
              = false).
  { apply andb_false_iff.
    destruct (Z.leb_spec 1 (ReviewCreate.rating v)); [| now left].
    destruct (Z.leb_spec (ReviewCreate.rating v) 5); [lia | now right]. }
  unfold create_review, validated, ReviewCreate_valid, in_range, insert_review.
  rewrite E, andb_false_r. simpl. repeat split. eexists. reflexivity.
Qed.

End ReviewWrites.

Lemma create_review_then_get_witness :
  DB_ok three_reviews_db
  /\ ReviewCreate_valid has_at_sign (review_for "r2" "D" 2) = true
  /\ exists row db',
      create_review has_at_sign (review_for "r2" "D" 2) "2024-12-26 12:00:00"
        three_reviews_db = (inr row, db')
      /\ get_review (Review.id row) db' = (inr row, db')
      /\ Review.id row = 4.
Proof.
  split; [apply three_reviews_db_ok |]. split; [reflexivity |].
  destruct (create_review_then_get has_at_sign (review_for "r2" "D" 2)
              "2024-12-26 12:00:00" three_reviews_db three_reviews_db_ok eq_refl)
    as (row & db' & Hc & Hg & _ & Hi & _).
  exists row, db'. split; [exact Hc |]. split; [exact Hg |].
  rewrite Hi. reflexivity.
Defined.

Lemma create_review_rejects_rating_witness :
  ~ (1 <= 0 <= 5)
  /\ create_review has_at_sign (review_for "r1" "A" 0) "2024-12-26 12:00:00"
       three_reviews_db = (inl RequestValidationError, three_reviews_db).
Proof.
  split; [lia |].
  apply (create_review_rejects_rating has_at_sign (review_for "r1" "A" 0)).
  simpl. lia.
Defined.


(** ** What the service keeps true of the database *)

(** A status the column can hold after any request: NULL, or the value of
    a member of the enumeration. *)
Definition status_known (s : option string) : Prop :=
  s = None \/ exists m, s = Some (ReservationStatus_value m).

Definition reservation_sound (seq : Z) (r : Reservation.t) : Prop :=
  1 <= Reservation.id r <= seq
  /\ 1 <= Reservation.party_size r <= 20
  /\ status_known (Reservation.status r).

Definition review_sound (seq : Z) (r : Review.t) : Prop :=
  1 <= Review.id r <= seq /\ 1 <= Review.rating r <= 5.

(** Ids grow along each table, so no two rows share one; they lie between
    1 and the table's sequence; party sizes, statuses and ratings are
    within their domains. *)
Definition DB_invariant (db : DB.t) : Prop :=
  0 <= DB.reservations_seq db
  /\ 0 <= DB.reviews_seq db
  /\ StronglySorted Z.lt (map Reservation.id (DB.reservations db))
  /\ StronglySorted Z.lt (map Review.id (DB.reviews db))
  /\ Forall (reservation_sound (DB.reservations_seq db)) (DB.reservations db)
  /\ Forall (review_sound (DB.reviews_seq db)) (DB.reviews db).

Lemma StronglySorted_snoc (l : list Z) (y : Z) :
  StronglySorted Z.lt l -> Forall (fun x => x < y) l ->
  StronglySorted Z.lt (l ++ [y]).
Proof.
  induction 1 as [|x l Hs IH Hx]; simpl; intros Hy.
  - repeat constructor.
  - inversion Hy; subst. constructor; [now apply IH |].
    apply Forall_app. split; [exact Hx | now repeat constructor].
Qed.

Lemma StronglySorted_map_filter {A : Type} (key : A -> Z) (f : A -> bool)
  (l : list A) :
  StronglySorted Z.lt (map key l) -> StronglySorted Z.lt (map key (filter f l)).
Proof.
  induction l as [|x l IH]; simpl; intros H; [constructor |].
  inversion H as [|? ? Hs Hx]; subst.
  destruct (f x); simpl; [| now apply IH].
  constructor; [now apply IH |].
  rewrite Forall_forall in *. intros k Hk. apply Hx.
  apply in_map_iff in Hk. destruct Hk as (a & Ha & Hin).
  apply filter_In in Hin. apply in_map_iff. exists a. tauto.
Qed.

Lemma StronglySorted_lt_NoDup (l : list Z) : StronglySorted Z.lt l -> NoDup l.
Proof.
  induction 1 as [|x l Hs IH Hx]; constructor; [| exact IH].
  intros Hin. rewrite Forall_forall in Hx. specialize (Hx x Hin). lia.
Qed.

(** The values a patch may carry, as far as the invariant goes. *)
Definition assignment_sound (a : assignment) : Prop :=
  match a with
  | set_party_size (Some n) => 1 <= n <= 20
  | _ => True
  end.

Lemma assign_sound (seq : Z) (a : assignment) (r r1 : Reservation.t) :
  assignment_sound a -> reservation_sound seq r -> assign a r = inr r1 ->
  reservation_sound seq r1.
Proof.
  intros Ha (Hi & Hp & Hs) E.
  destruct a as [[v|]|[v|]|v|[v|]|[v|]|[v|]|v|v]; simpl in E;
    inversion E; subst; (split; [| split]); simpl; try assumption;
    try (simpl in Ha; lia).
  destruct v as [m|]; [right; now exists m | now left].
Qed.

Lemma assign_all_sound (seq : Z) (sets : list assignment)
  (r r1 : Reservation.t) :
  Forall assignment_sound sets -> reservation_sound seq r ->
  assign_all sets r = inr r1 -> reservation_sound seq r1.
Proof.
  intros Hs. revert r. induction Hs as [|a sets Ha Hs IH]; simpl; intros r Hr E.
  - now inversion E; subst.
  - destruct (assign a r) as [e|r2] eqn:E2; [discriminate |].
    eapply IH; [| exact E]. eapply assign_sound; eassumption.
Qed.

Lemma update_rows_sound (seq : Z) (sets : list assignment) (now : timestamp)
  (i : Z) (rows rows' : list Reservation.t) :
  Forall assignment_sound sets ->
  Forall (reservation_sound seq) rows ->
  update_rows sets now i rows = inr rows' ->
  Forall (reservation_sound seq) rows'.
Proof.
  intros Hs Hall. revert rows'.
  induction Hall as [|r rows Hr Hall IH]; simpl; intros rows' E.
  - inversion E. constructor.
  - destruct (Reservation.id r =? i).
    + destruct (assign_all sets r) as [e|r1] eqn:Ea; simpl in E; [discriminate |].
      destruct (update_rows sets now i rows) as [e|rows1]; [discriminate |].
      inversion E; subst. constructor; [| now apply IH].
      pose proof (assign_all_sound seq sets r r1 Hs Hr Ea) as (H1 & H2 & H3).
      split; [exact H1 | split; [exact H2 | exact H3]].
    + destruct (update_rows sets now i rows) as [e|rows1]; [discriminate |].
      inversion E; subst. constructor; [assumption | now apply IH].
Qed.

Section Reachable.
Variable EmailStr : string -> bool.

Lemma model_dump_sound (u : ReservationUpdate.t) :
  ReservationUpdate_valid EmailStr u = true ->
  Forall assignment_sound (model_dump_exclude_unset u).
Proof.
  unfold ReservationUpdate_valid, model_dump_exclude_unset.
  intros H. apply andb_true_iff in H. destruct H as [_ H].
  destruct u as [f1 f2 f3 f4 f5 f6 f7 f8]; simpl in *.
  assert (Hp : match f4 with
               | given (Some n) => 1 <= n <= 20
               | _ => True
               end).
  { destruct f4 as [|[n|]]; try exact I. simpl in H. unfold in_range in H.
    apply andb_true_iff in H. rewrite !Z.leb_le in H. exact H. }
  clear H.
  repeat (apply Forall_app; split);
    match goal with
    | |- Forall _ (dump _ ?f) => destruct f as [|[?|]]; simpl
    end; repeat constructor; simpl in Hp; lia.
Qed.

(** The databases the service can have written: the fresh one, and the
    one left by any write request on such a database. *)
Inductive reachable : DB.t -> Prop :=
| reach_init : reachable init_database
| reach_create_reservation v now db :
    reachable db -> reachable (after (create_reservation EmailStr v now) db)
| reach_update_reservation i u now db :
    reachable db -> reachable (after (update_reservation EmailStr i u now) db)
| reach_delete_reservation i db :
    reachable db -> reachable (after (delete_reservation i) db)
| reach_create_review v now db :
    reachable db -> reachable (after (create_review EmailStr v now) db)
| reach_delete_review i db :
    reachable db -> reachable (after (delete_review i) db).

Lemma create_reservation_invariant (v : ReservationCreate.t) (now : timestamp)
  (db : DB.t) :
  DB_invariant db -> DB_invariant (after (create_reservation EmailStr v now) db).
Proof.
  intros (S1 & S2 & O1 & O2 & F1 & F2). unfold after, create_reservation, validated.
  destruct (ReservationCreate_valid EmailStr v) eqn:Hv; [| now repeat split].
  unfold get_db, bind, insert_reservation, select_reservation_by_id, fetched.
  cbn -[find].
  match goal with |- context [find ?f ?l] => destruct (find f l) end;
    cbn; [| now repeat split].
  unfold ReservationCreate_valid, in_range in Hv.
  apply andb_true_iff in Hv. destruct Hv as [_ Hv].
  apply andb_true_iff in Hv. rewrite !Z.leb_le in Hv.
  repeat split; cbn; try assumption; try lia.
  - rewrite map_app. apply StronglySorted_snoc; [exact O1 |].
    rewrite Forall_map. eapply Forall_impl; [| exact F1].
    intros r (Hr & _). cbn. lia.
  - apply Forall_app. split.
    + eapply Forall_impl; [| exact F1].
      intros r (Hr & Hp & Hs). repeat split; try assumption; lia.
    + constructor; [| constructor].
      split; [cbn; lia | split; [cbn; lia | right; now exists pending]].
Qed.

Lemma update_reservation_invariant (i : Z) (u : ReservationUpdate.t)
  (now : timestamp) (db : DB.t) :
  DB_invariant db -> DB_invariant (after (update_reservation EmailStr i u now) db).
Proof.
  intros (S1 & S2 & O1 & O2 & F1 & F2). unfold after, update_reservation, validated.
  destruct (ReservationUpdate_valid EmailStr u) eqn:Hv; [| now repeat split].
  unfold get_db, bind, select_reservation_by_id, update_reservations, fetched.
  cbn -[find update_rows].
  destruct (find _ (DB.reservations db)); [| now repeat split].
  destruct (model_dump_exclude_unset u) as [|a sets] eqn:Hd; [now repeat split |].
  destruct (update_rows (a :: sets) now i (DB.reservations db)) as [e|rows] eqn:E;
    [now repeat split |].
  cbn -[find].
  match goal with |- context [find ?f ?l] => destruct (find f l) end;
    cbn; [| now repeat split].
  repeat split; cbn; try assumption.
  - now rewrite (update_rows_ids _ _ _ _ _ E).
  - eapply update_rows_sound; [| exact F1 | exact E].
    rewrite <- Hd. now apply model_dump_sound.
Qed.

Lemma delete_reservation_invariant (i : Z) (db : DB.t) :
  DB_invariant db -> DB_invariant (after (delete_reservation i) db).
Proof.
  intros (S1 & S2 & O1 & O2 & F1 & F2).
  unfold after, delete_reservation, get_db, bind, select_reservation_by_id,
    delete_reservations.
  cbn -[find filter].
  destruct (find _ (DB.reservations db)); cbn -[filter]; [| now repeat split].
  repeat split; cbn -[filter]; try assumption.
  - now apply StronglySorted_map_filter.
  - now apply Forall_filter_keep.
Qed.

Lemma create_review_invariant (v : ReviewCreate.t) (now : timestamp)
  (db : DB.t) :
  DB_invariant db -> DB_invariant (after (create_review EmailStr v now) db).
Proof.
  intros (S1 & S2 & O1 & O2 & F1 & F2). unfold after, create_review, validated.
  destruct (ReviewCreate_valid EmailStr v); [| now repeat split].
  unfold get_db, bind, insert_review, select_review_by_id, fetched.
  destruct ((1 <=? ReviewCreate.rating v) && (ReviewCreate.rating v <=? 5))
    eqn:Hr; cbn -[find]; [| now repeat split].
  match goal with |- context [find ?f ?l] => destruct (find f l) end;
    cbn; [| now repeat split].
  apply andb_true_iff in Hr. rewrite !Z.leb_le in Hr.
  repeat split; cbn; try assumption; try lia.
  - rewrite map_app. apply StronglySorted_snoc; [exact O2 |].
    rewrite Forall_map. eapply Forall_impl; [| exact F2].
    intros r (Hi & _). cbn. lia.
  - apply Forall_app. split.
    + eapply Forall_impl; [| exact F2].
      intros r (Hi & Hq). split; [lia | assumption].
    + repeat constructor; cbn; lia.
Qed.

Lemma delete_review_invariant (i : Z) (db : DB.t) :
  DB_invariant db -> DB_invariant (after (delete_review i) db).
Proof.
  intros (S1 & S2 & O1 & O2 & F1 & F2).
  unfold after, delete_review, get_db, bind, select_review_by_id, delete_reviews.
  cbn -[find filter].
  destruct (find _ (DB.reviews db)); cbn -[filter]; [| now repeat split].
  repeat split; cbn -[filter]; try assumption.
  - now apply StronglySorted_map_filter.
  - now apply Forall_filter_keep.
Qed.

(** X6.  Whatever requests the service has served since the database was
    initialised: no two reservations share an id and no two reviews do,
    every id lies between 1 and its table's sequence, every party size
    within 1..20, every status is NULL or pending, confirmed or cancelled,
    and every rating lies within 1..5. *)
Theorem reachable_invariant (db : DB.t) :
  reachable db ->
  DB_invariant db
  /\ NoDup (map Reservation.id (DB.reservations db))
  /\ NoDup (map Review.id (DB.reviews db))
  /\ DB_ok db.
Proof.
  intros H.
  assert (I : DB_invariant db).
  { induction H.
    - repeat split; try constructor; cbn; lia.
    - now apply create_reservation_invariant.
    - now apply update_reservation_invariant.
    - now apply delete_reservation_invariant.
    - now apply create_review_invariant.
    - now apply delete_review_invariant. }
  split; [exact I |]. destruct I as (S1 & S2 & O1 & O2 & F1 & F2).
  split; [now apply StronglySorted_lt_NoDup |].
  split; [now apply StronglySorted_lt_NoDup |].
  repeat split.
  - eapply Forall_impl; [| exact F1]. intros r (Hr & _). cbn. lia.
  - eapply Forall_impl; [| exact F2]. intros r (Hr & _). cbn. lia.
  - eapply Forall_impl; [| exact F2]. intros r (_ & Hr). exact Hr.
Qed.

Lemma create_reservation_eval (v : ReservationCreate.t) (now : timestamp)
  (db : DB.t) :
  DB_ok db ->
  ReservationCreate_valid EmailStr v = true ->
  exists row db',
    create_reservation EmailStr v now db = (inr row, db')
    /\ Reservation.id row = DB.reservations_seq db + 1
    /\ stores_input v row
    /\ Reservation.status row = Some "pending"
    /\ DB.reservations db' = DB.reservations db ++ [row].
Proof.
  intros (Hids & _ & _) Hv.
  unfold create_reservation, validated. rewrite Hv.
  unfold get_db, bind, insert_reservation, select_reservation_by_id, fetched.
  cbn -[find].
  set (row := {| Reservation.id := DB.reservations_seq db + 1;
                 Reservation.status := Some "pending" |}).
  assert (Hf : find (fun r => Reservation.id r =? DB.reservations_seq db + 1)
                    (DB.reservations db ++ [row]) = Some row).
  { apply (find_fresh _ row _ Hids). reflexivity. }
  exists row. eexists. rewrite Hf. cbn -[find].
  split; [reflexivity |]. split; [reflexivity |].
  split; [now repeat split |]. split; reflexivity.
Qed.

(** X7.  Ids are not handed out twice: after a stored reservation is deleted,
    the next one created gets an id above the deleted one and above every
    id the table held. *)
Theorem reservation_id_not_reused (i : Z) (r : Reservation.t)
  (v : ReservationCreate.t) (now : timestamp) (db : DB.t) :
  DB_ok db ->
  find (has_id i) (DB.reservations db) = Some r ->
  ReservationCreate_valid EmailStr v = true ->
  exists db1 row db2,
    delete_reservation i db = (inr tt, db1)
    /\ create_reservation EmailStr v now db1 = (inr row, db2)
    /\ Reservation.id row = DB.reservations_seq db + 1
    /\ i < Reservation.id row
    /\ Forall (fun x => Reservation.id x < Reservation.id row)
              (DB.reservations db).
Proof.
  intros Hok Hf Hv.
  destruct (delete_then_get i db r Hf) as (db1 & e & Hd & _).
  assert (Hseq : DB.reservations_seq db1 = DB.reservations_seq db).
  { revert Hd.
    unfold delete_reservation, get_db, bind, select_reservation_by_id,
      delete_reservations.
    fold (has_id i). rewrite Hf. intros Hd. inversion Hd. reflexivity. }
  assert (Hok1 : DB_ok db1).
  { replace db1 with (snd (delete_reservation i db)) by now rewrite Hd.
    now apply delete_reservation_ok. }
  destruct (create_reservation_eval v now db1 Hok1 Hv)
    as (row & db2 & Hc & Hid & _).
  exists db1, row, db2. split; [exact Hd |]. split; [exact Hc |].
  rewrite Hid, Hseq. destruct Hok as (Hids & _).
  split; [reflexivity |]. split.
  - apply find_has_id_some in Hf. destruct Hf as [Hin Hi].
    rewrite Forall_forall in Hids. specialize (Hids r Hin). lia.
  - eapply Forall_impl; [| exact Hids]. cbn. intros; lia.
Qed.

End Reachable.

(** ** Patches of several fields *)

Lemma assign_all_accepted (sets : list assignment) (r : Reservation.t) :
  forallb accepted sets = true ->
  exists r1,
    assign_all sets r = inr r1
    /\ Reservation.id r1 = Reservation.id r
    /\ (forall c, (forall a, In a sets -> assignment_column a <> c) ->
                  column_value c r1 = column_value c r)
    /\ (NoDup (map assignment_column sets) ->
        forall a, In a sets ->
                  column_value (assignment_column a) r1 = assignment_value a).
Proof.
  revert r. induction sets as [|a sets IH]; simpl; intros r H.
  - exists r. repeat split; intros; try reflexivity; contradiction.
  - apply andb_true_iff in H. destruct H as [Ha Hs].
    destruct (assign_accepted a r Ha) as (r2 & E & Hid & Hval & Hframe).
    destruct (IH r2 Hs) as (r1 & E1 & Hid1 & Hframe1 & Hval1).
    exists r1. rewrite E. split; [exact E1 |]. split; [congruence |]. split.
    + intros c Hc. rewrite Hframe1 by (intros b Hb; apply Hc; now right).
      apply Hframe. intros Heq. apply (Hc a); [now left | now symmetry].
    + intros Hnd b [Hb|Hb].
      * subst b. inversion Hnd as [|? ? Hnotin Hnd']; subst.
        rewrite Hframe1; [exact Hval |].
        intros b Hb Heq. apply Hnotin. rewrite <- Heq. now apply in_map.
      * inversion Hnd; subst. now apply Hval1.
Qed.

Lemma assign_all_rejected (sets : list assignment) (r : Reservation.t) :
  forallb accepted sets = false ->
  exists detail, assign_all sets r = inl (IntegrityError detail).
Proof.
  revert r. induction sets as [|a sets IH]; simpl; intros r H; [discriminate |].
  destruct (accepted a) eqn:Ha.
  - destruct (assign_accepted a r Ha) as (r2 & E & _). rewrite E.
    apply IH. exact H.
  - destruct (assign_rejected a r Ha) as (detail & E). rewrite E. now eexists.
Qed.

Lemma update_rows_all_accepted (sets : list assignment) (now : timestamp)
  (i : Z) (rows : list Reservation.t) :
  forallb accepted sets = true ->
  exists rows', update_rows sets now i rows = inr rows'.
Proof.
  intros Ha. induction rows as [|r rows (rows' & IH)]; simpl.
  - now eexists.
  - rewrite IH. destruct (Reservation.id r =? i); [| now eexists].
    destruct (assign_all_accepted sets r Ha) as (r1 & E & _). rewrite E. simpl.
    now eexists.
Qed.

Lemma update_rows_found_all (sets : list assignment) (now : timestamp) (i : Z)
  (rows rows' : list Reservation.t) (r r1 : Reservation.t) :
  update_rows sets now i rows = inr rows' ->
  find (has_id i) rows = Some r ->
  assign_all sets r = inr r1 ->
  Reservation.id r1 = Reservation.id r ->
  find (has_id i) rows' = Some (Reservation.with_updated_at now r1).
Proof.
  revert rows'. induction rows as [|x rows IH]; simpl; intros rows' Hu Hf Ha Hid.
  - discriminate.
  - unfold has_id at 1 in Hf. destruct (Reservation.id x =? i) eqn:Ex.
    + inversion Hf; subst x. rewrite Ha in Hu. simpl in Hu.
      destruct (update_rows sets now i rows); [discriminate |].
      inversion Hu; subst. simpl. unfold has_id at 1. simpl.
      rewrite Hid, Ex. reflexivity.
    + destruct (update_rows sets now i rows) as [e|rows1]; [discriminate |].
      inversion Hu; subst. simpl. unfold has_id at 1. rewrite Ex.
      now apply IH.
Qed.

Lemma update_rows_refused_all (sets : list assignment) (now : timestamp)
  (i : Z) (rows : list Reservation.t) (r : Reservation.t) (e : exn) :
  find (has_id i) rows = Some r ->
  assign_all sets r = inl e ->
  update_rows sets now i rows = inl e.
Proof.
  induction rows as [|x rows IH]; simpl; intros Hf Ha.
  - discriminate.
  - unfold has_id at 1 in Hf. destruct (Reservation.id x =? i).
    + inversion Hf; subst x. rewrite Ha. reflexivity.
    + rewrite (IH Hf Ha). reflexivity.
Qed.

(** A dumped patch names each column at most once. *)
Lemma model_dump_columns_NoDup (u : ReservationUpdate.t) :
  NoDup (map assignment_column (model_dump_exclude_unset u)).
Proof.
  destruct u as [f1 f2 f3 f4 f5 f6 f7 f8]. unfold model_dump_exclude_unset.
  cbn [ReservationUpdate.customer_name ReservationUpdate.customer_email
       ReservationUpdate.customer_phone ReservationUpdate.party_size
       ReservationUpdate.reservation_date ReservationUpdate.reservation_time
       ReservationUpdate.status ReservationUpdate.notes].
  destruct f1, f2, f3, f4, f5, f6, f7, f8; cbn;
    repeat (constructor; [cbn; intuition discriminate |]); constructor.
Qed.

Section PatchWrites.
Variable EmailStr : string -> bool.

(** X8.  On a stored reservation, a patch of any number of fields, each with a
    value its column takes, yields the stored row with every column the
    patch names set to the value sent and [updated_at] set to the time of
    the write; every other column is what it was, so the id, the restaurant
    and [created_at] never change; a get answers with that row; rows of
    other ids are what they were. *)
Theorem update_applies_patch (i : Z) (u : ReservationUpdate.t)
  (now : timestamp) (db : DB.t) (r : Reservation.t) :
  find (has_id i) (DB.reservations db) = Some r ->
  ReservationUpdate_valid EmailStr u = true ->
  model_dump_exclude_unset u <> [] ->
  forallb accepted (model_dump_exclude_unset u) = true ->
  exists row db',
    update_reservation EmailStr i u now db = (inr row, db')
    /\ get_reservation i db' = (inr row, db')
    /\ (forall a, In a (model_dump_exclude_unset u) ->
                  column_value (assignment_column a) row = assignment_value a)
    /\ column_value c_updated_at row = SqlText now
    /\ (forall c, c <> c_updated_at ->
                  (forall a, In a (model_dump_exclude_unset u) ->
                             assignment_column a <> c) ->
                  column_value c row = column_value c r)
    /\ Reservation.id row = i
    /\ Reservation.restaurant_id row = Reservation.restaurant_id r
    /\ Reservation.created_at row = Reservation.created_at r
    /\ (forall j, j <> i ->
           find (has_id j) (DB.reservations db')
           = find (has_id j) (DB.reservations db)).
Proof.
  intros Hf Hv Hne Ha.
  destruct (assign_all_accepted _ r Ha) as (r1 & E & Hid & Hframe & Hval).
  destruct (update_rows_all_accepted _ now i (DB.reservations db) Ha)
    as (rows' & Hu).
  pose proof (update_rows_found_all _ now i _ _ r r1 Hu Hf E Hid) as Hf'.
  exists (Reservation.with_updated_at now r1). eexists.
  unfold update_reservation, get_reservation, validated. rewrite Hv.
  unfold get_db, bind, select_reservation_by_id, update_reservations, fetched.
  cbn -[find update_rows]. fold (has_id i). rewrite Hf.
  destruct (model_dump_exclude_unset u) as [|a sets] eqn:Hd; [congruence |].
  rewrite Hu. cbn -[find update_rows]. fold (has_id i). rewrite Hf'.
  cbn -[find]. split; [reflexivity |].
  cbn -[find]. fold (has_id i). rewrite Hf'. split; [reflexivity |].
  assert (Hcol : forall c, c <> c_updated_at ->
                   column_value c (Reservation.with_updated_at now r1)
                   = column_value c r1).
  { intros c Hc. destruct c; try reflexivity. congruence. }
  split.
  { intros b Hb. rewrite Hcol by (destruct b; discriminate).
    apply Hval; [| exact Hb].
    rewrite <- Hd. apply model_dump_columns_NoDup. }
  split; [reflexivity |]. split.
  { intros c Hc Hn. rewrite Hcol by exact Hc. now apply Hframe. }
  apply find_has_id_some in Hf. destruct Hf as [_ Hi].
  split; [cbn; congruence |].
  assert (Hr : forall c, (forall b, In b (a :: sets) -> assignment_column b <> c) ->
                 column_value c r1 = column_value c r) by exact Hframe.
  split.
  { pose proof (Hr c_restaurant_id) as H. cbn in H.
    assert (H' : SqlText (Reservation.restaurant_id r1)
                 = SqlText (Reservation.restaurant_id r)).
    { apply H. intros b _. destruct b; discriminate. }
    now inversion H'. }
  split.
  { pose proof (Hr c_created_at) as H. cbn in H.
    assert (H' : SqlText (Reservation.created_at r1)
                 = SqlText (Reservation.created_at r)).
    { apply H. intros b _. destruct b; discriminate. }
    now inversion H'. }
  intros j Hj. now apply (update_rows_others (a :: sets) now i j).
Qed.

(** X9.  All or nothing: a patch in which some field carries a null its column
    refuses is refused whole, with a storage error, and the database is
    what it was, whatever the other fields of the patch are. *)
Theorem update_all_or_nothing (i : Z) (u : ReservationUpdate.t)
  (now : timestamp) (db : DB.t) (r : Reservation.t) :
  find (has_id i) (DB.reservations db) = Some r ->
  ReservationUpdate_valid EmailStr u = true ->
  forallb accepted (model_dump_exclude_unset u) = false ->
  exists detail,
    update_reservation EmailStr i u now db = (inl (IntegrityError detail), db)
    /\ is_StorageError (IntegrityError detail) = true.
Proof.
  intros Hf Hv Ha.
  destruct (assign_all_rejected _ r Ha) as (detail & E).
  exists detail. split; [| reflexivity].
  unfold update_reservation, validated. rewrite Hv.
  unfold get_db, bind, select_reservation_by_id, update_reservations.
  cbn -[find update_rows]. fold (has_id i). rewrite Hf.
  destruct (model_dump_exclude_unset u) as [|a sets] eqn:Hd; [discriminate |].
  rewrite (update_rows_refused_all _ now i _ r _ Hf E). reflexivity.
Qed.

End PatchWrites.

(** ** Patches one after the other *)

Lemma assign_commute (a b : assignment) (t1 t2 : timestamp)
  (r ra rab rb rba : Reservation.t) :
  assignment_column a <> assignment_column b ->
  assign a r = inr ra ->
  assign b (Reservation.with_updated_at t1 ra) = inr rab ->
  assign b r = inr rb ->
  assign a (Reservation.with_updated_at t1 rb) = inr rba ->
  Reservation.with_updated_at t2 rab = Reservation.with_updated_at t2 rba
  /\ Reservation.id ra = Reservation.id r
  /\ Reservation.id rb = Reservation.id r.
Proof.
  intros Hne E1 E2 E3 E4.
  destruct a as [[v|]|[v|]|v|[v|]|[v|]|[v|]|v|v];
    destruct b as [[w|]|[w|]|w|[w|]|[w|]|[w|]|w|w];
    simpl in *; try discriminate; try (exfalso; apply Hne; reflexivity);
    inversion E1; inversion E3; subst; simpl in *;
    inversion E2; inversion E4; subst; repeat split; reflexivity.
Qed.

Lemma assign_id (a : assignment) (r r1 : Reservation.t) :
  assign a r = inr r1 -> Reservation.id r1 = Reservation.id r.
Proof.
  destruct a as [[v|]|[v|]|v|[v|]|[v|]|[v|]|v|v]; simpl; intros E;
    inversion E; reflexivity.
Qed.

Lemma update_rows_commute (a b : assignment) (t1 t2 : timestamp) (i : Z)
  (rows rows1 rows12 rows2 rows21 : list Reservation.t) :
  assignment_column a <> assignment_column b ->
  update_rows [a] t1 i rows = inr rows1 ->
  update_rows [b] t2 i rows1 = inr rows12 ->
  update_rows [b] t1 i rows = inr rows2 ->
  update_rows [a] t2 i rows2 = inr rows21 ->
  rows12 = rows21.
Proof.
  intros Hne. revert rows1 rows12 rows2 rows21.
  induction rows as [|x rows IH]; intros rows1 rows12 rows2 rows21 H1 H2 H3 H4.
  - simpl in H1, H3. inversion H1; inversion H3; subst.
    simpl in H2, H4. inversion H2; inversion H4; reflexivity.
  - simpl in H1, H3. destruct (Reservation.id x =? i) eqn:Ex.
    + destruct (assign a x) as [e|xa] eqn:Ea; simpl in H1; [discriminate |].
      destruct (assign b x) as [e|xb] eqn:Eb; simpl in H3; [discriminate |].
      destruct (update_rows [a] t1 i rows) as [e|rows1'] eqn:R1; [discriminate |].
      destruct (update_rows [b] t1 i rows) as [e|rows2'] eqn:R2; [discriminate |].
      inversion H1; inversion H3; subst. clear H1 H3.
      pose proof (assign_id a x xa Ea) as Ia.
      pose proof (assign_id b x xb Eb) as Ib.
      simpl in H2, H4. rewrite Ia, Ex in H2. rewrite Ib, Ex in H4.
      destruct (assign b (Reservation.with_updated_at t1 xa)) as [e|xab] eqn:Eab;
        simpl in H2; [discriminate |].
      destruct (assign a (Reservation.with_updated_at t1 xb)) as [e|xba] eqn:Eba;
        simpl in H4; [discriminate |].
      destruct (update_rows [b] t2 i rows1') as [e|rows12'] eqn:R12; [discriminate |].
      destruct (update_rows [a] t2 i rows2') as [e|rows21'] eqn:R21; [discriminate |].
      inversion H2; inversion H4; subst.
      destruct (assign_commute a b t1 t2 x xa xab xb xba Hne Ea Eab Eb Eba)
        as (Hrow & _).
      rewrite Hrow. f_equal. eapply IH; eauto.
    + destruct (update_rows [a] t1 i rows) as [e|rows1'] eqn:R1; [discriminate |].
      destruct (update_rows [b] t1 i rows) as [e|rows2'] eqn:R2; [discriminate |].
      inversion H1; inversion H3; subst. clear H1 H3.
      simpl in H2, H4. rewrite Ex in H2, H4.
      destruct (update_rows [b] t2 i rows1') as [e|rows12'] eqn:R12; [discriminate |].
      destruct (update_rows [a] t2 i rows2') as [e|rows21'] eqn:R21; [discriminate |].
      inversion H2; inversion H4; subst. f_equal. eapply IH; eauto.
Qed.

Section PatchSequences.
Variable EmailStr : string -> bool.

Lemma update_reservation_eval (i : Z) (u : ReservationUpdate.t) (a : assignment)
  (now : timestamp) (db : DB.t) (r : Reservation.t) :
  find (has_id i) (DB.reservations db) = Some r ->
  ReservationUpdate_valid EmailStr u = true ->
  model_dump_exclude_unset u = [a] ->
  accepted a = true ->
  exists r1 rows',
    assign a r = inr r1
    /\ update_rows [a] now i (DB.reservations db) = inr rows'
    /\ find (has_id i) rows' = Some (Reservation.with_updated_at now r1)
    /\ update_reservation EmailStr i u now db
       = (inr (Reservation.with_updated_at now r1),
          {| DB.reservations := rows';
             DB.reservations_seq := DB.reservations_seq db;
             DB.reviews := DB.reviews db;
             DB.reviews_seq := DB.reviews_seq db |}).
Proof.
  intros Hf Hv Hd Ha.
  destruct (assign_accepted a r Ha) as (r1 & E & Hid & _).
  destruct (update_rows_accepted a now i (DB.reservations db) Ha) as (rows' & Hu).
  pose proof (update_rows_found a now i _ _ r r1 Hu Hf E Hid) as Hf'.
  exists r1, rows'. split; [exact E |]. split; [exact Hu |]. split; [exact Hf' |].
  unfold update_reservation, validated. rewrite Hv.
  unfold get_db, bind, select_reservation_by_id, update_reservations, fetched.
  cbn -[find update_rows]. fold (has_id i). rewrite Hf, Hd, Hu.
  cbn -[find update_rows]. fold (has_id i). rewrite Hf'. reflexivity.
Qed.

(** X10.  Two one-field patches of different columns may be applied in either
    order: the second request answers with the same row and leaves the same
    database. *)
Theorem updates_of_different_columns_commute (i : Z)
  (u1 u2 : ReservationUpdate.t) (a b : assignment) (t1 t2 : timestamp)
  (db : DB.t) (r : Reservation.t) :
  find (has_id i) (DB.reservations db) = Some r ->
  ReservationUpdate_valid EmailStr u1 = true ->
  ReservationUpdate_valid EmailStr u2 = true ->
  model_dump_exclude_unset u1 = [a] ->
  model_dump_exclude_unset u2 = [b] ->
  accepted a = true ->
  accepted b = true ->
  assignment_column a <> assignment_column b ->
  exists row db',
    update_reservation EmailStr i u2 t2
      (after (update_reservation EmailStr i u1 t1) db) = (inr row, db')
    /\ update_reservation EmailStr i u1 t2
         (after (update_reservation EmailStr i u2 t1) db) = (inr row, db')
    /\ column_value (assignment_column a) row = assignment_value a
    /\ column_value (assignment_column b) row = assignment_value b.
Proof.
  intros Hf V1 V2 D1 D2 Ha Hb Hne.
  destruct (update_reservation_eval i u1 a t1 db r Hf V1 D1 Ha)
    as (ra & rows1 & Ea & U1 & F1 & R1).
  destruct (update_reservation_eval i u2 b t1 db r Hf V2 D2 Hb)
    as (rb & rows2 & Eb & U2 & F2 & R2).
  unfold after. rewrite R1, R2. cbn [snd].
  set (db1 := {| DB.reservations := rows1;
                 DB.reservations_seq := DB.reservations_seq db;
                 DB.reviews := DB.reviews db;
                 DB.reviews_seq := DB.reviews_seq db |}).
  set (db2 := {| DB.reservations := rows2;
                 DB.reservations_seq := DB.reservations_seq db;
                 DB.reviews := DB.reviews db;
                 DB.reviews_seq := DB.reviews_seq db |}).
  destruct (update_reservation_eval i u2 b t2 db1 _ F1 V2 D2 Hb)
    as (rab & rows12 & Eab & U12 & F12 & R12).
  destruct (update_reservation_eval i u1 a t2 db2 _ F2 V1 D1 Ha)
    as (rba & rows21 & Eba & U21 & F21 & R21).
  cbn [DB.reservations DB.reservations_seq DB.reviews DB.reviews_seq] in *.
  destruct (assign_commute a b t1 t2 r ra rab rb rba Hne Ea Eab Eb Eba)
    as (Hrow & _).
  pose proof (update_rows_commute a b t1 t2 i _ _ _ _ _ Hne U1 U12 U2 U21) as Hrows.
  do 2 eexists. split; [exact R12 |]. split.
  { rewrite R21, Hrow, Hrows. reflexivity. }
  assert (Hcol : forall c x, c <> c_updated_at ->
                   column_value c (Reservation.with_updated_at t2 x)
                   = column_value c x).
  { intros c x Hc. destruct c; try reflexivity. congruence. }
  split.
  - rewrite Hrow, Hcol by (destruct a; discriminate).
    destruct (assign_accepted a (Reservation.with_updated_at t1 rb) Ha)
      as (x & Ex & _ & Hval & _).
    rewrite Eba in Ex. inversion Ex; subst x. exact Hval.
  - rewrite Hcol by (destruct b; discriminate).
    destruct (assign_accepted b (Reservation.with_updated_at t1 ra) Hb)
      as (x & Ex & _ & Hval & _).
    rewrite Eab in Ex. inversion Ex; subst x. exact Hval.
Qed.

(** The patch [{ status: 'cancelled' }]. *)
Definition cancel_patch : ReservationUpdate.t :=
  {| ReservationUpdate.customer_name := unset;
     ReservationUpdate.customer_email := unset;
     ReservationUpdate.customer_phone := unset;
     ReservationUpdate.party_size := unset;
     ReservationUpdate.reservation_date := unset;
     ReservationUpdate.reservation_time := unset;
     ReservationUpdate.status := given (Some cancelled);
     ReservationUpdate.notes := unset |}.

(** [lib/api.ts], [cancelReservation]: [updateReservation(id, { status:
    'cancelled' })], that is the PATCH whose body names the status alone,
    as the service reads it. *)
Definition cancelReservation (id : Z) (now : timestamp)
  : request Reservation.t :=
  update_reservation EmailStr id cancel_patch now.

(** X11.  Cancelling a stored reservation sets its status to [cancelled] and
    touches no other column but [updated_at]; cancelling it again succeeds
    and changes nothing but [updated_at]. *)
Theorem cancel_twice (i : Z) (t1 t2 : timestamp) (db : DB.t)
  (r : Reservation.t) :
  find (has_id i) (DB.reservations db) = Some r ->
  exists row1 db1 row2 db2,
    cancelReservation i t1 db = (inr row1, db1)
    /\ cancelReservation i t2 db1 = (inr row2, db2)
    /\ Reservation.status row1 = Some "cancelled"
    /\ (forall c, c <> c_status -> c <> c_updated_at ->
                  column_value c row1 = column_value c r)
    /\ row2 = Reservation.with_updated_at t2 row1.
Proof.
  intros Hf. unfold cancelReservation.
  destruct (update_reservation_eval i cancel_patch (set_status (Some cancelled))
              t1 db r Hf eq_refl eq_refl eq_refl)
    as (r1 & rows1 & E1 & _ & F1 & R1).
  simpl in E1. inversion E1; subst r1. clear E1.
  destruct (update_reservation_eval i cancel_patch (set_status (Some cancelled))
              t2 {| DB.reservations := rows1;
                    DB.reservations_seq := DB.reservations_seq db;
                    DB.reviews := DB.reviews db;
                    DB.reviews_seq := DB.reviews_seq db |}
              _ F1 eq_refl eq_refl eq_refl)
    as (r2 & rows2 & E2 & _ & _ & R2).
  simpl in E2. inversion E2; subst r2. clear E2.
  do 4 eexists. split; [exact R1 |]. split; [exact R2 |].
  split; [reflexivity |]. split; [| reflexivity].
  intros c Hc Hc'. destruct c; try reflexivity; congruence.
Qed.

End PatchSequences.

(** ** The statements the routers can send *)

Fixpoint count_char (c : ascii) (s : string) : nat :=
  match s with
  | EmptyString => O
  | String x s' => (if Ascii.eqb x c then 1 else 0) + count_char c s'
  end.

(** The number of [?] placeholders of a statement. *)
Definition placeholders (text : string) : nat := count_char "?"%char text.

Definition reservations_statements : list string :=
  map (fun w => ("SELECT * FROM reservations WHERE 1=1" ++ w
                 ++ " ORDER BY reservation_date, reservation_time")%string)
      [ ""; " AND restaurant_id = ?"; " AND status = ?";
        " AND restaurant_id = ? AND status = ?" ].

Definition reviews_statements : list string :=
  flat_map
    (fun w =>
       map (fun o => ("SELECT * FROM reviews WHERE 1=1" ++ w ++ o)%string)
           [ " ORDER BY created_at ASC"; " ORDER BY created_at DESC";
             " ORDER BY rating ASC"; " ORDER BY rating DESC" ])
    [ ""; " AND restaurant_id = ?"; " AND rating >= ?";
      " AND restaurant_id = ? AND rating >= ?" ].

Definition review_stats_statements : list string :=
  [ "SELECT AVG(rating) as avg_rating, COUNT(*) as total_reviews FROM reviews";
    "SELECT AVG(rating) as avg_rating, COUNT(*) as total_reviews FROM reviews WHERE restaurant_id = ?" ].

Section Statements.
Context {F : Float64}.

(** X12.  Whatever strings a request carries, the text sent to SQLite is one of
    a fixed, finite set of statements (four for the reservation list, two
    for the review stats, sixteen for the review list) and comes with as
    many parameters as it has placeholders.  The review list splices
    [sort_by] and [order] into its text, but only after the [Query]
    patterns let them through: otherwise the request is rejected and
    writes nothing. *)
Theorem statements_are_fixed :
  (forall restaurant_id status : option string,
      In (fst (reservations_statement restaurant_id status))
         reservations_statements
      /\ List.length (snd (reservations_statement restaurant_id status))
         = placeholders (fst (reservations_statement restaurant_id status)))
  /\ (forall restaurant_id : option string,
         In (fst (review_stats_statement restaurant_id))
            review_stats_statements
         /\ List.length (snd (review_stats_statement restaurant_id))
            = placeholders (fst (review_stats_statement restaurant_id)))
  /\ (forall (restaurant_id : option string) (min_rating : option Z)
             (sort_by order : option string) (db : DB.t),
         get_reviews restaurant_id min_rating sort_by order db
         = (inl RequestValidationError, db)
         \/ (In (fst (reviews_statement restaurant_id min_rating
                        (query_default "created_at" sort_by)
                        (query_default "desc" order)))
                reviews_statements
             /\ List.length
                  (snd (reviews_statement restaurant_id min_rating
                          (query_default "created_at" sort_by)
                          (query_default "desc" order)))
                = placeholders
                    (fst (reviews_statement restaurant_id min_rating
                            (query_default "created_at" sort_by)
                            (query_default "desc" order))))).
Proof.
  split; [| split].
  - intros rid st. unfold reservations_statement.
    destruct rid as [[|a s]|], st as [[|b t]|]; cbn; split;
      try reflexivity; tauto.
  - intros rid. unfold review_stats_statement.
    destruct rid as [[|a s]|]; cbn; split; try reflexivity; tauto.
  - intros rid mr sb ord db.
    destruct (query_ok mr sb ord) eqn:Q;
      [right | left; now apply get_reviews_rejected].
    unfold query_ok in Q.
    apply andb_true_iff in Q. destruct Q as [Q Ho].
    apply andb_true_iff in Q. destruct Q as [_ Hs].
    apply regex_cases in Hs, Ho. unfold reviews_statement.
    destruct Hs as [-> | ->], Ho as [-> | ->];
      destruct rid as [[|a s]|], (truthy_int mr); cbn; split;
      try reflexivity; tauto.
Qed.

(** X13.  In every response of the review list the average is absent exactly
    when the count is zero. *)
Theorem average_absent_iff_no_reviews (restaurant_id : option string)
  (min_rating : option Z) (sort_by order : option string) (db db' : DB.t)
  (resp : ReviewsWithStats.t F) :
  Float64_quotient_nonzero F ->
  DB_ok db ->
  get_reviews restaurant_id min_rating sort_by order db = (inr resp, db') ->
  0 <= ReviewStats.total_reviews (ReviewsWithStats.stats resp)
  /\ (ReviewStats.avg_rating (ReviewsWithStats.stats resp) = None
      <-> ReviewStats.total_reviews (ReviewsWithStats.stats resp) = 0).
Proof.
  intros law (_ & _ & Hchk) H.
  destruct (query_ok min_rating sort_by order) eqn:Q;
    [| rewrite get_reviews_rejected in H by exact Q; discriminate].
  rewrite get_reviews_eval in H by exact Q.
  injection H as Hresp _. subst resp.
  cbn [ReviewsWithStats.stats review_stats ReviewStats.total_reviews
       ReviewStats.avg_rating].
  set (rows := filter (review_passes restaurant_id None) (DB.reviews db)).
  assert (Hr : Forall (fun x => 1 <= x <= 5) (map Review.rating rows)).
  { apply Forall_map. subst rows. now apply Forall_filter_keep. }
  rewrite (rounded_average_ratings _ law Hr). unfold sql_count.
  split; [lia |].
  destruct rows as [|x rows']; simpl map; simpl List.length.
  - split; reflexivity.
  - split; [discriminate | lia].
Qed.

(** Highest rating first. *)
Definition rating_descending (a b : Review.t) : Prop :=
  Review.rating b <= Review.rating a.

(** Oldest first. *)
Definition created_ascending (a b : Review.t) : Prop :=
  text_leb (Review.created_at a) (Review.created_at b) = true.

(** X14.  The other two orders the reviews list of the page offers:
    [sort_by=rating] with [order=desc] lists the rows that pass the filters
    highest rating first, [sort_by=created_at] with [order=asc] oldest
    first. *)
Theorem get_reviews_other_orderings (restaurant_id : option string)
  (min_rating : option Z) (db : DB.t) :
  optional (in_range 1 5) min_rating = true ->
  (exists resp,
      get_reviews restaurant_id min_rating (Some "rating") (Some "desc") db
      = (inr resp, db)
      /\ StronglySorted rating_descending (ReviewsWithStats.reviews resp)
      /\ Permutation (ReviewsWithStats.reviews resp)
           (filter (review_passes restaurant_id min_rating) (DB.reviews db)))
  /\ (exists resp,
         get_reviews restaurant_id min_rating (Some "created_at") (Some "asc") db
         = (inr resp, db)
         /\ StronglySorted created_ascending (ReviewsWithStats.reviews resp)
         /\ Permutation (ReviewsWithStats.reviews resp)
              (filter (review_passes restaurant_id min_rating) (DB.reviews db))).
Proof.
  intros Hm. split.
  - eexists. split.
    + apply get_reviews_eval. unfold query_ok. now rewrite Hm.
    + simpl. split; [| apply Permutation_sym, order_by_perm].
      eapply StronglySorted_weaken;
        [| apply (order_by_strongly_sorted (by_term by_rating DESC));
           [apply by_term_total | apply by_term_trans]].
      intros a b H. unfold rating_descending. now apply Z.leb_le.
  - eexists. split.
    + apply get_reviews_eval. unfold query_ok. now rewrite Hm.
    + simpl. split; [| apply Permutation_sym, order_by_perm].
      apply (order_by_strongly_sorted (by_term by_created_at ASC)).
      * apply by_term_total.
      * apply by_term_trans.
Qed.

End Statements.

(* ================================================================== *)
(** * The Next.js variant of the routes

    [app/api/reservations/route.ts] and [app/api/reviews/route.ts] of
    [api-endpoints.md] run prepared statements of fixed text on the same
    schema; [searchParams.get] yields the parameter or [null], and a [null]
    is bound as NULL. *)


Module NextReviews.
Record t {F : Float64} : Type := {
  reviews : list Review.t;
  avgRating : option float;
  totalReviews : Z
}.
Arguments t : clear implicits.
End NextReviews.

Section NextJs.
Context {F : Float64}.

(** [GET] of [app/api/reviews/route.ts]: the rows of
    [SELECT * FROM reviews WHERE restaurant_id = ? ORDER BY created_at DESC]
    and the row of
    [SELECT AVG(rating) as avgRating, COUNT( * ) as totalReviews
     FROM reviews WHERE restaurant_id = ?], sent as they are. *)
Definition nextjs_GET_reviews (restaurantId : option string) (db : DB.t)
  : exn + NextReviews.t F :=
  let bound := [(review_restaurant_id_eq, str_param restaurantId)] in
  match scan (where_all reviews_holds bound) (DB.reviews db) with
  | Some rows =>
      let reviews := order_by (by_term by_created_at DESC) rows in
      match scan (where_all reviews_holds bound) (DB.reviews db) with
      | Some counted =>
          inr {| NextReviews.reviews := reviews;
                 NextReviews.avgRating := sql_avg (map Review.rating counted);
                 NextReviews.totalReviews := sql_count counted |}
      | None => inl Unsupported
      end
  | None => inl Unsupported
  end.

(** The rows with exactly this restaurant id; none when there is no id. *)
Definition review_is_of (restaurantId : option string) (r : Review.t) : bool :=
  match restaurantId with
  | Some v => String.eqb (Review.restaurant_id r) v
  | None => false
  end.

Lemma nextjs_scan_reviews (restaurantId : option string) (db : DB.t) :
  scan (where_all reviews_holds
          [(review_restaurant_id_eq, str_param restaurantId)])
       (DB.reviews db)
  = Some (filter (review_is_of restaurantId) (DB.reviews db)).
Proof.
  apply scan_filter. intros r. destruct restaurantId as [v|]; cbn.
  - now rewrite andb_true_r.
  - reflexivity.
Qed.

(** X15.  The Next.js review route always answers; its list is the reviews whose
    restaurant id is exactly the parameter (the empty string included),
    newest first; the count beside it is the length of that list and the
    average is the unrounded [AVG] of the listed ratings.  Without the
    parameter the list is empty, the count zero and the average null. *)
Theorem nextjs_reviews_route (restaurantId : option string) (db : DB.t) :
  exists resp,
    nextjs_GET_reviews restaurantId db = inr resp
    /\ Permutation (NextReviews.reviews resp)
         (filter (review_is_of restaurantId) (DB.reviews db))
    /\ StronglySorted created_descending (NextReviews.reviews resp)
    /\ NextReviews.totalReviews resp
       = Z.of_nat (List.length (NextReviews.reviews resp))
    /\ NextReviews.avgRating resp
       = sql_avg (map Review.rating
                    (filter (review_is_of restaurantId) (DB.reviews db)))
    /\ (restaurantId = None ->
        NextReviews.reviews resp = []
        /\ NextReviews.totalReviews resp = 0
        /\ NextReviews.avgRating resp = None).
Proof.
  unfold nextjs_GET_reviews. rewrite nextjs_scan_reviews.
  eexists. split; [reflexivity |].
  cbn [NextReviews.reviews NextReviews.totalReviews NextReviews.avgRating].
  split; [apply Permutation_sym, order_by_perm |]. split.
  { apply (order_by_strongly_sorted (by_term by_created_at DESC)).
    - apply by_term_total.
    - apply by_term_trans. }
  split; [unfold sql_count; now rewrite order_by_length |].
  split; [reflexivity |].
  intros ->.
  assert (E : filter (review_is_of None) (DB.reviews db) = []).
  { induction (DB.reviews db) as [|x l IH]; [reflexivity | exact IH]. }
  rewrite E. repeat split.
Qed.


End NextJs.

(* ================================================================== *)
(** * The pages and components

    What the client renders is kept as the sequence of glyphs of the
    rendered text.  A JavaScript number is the rational it denotes (every
    finite double is one); [Math.floor], [%] and the comparisons used here
    are exact on doubles. *)

Inductive glyph : Type := filled_star | half_star | empty_star.

(** [String.prototype.repeat]: a negative count is a [RangeError]. *)
Definition js_repeat (g : glyph) (count : Z) : option (list glyph) :=
  if count <? 0 then None else Some (repeat g (Z.to_nat count)).

(** [x % 1]: the remainder of the truncating division. *)
Definition js_remainder_1 (x : Q) : Q :=
  (x - inject_Z (Z.quot (Qnum x) (Z.pos (Qden x))))%Q.

(** [renderStars] of the restaurant page. *)
Definition page_renderStars (rating : Q) : option (list glyph) :=
  let fullStars := Qfloor rating in
  let hasHalfStar := Qle_bool (1 # 2) (js_remainder_1 rating) in
  let emptyStars := 5 - fullStars - (if hasHalfStar then 1 else 0) in
  match js_repeat filled_star fullStars, js_repeat empty_star emptyStars with
  | Some full, Some empty =>
      Some (full ++ (if hasHalfStar then [half_star] else []) ++ empty)
  | _, _ => None
  end.

(** [renderStars] of [ReviewsList], on an integral rating. *)
Definition list_renderStars (rating : Z) : option (list glyph) :=
  match js_repeat filled_star rating, js_repeat empty_star (5 - rating) with
  | Some full, Some empty => Some (full ++ empty)
  | _, _ => None
  end.

Section PageStars.
Local Open Scope Q_scope.

Lemma js_remainder_1_nonneg (x : Q) :
  0 <= x -> js_remainder_1 x == x - inject_Z (Qfloor x).
Proof.
  intros H. unfold js_remainder_1, Qfloor. destruct x as [n d].
  cbn [Qnum Qden].
  rewrite Z.quot_div_nonneg; [reflexivity | | reflexivity].
  unfold Qle in H. cbn in H. lia.
Qed.

Lemma Qfloor_bounds (x : Q) :
  inject_Z (Qfloor x) <= x /\ x < inject_Z (Qfloor x) + 1.
Proof.
  split; [apply Qfloor_le |].
  pose proof (Qlt_floor x) as H. rewrite inject_Z_plus in H. exact H.
Qed.

(** X17.  The stars of the restaurant page: for a rating from 0 up to, but not
    including, 5.5 they are exactly five glyphs, the whole part of the
    rating filled, then a half star when the fraction is at least one half,
    then empty ones; for any other rating rendering throws. *)
Theorem page_stars (rating : Q) :
  (0 <= rating /\ rating < 11 # 2 ->
   exists (n m : nat) (h : bool),
     page_renderStars rating
     = Some (repeat filled_star n ++ (if h then [half_star] else [])
             ++ repeat empty_star m)
     /\ (n + (if h then 1 else 0) + m = 5)%nat
     /\ Z.of_nat n = Qfloor rating
     /\ (h = true <-> 1 # 2 <= rating - inject_Z (Qfloor rating)))
  /\ (rating < 0 \/ 11 # 2 <= rating -> page_renderStars rating = None).
Proof.
  pose proof (Qfloor_bounds rating) as [Hlo Hhi].
  unfold page_renderStars, js_repeat.
  split.
  - intros [H0 H5].
    assert (Hf0 : (0 <= Qfloor rating)%Z).
    { change 0%Z with (Qfloor 0). now apply Qfloor_resp_le. }
    assert (Hf5 : (Qfloor rating <= 5)%Z).
    { change 5%Z with (Qfloor (11 # 2)). apply Qfloor_resp_le.
      now apply Qlt_le_weak. }
    pose proof (js_remainder_1_nonneg rating H0) as Hrem.
    destruct (Qle_bool (1 # 2) (js_remainder_1 rating)) eqn:Hh.
    + apply Qle_bool_iff in Hh. rewrite Hrem in Hh.
      assert (Hf4 : (Qfloor rating < 5)%Z).
      { rewrite Zlt_Qlt. change (inject_Z 5) with 5%Q. lra. }
      destruct (Z.ltb_spec (Qfloor rating) 0%Z); [lia |].
      destruct (Z.ltb_spec (5 - Qfloor rating - 1)%Z 0%Z); [lia |].
      exists (Z.to_nat (Qfloor rating)), (Z.to_nat (5 - Qfloor rating - 1)%Z), true.
      split; [reflexivity |]. split; [lia |]. split; [lia |].
      split; [intros _; exact Hh | reflexivity].
    + assert (Hn : ~ 1 # 2 <= rating - inject_Z (Qfloor rating)).
      { intros Hc. rewrite <- Hrem in Hc. apply Qle_bool_iff in Hc. congruence. }
      destruct (Z.ltb_spec (Qfloor rating) 0%Z); [lia |].
      destruct (Z.ltb_spec (5 - Qfloor rating - 0)%Z 0%Z); [lia |].
      exists (Z.to_nat (Qfloor rating)), (Z.to_nat (5 - Qfloor rating - 0)%Z), false.
      split; [reflexivity |]. split; [lia |]. split; [lia |].
      split; [discriminate | intros Hc; contradiction].
  - intros [Hneg | Hbig].
    + assert (Hf : (Qfloor rating < 0)%Z).
      { rewrite Zlt_Qlt. change (inject_Z 0) with 0%Q. lra. }
      destruct (Z.ltb_spec (Qfloor rating) 0%Z); [reflexivity | lia].
    + assert (Hf5 : (5 <= Qfloor rating)%Z).
      { change 5%Z with (Qfloor (11 # 2)). now apply Qfloor_resp_le. }
      assert (H0 : 0 <= rating) by lra.
      pose proof (js_remainder_1_nonneg rating H0) as Hrem.
      destruct (Z.ltb_spec (Qfloor rating) 0%Z); [reflexivity |].
      destruct (Qle_bool (1 # 2) (js_remainder_1 rating)) eqn:Hh.
      * destruct (Z.ltb_spec (5 - Qfloor rating - 1)%Z 0%Z); [reflexivity | lia].
      * destruct (Z.ltb_spec (5 - Qfloor rating - 0)%Z 0%Z); [reflexivity |].
        exfalso. assert (Hf : Qfloor rating = 5%Z) by lia.
        assert (Hc : 1 # 2 <= js_remainder_1 rating).
        { rewrite Hrem, Hf. change (inject_Z 5) with 5%Q. lra. }
        apply Qle_bool_iff in Hc. congruence.
Qed.

End PageStars.

Lemma page_stars_witness :
  (0 <= 9 # 2 /\ 9 # 2 < 11 # 2)%Q
  /\ exists (n m : nat) (h : bool),
      page_renderStars (9 # 2)
      = Some (repeat filled_star n ++ (if h then [half_star] else [])
              ++ repeat empty_star m)
      /\ (n + (if h then 1 else 0) + m = 5)%nat.
Proof.
  assert (H : (0 <= 9 # 2 /\ 9 # 2 < 11 # 2)%Q)
    by (split; reflexivity || discriminate).
  split; [exact H |].
  destruct (proj1 (page_stars (9 # 2)) H) as (n & m & h & E & Hsum & _).
  exists n, m, h. split; [exact E | exact Hsum].
Defined.

Section ListStars.
Context {F : Float64}.

(** X18.  The stars of a review in the list: for an integral rating from 0 to 5
    they are exactly five glyphs, [rating] of them filled; for any other
    rating rendering throws.  Every review the service lists, from a
    database whose ratings passed the CHECK constraint, renders. *)
Theorem review_stars :
  (forall rating : Z,
      (0 <= rating <= 5 ->
       list_renderStars rating
       = Some (repeat filled_star (Z.to_nat rating)
               ++ repeat empty_star (Z.to_nat (5 - rating)))
       /\ (Z.to_nat rating + Z.to_nat (5 - rating) = 5)%nat)
      /\ (rating < 0 \/ 5 < rating -> list_renderStars rating = None))
  /\ (forall (restaurant_id : option string) (min_rating : option Z)
             (sort_by order : option string) (db db' : DB.t)
             (resp : ReviewsWithStats.t F) (r : Review.t),
         DB_ok db ->
         get_reviews restaurant_id min_rating sort_by order db = (inr resp, db') ->
         In r (ReviewsWithStats.reviews resp) ->
         exists stars,
           list_renderStars (Review.rating r) = Some stars
           /\ List.length stars = 5%nat).
Proof.
  assert (H1 : forall rating : Z,
             0 <= rating <= 5 ->
             list_renderStars rating
             = Some (repeat filled_star (Z.to_nat rating)
                     ++ repeat empty_star (Z.to_nat (5 - rating)))).
  { intros rating H. unfold list_renderStars, js_repeat.
    destruct (Z.ltb_spec rating 0); [lia |].
    destruct (Z.ltb_spec (5 - rating) 0); [lia | reflexivity]. }
  split.
  - intros rating. split.
    + intros H. split; [now apply H1 | lia].
    + intros H. unfold list_renderStars, js_repeat.
      destruct (Z.ltb_spec rating 0); [reflexivity |].
      destruct (Z.ltb_spec (5 - rating) 0); [reflexivity | lia].
  - intros rid mr sb ord db db' resp r (_ & _ & Hchk) H Hin.
    destruct (query_ok mr sb ord) eqn:Q;
      [| rewrite get_reviews_rejected in H by exact Q; discriminate].
    rewrite get_reviews_eval in H by exact Q.
    injection H as Hresp _. subst resp. cbn in Hin.
    apply order_by_In in Hin. apply filter_In in Hin. destruct Hin as [Hin _].
    rewrite Forall_forall in Hchk. specialize (Hchk r Hin).
    eexists. split; [apply H1; lia |].
    rewrite length_app, !repeat_length. lia.
Qed.

End ListStars.

(** ** The reservation form *)

(** [Number.prototype.toString] on a natural number. *)
Definition Number_toString (n : nat) : string :=
  NilZero.string_of_uint (Nat.to_uint n).

(** The filler of [padStart]: the pad string over and over, cut to
    [n] characters. *)
Fixpoint pad_filler (pad rest : string) (n : nat) : string :=
  match n with
  | O => EmptyString
  | S n' =>
      match rest with
      | String c rest' => String c (pad_filler pad rest' n')
      | EmptyString =>
          match pad with
          | String c rest' => String c (pad_filler pad rest' n')
          | EmptyString => EmptyString
          end
      end
  end.

(** [String.prototype.padStart]. *)
Definition padStart (targetLength : nat) (padString : string) (s : string)
  : string :=
  (pad_filler padString padString (targetLength - String.length s) ++ s)%string.

(** The element of [timeSlots] at index [i]. *)
Definition time_slot (i : nat) : string :=
  let hour := (i / 2 + 11)%nat in
  let minutes := if (i mod 2 =? 0)%nat then "00" else "30" in
  (padStart 2 "0" (Number_toString hour) ++ ":" ++ minutes)%string.

(** [Array.from({ length: 21 }, (_, i) => ...)]. *)
Definition timeSlots : list string := map time_slot (seq 0 21).

(** The party sizes the form offers:
    [Array.from({ length: 12 }, (_, i) => i + 1)]. *)
Definition party_sizes : list Z := map (fun i => Z.of_nat i + 1) (seq 0 12).

Definition slots_in_order : bool :=
  forallb (fun i =>
             forallb (fun j =>
                        if (i <? j)%nat
                        then text_ltb (time_slot i) (time_slot j)
                        else true)
                     (seq 0 21)
             && (String.length (time_slot i) =? 5)%nat
             && text_leb "11:00" (time_slot i)
             && text_leb (time_slot i) "21:00")
          (seq 0 21).

(** X19.  The form offers 21 time slots, each five characters between [11:00]
    and [21:00], in strictly increasing text order: that is the order the
    service lists reservations in, so two reservations of one date made
    with slots [i < j] are listed in that order.  Every party size it
    offers is within the range the service accepts. *)
Theorem form_offers_what_the_service_orders :
  List.length timeSlots = 21%nat
  /\ (forall i : nat, (i < 21)%nat ->
         String.length (time_slot i) = 5%nat
         /\ text_leb "11:00" (time_slot i) = true
         /\ text_leb (time_slot i) "21:00" = true)
  /\ (forall i j : nat, (i < j)%nat -> (j < 21)%nat ->
         text_ltb (time_slot i) (time_slot j) = true)
  /\ (forall (i j : nat) (a b : Reservation.t),
         (i < j)%nat -> (j < 21)%nat ->
         Reservation.reservation_date a = Reservation.reservation_date b ->
         Reservation.reservation_time a = time_slot i ->
         Reservation.reservation_time b = time_slot j ->
         by_date_time a b = true /\ by_date_time b a = false)
  /\ Forall (fun n => in_range 1 20 n = true) party_sizes.
Proof.
  assert (H : slots_in_order = true) by (vm_compute; reflexivity).
  unfold slots_in_order in H. rewrite forallb_forall in H.
  assert (Hi : forall i, (i < 21)%nat -> In i (seq 0 21)).
  { intros i Hlt. apply in_seq. lia. }
  assert (Hlt : forall i j : nat, (i < j)%nat -> (j < 21)%nat ->
                  text_ltb (time_slot i) (time_slot j) = true).
  { intros i j Hij Hj. specialize (H i (Hi i ltac:(lia))).
    rewrite !andb_true_iff in H. destruct H as [[[H _] _] _].
    rewrite forallb_forall in H. specialize (H j (Hi j Hj)).
    destruct (Nat.ltb_spec i j); [exact H | lia]. }
  split; [reflexivity |]. split; [| split; [exact Hlt | split]].
  - intros i Hlt'. specialize (H i (Hi i Hlt')).
    rewrite !andb_true_iff, Nat.eqb_eq in H. tauto.
  - intros i j a b Hij Hj Hd Ha Hb. specialize (Hlt i j Hij Hj).
    unfold by_date_time. rewrite Hd, Ha, Hb, String.eqb_refl, text_ltb_irrefl.
    cbn [orb andb]. unfold text_leb, String.leb.
    unfold text_ltb, String.ltb in Hlt. split.
    { destruct (String.compare (time_slot i) (time_slot j));
        [reflexivity | reflexivity | discriminate]. }
    rewrite String.compare_antisym.
    destruct (String.compare (time_slot i) (time_slot j)); try discriminate.
    reflexivity.
  - unfold party_sizes. repeat constructor.
Qed.

(** ** The review form *)

(** The state of [ReviewForm]: every text field is a string, empty until
    the user types; the rating is 0 until a star is clicked. *)
Module ReviewFormData.
Record t : Type := {
  restaurant_id : string;
  reviewer_name : string;
  reviewer_email : string;
  rating : Z;
  title : string;
  comment : string;
  visit_date : string
}.
End ReviewFormData.

(** [JSON.stringify(formData)] as the service reads it: every member is
    present, and a string, empty or not, is a value of its field. *)
Definition ReviewForm_body (f : ReviewFormData.t) : ReviewCreate.t :=
  {| ReviewCreate.restaurant_id := ReviewFormData.restaurant_id f;
     ReviewCreate.reviewer_name := ReviewFormData.reviewer_name f;
     ReviewCreate.reviewer_email := Some (ReviewFormData.reviewer_email f);
     ReviewCreate.rating := ReviewFormData.rating f;
     ReviewCreate.title := Some (ReviewFormData.title f);
     ReviewCreate.comment := Some (ReviewFormData.comment f);
     ReviewCreate.visit_date := Some (ReviewFormData.visit_date f) |}.

(** How a submit ends: with the form's own message and no request, with
    the created review, or with the request failing. *)
Inductive submit_outcome : Type :=
| local_error (message : string)
| submitted (row : Review.t)
| request_failed (e : exn).

Section ReviewForm.
Variable EmailStr : string -> bool.

(** [handleSubmit] of [ReviewForm]. *)
Definition ReviewForm_handleSubmit (formData : ReviewFormData.t)
  (now : timestamp) (db : DB.t) : submit_outcome * DB.t :=
  if ReviewFormData.rating formData =? 0
  then (local_error "Please select a rating", db)
  else
    match create_review EmailStr (ReviewForm_body formData) now db with
    | (inr row, db') => (submitted row, db')
    | (inl e, db') => (request_failed e, db')
    end.

Lemma create_review_eval (v : ReviewCreate.t) (now : timestamp) (db : DB.t) :
  DB_ok db ->
  ReviewCreate_valid EmailStr v = true ->
  exists row db',
    create_review EmailStr v now db = (inr row, db')
    /\ stores_review v row
    /\ DB.reviews db' = DB.reviews db ++ [row].
Proof.
  intros (_ & Hids & _) Hv.
  unfold create_review, validated. rewrite Hv.
  assert (Hr : (1 <=? ReviewCreate.rating v) && (ReviewCreate.rating v <=? 5)
               = true).
  { unfold ReviewCreate_valid, in_range in Hv.
    apply andb_true_iff in Hv. destruct Hv as [Hv _].
    apply andb_true_iff in Hv. destruct Hv as [_ Hv]. exact Hv. }
  unfold get_db, bind, insert_review, select_review_by_id, fetched.
  rewrite Hr. cbn -[find].
  set (row := {| Review.id := DB.reviews_seq db + 1;
                 Review.created_at := now |}).
  assert (Hf : find (fun r => Review.id r =? DB.reviews_seq db + 1)
                    (DB.reviews db ++ [row]) = Some row).
  { apply (find_fresh_review _ row _ Hids). reflexivity. }
  exists row. eexists. rewrite Hf. cbn -[find].
  split; [reflexivity |]. split; [now repeat split | reflexivity].
Qed.

(** X20.  With an email validator that refuses the empty string, the review
    form stores a review only when a star was clicked and the email field
    was filled in: with the rating still 0 it shows its own message and
    sends nothing, and with the email left blank the service rejects the
    request; either way nothing is written.  With a name of 1 to 100
    characters, an email the validator takes, a rating from the five stars
    and a title of at most 200 characters the review is stored, its blank
    text fields as empty strings. *)
Theorem review_form_submit (formData : ReviewFormData.t) (now : timestamp)
  (db : DB.t) :
  EmailStr "" = false ->
  (ReviewFormData.rating formData = 0 ->
   ReviewForm_handleSubmit formData now db
   = (local_error "Please select a rating", db))
  /\ (ReviewFormData.reviewer_email formData = "" ->
      snd (ReviewForm_handleSubmit formData now db) = db
      /\ forall row, fst (ReviewForm_handleSubmit formData now db)
                     <> submitted row)
  /\ (DB_ok db ->
      1 <= ReviewFormData.rating formData <= 5 ->
      length_between 1 100 (ReviewFormData.reviewer_name formData) = true ->
      EmailStr (ReviewFormData.reviewer_email formData) = true ->
      length_between 0 200 (ReviewFormData.title formData) = true ->
      exists row db',
        ReviewForm_handleSubmit formData now db = (submitted row, db')
        /\ DB.reviews db' = DB.reviews db ++ [row]
        /\ Review.title row = Some (ReviewFormData.title formData)
        /\ Review.comment row = Some (ReviewFormData.comment formData)
        /\ Review.visit_date row = Some (ReviewFormData.visit_date formData)).
Proof.
  intros Hempty. unfold ReviewForm_handleSubmit. split; [| split].
  - intros ->. reflexivity.
  - intros He. destruct (ReviewFormData.rating formData =? 0).
    + split; [reflexivity | discriminate].
    + unfold create_review, validated, ReviewCreate_valid, ReviewForm_body.
      cbn [ReviewCreate.reviewer_email optional]. rewrite He, Hempty.
      rewrite andb_false_r. cbn. split; [reflexivity | discriminate].
  - intros Hok Hr Hn He Ht.
    destruct (Z.eqb_spec (ReviewFormData.rating formData) 0); [lia |].
    assert (Hv : ReviewCreate_valid EmailStr (ReviewForm_body formData) = true).
    { unfold ReviewCreate_valid, ReviewForm_body, in_range.
      cbn [ReviewCreate.reviewer_name ReviewCreate.reviewer_email
           ReviewCreate.rating ReviewCreate.title optional].
      rewrite Hn, He, Ht.
      destruct (Z.leb_spec 1 (ReviewFormData.rating formData)); [| lia].
      destruct (Z.leb_spec (ReviewFormData.rating formData) 5); [| lia].
      reflexivity. }
    destruct (create_review_eval _ now db Hok Hv)
      as (row & db' & Hc & Hs & Hrows).
    rewrite Hc. exists row, db'. split; [reflexivity |]. split; [exact Hrows |].
    destruct Hs as (_ & _ & _ & _ & H1 & H2 & H3). repeat split; assumption.
Qed.

End ReviewForm.

(** A form with a name, five stars and the email left blank. *)
Definition blank_email_form : ReviewFormData.t :=
  {| ReviewFormData.restaurant_id := "r1";
     ReviewFormData.reviewer_name := "A";
     ReviewFormData.reviewer_email := "";
     ReviewFormData.rating := 5;
     ReviewFormData.title := "";
     ReviewFormData.comment := "";
     ReviewFormData.visit_date := "" |}.

Lemma review_form_submit_witness :
  has_at_sign "" = false
  /\ snd (ReviewForm_handleSubmit has_at_sign blank_email_form
            "2024-12-26 12:00:00" three_reviews_db) = three_reviews_db
  /\ forall row,
      fst (ReviewForm_handleSubmit has_at_sign blank_email_form
             "2024-12-26 12:00:00" three_reviews_db) <> submitted row.
Proof.
  split; [reflexivity |].
  apply (review_form_submit has_at_sign blank_email_form
           "2024-12-26 12:00:00" three_reviews_db eq_refl).
  reflexivity.
Defined.

(* ================================================================== *)
(** * Further runs of the service *)

Lemma two_bookings_db_reachable : reachable has_at_sign two_bookings_db.
Proof.
  unfold two_bookings_db. repeat apply reach_create_reservation.
  apply reach_init.
Qed.

Lemma reachable_invariant_witness :
  reachable has_at_sign two_bookings_db
  /\ NoDup (map Reservation.id (DB.reservations two_bookings_db))
  /\ DB_invariant two_bookings_db.
Proof.
  split; [apply two_bookings_db_reachable |].
  destruct (reachable_invariant has_at_sign two_bookings_db
              two_bookings_db_reachable) as (I & N & _).
  split; [exact N | exact I].
Defined.

Lemma reservation_id_not_reused_witness :
  exists r db1 row db2,
    find (has_id 2) (DB.reservations two_bookings_db) = Some r
    /\ delete_reservation 2 two_bookings_db = (inr tt, db1)
    /\ create_reservation has_at_sign (reservation_for "r1" 3)
         "2024-12-03 09:00:00" db1 = (inr row, db2)
    /\ Reservation.id row = 3.
Proof.
  destruct (reservation_id_not_reused has_at_sign 2 _ (reservation_for "r1" 3)
              "2024-12-03 09:00:00" two_bookings_db two_bookings_db_ok
              eq_refl eq_refl)
    as (db1 & row & db2 & Hd & Hc & Hid & _).
  eexists. exists db1, row, db2. split; [reflexivity |].
  split; [exact Hd |]. split; [exact Hc |]. rewrite Hid. reflexivity.
Defined.

(** The patch [{ party_size: 6, notes: "window" }]. *)
Definition size_and_notes_patch : ReservationUpdate.t :=
  {| ReservationUpdate.customer_name := unset;
     ReservationUpdate.customer_email := unset;
     ReservationUpdate.customer_phone := unset;
     ReservationUpdate.party_size := given (Some 6);
     ReservationUpdate.reservation_date := unset;
     ReservationUpdate.reservation_time := unset;
     ReservationUpdate.status := unset;
     ReservationUpdate.notes := given (Some "window") |}.

(** The patch [{ party_size: 6 }]. *)
Definition size_patch : ReservationUpdate.t :=
  {| ReservationUpdate.customer_name := unset;
     ReservationUpdate.customer_email := unset;
     ReservationUpdate.customer_phone := unset;
     ReservationUpdate.party_size := given (Some 6);
     ReservationUpdate.reservation_date := unset;
     ReservationUpdate.reservation_time := unset;
     ReservationUpdate.status := unset;
     ReservationUpdate.notes := unset |}.

(** The patch [{ notes: "window" }]. *)
Definition notes_patch : ReservationUpdate.t :=
  {| ReservationUpdate.customer_name := unset;
     ReservationUpdate.customer_email := unset;
     ReservationUpdate.customer_phone := unset;
     ReservationUpdate.party_size := unset;
     ReservationUpdate.reservation_date := unset;
     ReservationUpdate.reservation_time := unset;
     ReservationUpdate.status := unset;
     ReservationUpdate.notes := given (Some "window") |}.

(** The patch [{ customer_name: null, customer_phone: "555" }]. *)
Definition phone_and_null_name_patch : ReservationUpdate.t :=
  {| ReservationUpdate.customer_name := given None;
     ReservationUpdate.customer_email := unset;
     ReservationUpdate.customer_phone := given (Some "555");
     ReservationUpdate.party_size := unset;
     ReservationUpdate.reservation_date := unset;
     ReservationUpdate.reservation_time := unset;
     ReservationUpdate.status := unset;
     ReservationUpdate.notes := unset |}.

Lemma update_applies_patch_witness :
  exists r row db',
    find (has_id 2) (DB.reservations two_bookings_db) = Some r
    /\ update_reservation has_at_sign 2 size_and_notes_patch
         "2024-12-02 08:00:00" two_bookings_db = (inr row, db')
    /\ column_value c_party_size row = SqlInt 6
    /\ column_value c_notes row = SqlText "window"
    /\ column_value c_customer_email row = column_value c_customer_email r.
Proof.
  destruct (update_applies_patch has_at_sign 2 size_and_notes_patch
              "2024-12-02 08:00:00" two_bookings_db _ eq_refl eq_refl
              ltac:(discriminate) eq_refl)
    as (row & db' & Hu & _ & Hval & _ & Hframe & _).
  eexists. exists row, db'. split; [reflexivity |]. split; [exact Hu |].
  split; [apply (Hval (set_party_size (Some 6))); cbn; tauto |].
  split; [apply (Hval (set_notes (Some "window"))); cbn; tauto |].
  apply Hframe; [discriminate |].
  cbn. intros a [<- | [<- | []]]; discriminate.
Defined.

Lemma update_all_or_nothing_witness :
  exists r detail,
    find (has_id 2) (DB.reservations two_bookings_db) = Some r
    /\ forallb accepted (model_dump_exclude_unset phone_and_null_name_patch)
       = false
    /\ update_reservation has_at_sign 2 phone_and_null_name_patch
         "2024-12-02 08:00:00" two_bookings_db
       = (inl (IntegrityError detail), two_bookings_db).
Proof.
  destruct (update_all_or_nothing has_at_sign 2 phone_and_null_name_patch
              "2024-12-02 08:00:00" two_bookings_db _ eq_refl eq_refl eq_refl)
    as (detail & Hu & _).
  eexists. exists detail. split; [reflexivity |]. split; [reflexivity |].
  exact Hu.
Defined.

Lemma updates_of_different_columns_commute_witness :
  exists r row db',
    find (has_id 2) (DB.reservations two_bookings_db) = Some r
    /\ update_reservation has_at_sign 2 notes_patch "2024-12-02 09:00:00"
         (after (update_reservation has_at_sign 2 size_patch
                   "2024-12-02 08:00:00") two_bookings_db) = (inr row, db')
    /\ update_reservation has_at_sign 2 size_patch "2024-12-02 09:00:00"
         (after (update_reservation has_at_sign 2 notes_patch
                   "2024-12-02 08:00:00") two_bookings_db) = (inr row, db').
Proof.
  destruct (updates_of_different_columns_commute has_at_sign 2
              size_patch notes_patch
              (set_party_size (Some 6)) (set_notes (Some "window"))
              "2024-12-02 08:00:00" "2024-12-02 09:00:00" two_bookings_db _
              eq_refl eq_refl eq_refl eq_refl eq_refl eq_refl eq_refl
              ltac:(discriminate))
    as (row & db' & H1 & H2 & _).
  eexists. exists row, db'. split; [reflexivity |]. split; [exact H1 | exact H2].
Defined.

Lemma cancel_twice_witness :
  exists r row1 db1 row2 db2,
    find (has_id 1) (DB.reservations two_bookings_db) = Some r
    /\ cancelReservation has_at_sign 1 "2024-12-02 08:00:00" two_bookings_db
       = (inr row1, db1)
    /\ cancelReservation has_at_sign 1 "2024-12-02 09:00:00" db1
       = (inr row2, db2)
    /\ Reservation.status row2 = Some "cancelled".
Proof.
  destruct (cancel_twice has_at_sign 1 "2024-12-02 08:00:00"
              "2024-12-02 09:00:00" two_bookings_db _ eq_refl)
    as (row1 & db1 & row2 & db2 & H1 & H2 & Hs & _ & E).
  eexists. exists row1, db1, row2, db2. split; [reflexivity |].
  split; [exact H1 |]. split; [exact H2 |]. rewrite E. exact Hs.
Defined.

Lemma average_absent_iff_no_reviews_witness :
  DB_ok three_reviews_db
  /\ exists resp,
      @get_reviews ExactFloat (Some "r9") None None None three_reviews_db
      = (inr resp, three_reviews_db)
      /\ (ReviewStats.avg_rating (ReviewsWithStats.stats resp) = None
          <-> ReviewStats.total_reviews (ReviewsWithStats.stats resp) = 0).
Proof.
  split; [apply three_reviews_db_ok |].
  eexists. split; [vm_compute; reflexivity |].
  eapply (@average_absent_iff_no_reviews ExactFloat (Some "r9") None None None
            three_reviews_db three_reviews_db _ ExactFloat_quotient_nonzero
            three_reviews_db_ok).
  vm_compute. reflexivity.
Defined.

Lemma get_reviews_other_orderings_witness :
  optional (in_range 1 5) (Some 3) = true
  /\ exists resp,
      @get_reviews ExactFloat (Some "r1") (Some 3) (Some "rating") (Some "desc")
        three_reviews_db = (inr resp, three_reviews_db)
      /\ StronglySorted rating_descending (ReviewsWithStats.reviews resp).
Proof.
  split; [reflexivity |].
  destruct (@get_reviews_other_orderings ExactFloat (Some "r1") (Some 3)
              three_reviews_db eq_refl) as ((resp & H & Hs & _) & _).
  exists resp. split; [exact H | exact Hs].
Defined.

(* ================================================================== *)
(** * Writes seen by the lists *)

Section WritesAreListed.
Variable EmailStr : string -> bool.
Context {F : Float64}.

(** X21.  A created review is counted and listed at once: for its restaurant
    (of a non-empty id) the next response counts one review more and lists
    the new row; for every other restaurant the list and the stats are what
    they were. *)
Theorem created_review_is_counted (v : ReviewCreate.t) (now : timestamp)
  (db : DB.t) :
  DB_ok db ->
  ReviewCreate_valid EmailStr v = true ->
  ReviewCreate.restaurant_id v <> "" ->
  exists row db' before after,
    create_review EmailStr v now db = (inr row, db')
    /\ get_reviews (Some (ReviewCreate.restaurant_id v)) None None None db
       = (inr before, db)
    /\ get_reviews (Some (ReviewCreate.restaurant_id v)) None None None db'
       = (inr after, db')
    /\ ReviewStats.total_reviews (ReviewsWithStats.stats after)
       = ReviewStats.total_reviews (ReviewsWithStats.stats before) + 1
    /\ In row (ReviewsWithStats.reviews after)
    /\ (forall other : string,
           other <> "" -> other <> ReviewCreate.restaurant_id v ->
           exists resp,
             get_reviews (Some other) None None None db = (inr resp, db)
             /\ get_reviews (Some other) None None None db' = (inr resp, db')).
Proof.
  intros Hok Hv Hne.
  destruct (create_review_eval EmailStr v now db Hok Hv)
    as (row & db' & Hc & Hs & Hrows).
  destruct Hs as (Hrid & _).
  exists row, db'. do 2 eexists. split; [exact Hc |].
  split; [now apply get_reviews_eval |].
  split; [now apply get_reviews_eval |].
  cbn [ReviewsWithStats.stats ReviewsWithStats.reviews review_stats
       ReviewStats.total_reviews].
  rewrite Hrows, !filter_app.
  assert (Hrow : review_passes (Some (ReviewCreate.restaurant_id v)) None row
                 = true).
  { unfold review_passes, filter_passes. rewrite Hrid.
    destruct (ReviewCreate.restaurant_id v) as [|a s]; [congruence |].
    now rewrite String.eqb_refl. }
  cbn [filter]. rewrite Hrow. split; [| split].
  - unfold sql_count. rewrite !length_app. cbn [List.length]. lia.
  - apply order_by_In. apply in_or_app. right. now left.
  - intros other Ho Hd. eexists.
    split; [now apply get_reviews_eval |].
    rewrite get_reviews_eval by reflexivity.
    assert (Hother : review_passes (Some other) None row = false).
    { unfold review_passes, filter_passes. rewrite Hrid.
      destruct other as [|a s]; [congruence |].
      rewrite andb_true_r. apply String.eqb_neq. congruence. }
    unfold review_stats. rewrite Hrows, !filter_app. cbn [filter].
    rewrite Hother, !app_nil_r. reflexivity.
Qed.

(** X22.  A created reservation is listed at once: the list of its restaurant
    (of a non-empty id) with the status filter [pending] holds the new row,
    and the unfiltered list is one row longer. *)
Theorem created_reservation_is_listed (v : ReservationCreate.t)
  (now : timestamp) (db : DB.t) :
  DB_ok db ->
  ReservationCreate_valid EmailStr v = true ->
  ReservationCreate.restaurant_id v <> "" ->
  exists row db' mine all_before all_after,
    create_reservation EmailStr v now db = (inr row, db')
    /\ get_reservations (Some (ReservationCreate.restaurant_id v))
         (Some "pending") db' = (inr mine, db')
    /\ In row mine
    /\ get_reservations None None db = (inr all_before, db)
    /\ get_reservations None None db' = (inr all_after, db')
    /\ List.length all_after = S (List.length all_before)
    /\ Permutation all_after (row :: all_before).
Proof.
  intros Hok Hv Hne.
  destruct (create_reservation_eval EmailStr v now db Hok Hv)
    as (row & db' & Hc & _ & Hs & Hst & Hrows).
  destruct Hs as (Hrid & _).
  exists row, db'. do 3 eexists. split; [exact Hc |].
  split; [apply get_reservations_eval |]. split.
  { apply order_by_In. rewrite Hrows. apply filter_In. split.
    - apply in_or_app. right. now left.
    - unfold reservation_passes, filter_passes. rewrite Hrid, Hst.
      destruct (ReservationCreate.restaurant_id v) as [|a s]; [congruence |].
      now rewrite String.eqb_refl. }
  split; [apply get_reservations_eval |].
  split; [apply get_reservations_eval |].
  assert (E : forall l, filter (reservation_passes None None) l = l).
  { induction l as [|x l IH]; simpl; [reflexivity | now rewrite IH]. }
  rewrite !E, Hrows. split.
  - rewrite !order_by_length, length_app. cbn. lia.
  - eapply perm_trans; [apply Permutation_sym, order_by_perm |].
    eapply perm_trans; [apply Permutation_sym, Permutation_cons_append |].
    apply perm_skip. apply order_by_perm.
Qed.

End WritesAreListed.

Lemma created_review_is_counted_witness :
  DB_ok three_reviews_db
  /\ ReviewCreate_valid has_at_sign (review_for "r1" "D" 2) = true
  /\ "r1" <> ""
  /\ exists row db' after,
      create_review has_at_sign (review_for "r1" "D" 2) "2024-12-26 12:00:00"
        three_reviews_db = (inr row, db')
      /\ @get_reviews ExactFloat (Some "r1") None None None db' = (inr after, db')
      /\ ReviewStats.total_reviews (ReviewsWithStats.stats after) = 4.
Proof.
  split; [apply three_reviews_db_ok |]. split; [reflexivity |].
  split; [discriminate |].
  destruct (@created_review_is_counted has_at_sign ExactFloat
              (review_for "r1" "D" 2) "2024-12-26 12:00:00" three_reviews_db
              three_reviews_db_ok eq_refl ltac:(discriminate))
    as (row & db' & before & after & Hc & Hb & Ha & Ht & _).
  exists row, db', after. split; [exact Hc |]. split; [exact Ha |].
  rewrite Ht. vm_compute in Hb. inversion Hb. reflexivity.
Defined.

Lemma created_reservation_is_listed_witness :
  DB_ok two_bookings_db
  /\ ReservationCreate_valid has_at_sign (reservation_for "r1" 3) = true
  /\ "r1" <> ""
  /\ exists row db' mine,
      create_reservation has_at_sign (reservation_for "r1" 3)
        "2024-12-03 09:00:00" two_bookings_db = (inr row, db')
      /\ get_reservations (Some "r1") (Some "pending") db' = (inr mine, db')
      /\ In row mine.
Proof.
  split; [apply two_bookings_db_ok |]. split; [reflexivity |].
  split; [discriminate |].
  destruct (created_reservation_is_listed has_at_sign (reservation_for "r1" 3)
              "2024-12-03 09:00:00" two_bookings_db two_bookings_db_ok eq_refl
              ltac:(discriminate))
    as (row & db' & mine & _ & _ & Hc & Hm & Hin & _).
  exists row, db', mine. split; [exact Hc |]. split; [exact Hm | exact Hin].
Defined.
